(** * Result reconciliation in the shopping agent

    A shallow embedding of [src/python/shopping_agent/product_detection.py]:
    the methods [detect_products], [search_products], [find_best_deal] and
    [get_price_history] of [ProductDetectionAgent], the mock generator
    [_generate_mock_results] they call, and the Python built-ins they use;
    then the constructor, [find_similar_products], [track_price],
    [get_buying_options] and [load_config], and the routes of
    [src/python/shopping_agent/api_server.py] that read the query string.

    Conventions of the embedding.
    - A Python [float] is an exact rational ([Q]); [float("inf")] has its own
      constructor.  Order and equality of scores are those of the rationals;
      binary rounding and NaN are outside the model.
    - A Python [str] is a byte string; case mapping is defined on the ASCII
      letters.
    - A statement block runs in the monad [M]: it threads the records handed
      to [logger] and ends with a value ([Return]) or an exception
      ([Raise]); [try_except] is [try: ... except Exception as e: ...].
    - The calls that leave the process (Google Cloud Vision, OpenAI, the
      file system, the clock, the random generator) are fields of the agent
      or of an environment record and are quantified over in the theorems. *)

From Stdlib Require Import Ascii String QArith Qround Lqa.
From stdpp Require Import base decidable strings list gmap pretty sorting.

Local Open Scope Z_scope.

(** ** Python built-ins *)
Module Py.

(** *** Exceptions, logging and the statement monad *)

Inductive exn : Type := Exn (kind : string) (text : string).

(** [str(e)], as used by the f-strings of the [except] blocks. *)
Definition exn_str (e : exn) : string := match e with Exn _ text => text end.

(** [type(e).__name__] *)
Definition exn_kind (e : exn) : string := match e with Exn kind _ => kind end.

(** [isinstance(e, Exception)].  Of the exceptions of the interpreter,
    [BaseException] itself, [GeneratorExit], [KeyboardInterrupt] and
    [SystemExit] do not derive from [Exception]: an [except Exception]
    block lets them pass. *)
Definition is_exception (e : exn) : bool :=
  bool_decide (exn_kind e ∉ ["BaseException"; "GeneratorExit";
                             "KeyboardInterrupt"; "SystemExit"]).

Inductive outcome (A : Type) : Type :=
  | Return (a : A)
  | Raise (e : exn).
Arguments Return {A} a.
Arguments Raise {A} e.

Inductive level : Type := DEBUG | INFO | WARNING | ERROR.

Record log_record : Type := LogRecord { levelname : level; message : string }.

Definition M (A : Type) : Type := list log_record → outcome A * list log_record.

Definition ret {A} (a : A) : M A := λ log, (Return a, log).

Definition raise {A} (e : exn) : M A := λ log, (Raise e, log).

Definition bind {A B} (c : M A) (k : A → M B) : M B := λ log,
  match c log with
  | (Return a, log') => k a log'
  | (Raise e, log') => (Raise e, log')
  end.

(** A call whose outcome is known: a pure function that may raise, or an
    external collaborator. *)
Definition call {A} (o : outcome A) : M A := λ log, (o, log).

(** [try: body  except Exception as e: handler e], for the exceptions that
    are instances of [Exception].  The model hands every exception to the
    handler: what the code does with one that is no [Exception] is outside
    of it, and a statement about what is caught names [is_exception]. *)
Definition try_except {A} (body : M A) (handler : exn → M A) : M A := λ log,
  match body log with
  | (Return a, log') => (Return a, log')
  | (Raise e, log') => handler e log'
  end.

(** A call that fails, if it does, with an instance of [Exception]. *)
Definition raises_exceptions_only {A} (o : outcome A) : Prop :=
  ∀ e, o = Raise e → is_exception e = true.

(** [logger.info(msg)], [logger.error(msg)], ... *)
Definition logger (lv : level) (msg : string) : M unit := λ log,
  (Return tt, log ++ [LogRecord lv msg]).

Notation "x <- c ;; k" := (bind c (λ x, k))
  (at level 100, c at next level, right associativity).
Notation "c ;;; k" := (bind c (λ _, k))
  (at level 100, right associativity).

(** *** Strings *)

Definition is_upper (c : ascii) : bool :=
  let n := N_of_ascii c in ((65 <=? n) && (n <=? 90))%N.
Definition is_lower (c : ascii) : bool :=
  let n := N_of_ascii c in ((97 <=? n) && (n <=? 122))%N.
Definition is_cased (c : ascii) : bool := is_upper c || is_lower c.
Definition is_digit (c : ascii) : bool :=
  let n := N_of_ascii c in ((48 <=? n) && (n <=? 57))%N.

Definition lower_char (c : ascii) : ascii :=
  if is_upper c then ascii_of_N (N_of_ascii c + 32) else c.
Definition upper_char (c : ascii) : ascii :=
  if is_lower c then ascii_of_N (N_of_ascii c - 32) else c.

(** Whether every character of [s] is an ASCII character. *)
Fixpoint is_ascii (s : string) : bool :=
  match s with
  | EmptyString => true
  | String c s' => (N_of_ascii c <? 128)%N && is_ascii s'
  end.

(** [len(s)]: the number of characters, that is of the bytes that do not
    continue a character (those outside [0x80..0xBF]). *)
Fixpoint str_len (s : string) : Z :=
  match s with
  | EmptyString => 0
  | String c s' =>
      let n := N_of_ascii c in
      (if ((128 <=? n) && (n <? 192))%N then 0 else 1) + str_len s'
  end.

(** What the interpreter does with text that has a character outside
    ASCII is left open: the case mappings of Unicode are tables of the
    interpreter.  The theorems hold for every such interpreter. *)
Class Interpreter : Type := {
  (** [s.lower()] *)
  unicode_lower : string → string;
  (** [s.title()] *)
  unicode_title : string → string
}.

(** [s.lower()] *)
Fixpoint ascii_lower (s : string) : string :=
  match s with
  | EmptyString => EmptyString
  | String c s' => String (lower_char c) (ascii_lower s')
  end.
Definition lower {python : Interpreter} (s : string) : string :=
  if is_ascii s then ascii_lower s else unicode_lower s.

(** [s.title()]: a cased character is upper-cased when the character before
    it is uncased (or there is none), lower-cased otherwise. *)
Fixpoint title_from (previous_is_cased : bool) (s : string) : string :=
  match s with
  | EmptyString => EmptyString
  | String c s' =>
      String (if previous_is_cased then lower_char c else upper_char c)
             (title_from (is_cased c) s')
  end.
Definition title {python : Interpreter} (s : string) : string :=
  if is_ascii s then title_from false s else unicode_title s.

(** [s.replace(old, new)], scanning left to right without overlap; [skip]
    counts the characters of a matched [old] still to be dropped. *)
Fixpoint replace_from (old new : string) (skip : nat) (s : string) : string :=
  match s with
  | EmptyString => EmptyString
  | String c s' =>
      match skip with
      | S k => replace_from old new k s'
      | O =>
          if String.prefix old s
          then new +:+ replace_from old new (String.length old - 1) s'
          else String c (replace_from old new 0 s')
      end
  end.
Fixpoint interleave (new s : string) : string :=
  match s with
  | EmptyString => new
  | String c s' => new +:+ String c (interleave new s')
  end.
Definition replace (old new s : string) : string :=
  match old with
  | EmptyString => interleave new s
  | _ => replace_from old new 0 s
  end.

(** [s.isdigit()] on ASCII. *)
Fixpoint all_digits (s : string) : bool :=
  match s with
  | EmptyString => true
  | String c s' => is_digit c && all_digits s'
  end.
Definition isdigit (s : string) : bool :=
  match s with EmptyString => false | _ => all_digits s end.

(** [str(i)] for an [int], as an f-string formats it. *)
Definition str_int (i : Z) : string := pretty i.

Definition byte (n : Z) : ascii := ascii_of_N (Z.to_N n).

(** [chr(i)]; the character is kept as its UTF-8 bytes. *)
Definition chr (i : Z) : outcome string :=
  if (i <? 0) || (1114111 <? i) then
    Raise (Exn "ValueError" "chr() arg not in range(0x110000)")
  else if i <? 128 then
    Return (String (byte i) EmptyString)
  else if i <? 2048 then
    Return (String (byte (192 + i / 64))
           (String (byte (128 + i mod 64)) EmptyString))
  else if i <? 65536 then
    Return (String (byte (224 + i / 4096))
           (String (byte (128 + (i / 64) mod 64))
           (String (byte (128 + i mod 64)) EmptyString)))
  else
    Return (String (byte (240 + i / 262144))
           (String (byte (128 + (i / 4096) mod 64))
           (String (byte (128 + (i / 64) mod 64))
           (String (byte (128 + i mod 64)) EmptyString)))).

(** *** Numbers *)

(** The values the key [x.get("price", float("inf"))] can take. *)
Inductive price_key : Type :=
  | Finite (q : Q)
  | Infinity.

(** The [<] of the values that are compared: [sorted], [min] and [max] use
    nothing else. *)
Class PyLt (K : Type) : Type := py_lt : K → K → bool.

#[export] Instance Q_py_lt : PyLt Q := λ a b, negb (Qle_bool b a).
#[export] Instance string_py_lt : PyLt string := String.ltb.
#[export] Instance price_key_py_lt : PyLt price_key := λ a b,
  match a, b with
  | Finite x, Finite y => py_lt x y
  | Finite _, Infinity => true
  | Infinity, _ => false
  end.

(** [a >= b] on floats. *)
Definition ge (a b : Q) : bool := Qle_bool b a.

(** [sum(l)]: starts from 0 and adds from the left. *)
Definition sum (l : list Q) : Q := fold_left Qplus l 0%Q.

(** [a / b] *)
Definition truediv (a b : Q) : outcome Q :=
  if Qeq_bool b 0 then Raise (Exn "ZeroDivisionError" "division by zero")
  else Return (a / b)%Q.

(** [len(l)] *)
Definition len {A} (l : list A) : Z := Z.of_nat (length l).

(** [range(n)] *)
Definition range (n : Z) : list Z := Z.of_nat <$> seq 0 (Z.to_nat n).

(** [l[:k]]: a negative [k] counts from the end. *)
Definition slice_to {A} (k : Z) (l : list A) : list A :=
  if k <? 0 then take (Z.to_nat (len l + k)) l else take (Z.to_nat k) l.

(** *** [sorted], [min] and [max] *)

Section ordering.
Context {A K : Type} `{PyLt K}.
Variable key : A → K.

(** [sorted(l, key=key, reverse=reverse)] is a stable sort: the result is
    ordered by key, and elements with equal keys keep the order they have
    in [l], also when [reverse] is set.  The model inserts the elements
    from the right; [x], which stood before all of [ys], overtakes no
    element that has to come first and stops in front of the first element
    that does not. *)
Definition comes_first (reverse : bool) (y x : A) : bool :=
  if reverse then py_lt (key x) (key y) else py_lt (key y) (key x).

Fixpoint insert_stable (reverse : bool) (x : A) (ys : list A) : list A :=
  match ys with
  | [] => [x]
  | y :: ys' =>
      if comes_first reverse y x then y :: insert_stable reverse x ys'
      else x :: ys
  end.

Definition sorted (reverse : bool) (l : list A) : list A :=
  foldr (insert_stable reverse) [] l.

(** [in_order reverse a b]: [b] may stand right after [a] in a sorted
    list. *)
Definition in_order (reverse : bool) (a b : A) : Prop :=
  comes_first reverse b a = false.

(** [min(l, key=key)] returns the first element whose key is minimal. *)
Fixpoint min_from (best : A) (l : list A) : A :=
  match l with
  | [] => best
  | x :: l' => min_from (if py_lt (key x) (key best) then x else best) l'
  end.
Definition min (l : list A) : outcome A :=
  match l with
  | [] => Raise (Exn "ValueError" "min() arg is an empty sequence")
  | x :: l' => Return (min_from x l')
  end.

(** [max(l, key=key)] returns the first element whose key is maximal. *)
Fixpoint max_from (best : A) (l : list A) : A :=
  match l with
  | [] => best
  | x :: l' => max_from (if py_lt (key best) (key x) then x else best) l'
  end.
Definition max (l : list A) : outcome A :=
  match l with
  | [] => Raise (Exn "ValueError" "max() arg is an empty sequence")
  | x :: l' => Return (max_from x l')
  end.
End ordering.

End Py.

Import Py.
Local Open Scope string_scope.
Local Open Scope list_scope.
Local Open Scope Z_scope.

(** ** Data model *)

(** Payload that the agent stores and never reads. *)
#[local] Unset Elimination Schemes.
Inductive json : Type :=
  | JNull
  | JBool (b : bool)
  | JNum (q : Q)
  | JStr (s : string)
  | JArr (items : list json)
  | JObj (members : list (string * json)).
#[local] Set Elimination Schemes.

(** A detected product, as built by [_detect_with_google_vision] and
    [_detect_with_openai].  [detect_products] reads the confidence with
    [p.get("confidence", 0)], so the key may be missing as far as it is
    concerned; the two adapters always set it. *)
Module Product.
Record t : Type := Make {
  name : string;
  confidence : option Q;
  type : string;
  bounding_box : list json;
  attributes : list (string * json)
}.
End Product.

Module Shipping.
Record t : Type := Make {
  price : Q;
  is_free : bool;
  estimated_delivery : string
}.
End Shipping.

(** The value [find_best_deal] stores under ["comparison"]. *)
Module Comparison.
Record t : Type := Make {
  average_price : Q;
  savings : Q;
  savings_percentage : Q;
  total_results : Z;
  platforms_searched : list string
}.
End Comparison.

(** A search result, with the keys of the dict built in
    [_generate_mock_results].  [price], [relevance] and [platform] are read
    with [get], so they may be missing; ["comparison"] is missing until
    [find_best_deal] stores it. *)
Module Result.
Record t : Type := Make {
  id : string;
  name : string;
  description : string;
  price : option Q;
  currency : string;
  url : string;
  image_url : string;
  platform : option string;
  rating : Q;
  reviews_count : Z;
  relevance : option Q;
  category : string;
  brand : string;
  availability : string;
  shipping : Shipping.t;
  comparison : option Comparison.t
}.

(** [r["comparison"] = c] *)
Definition set_comparison (r : t) (c : Comparison.t) : t :=
  Make (id r) (name r) (description r) (price r) (currency r) (url r)
       (image_url r) (platform r) (rating r) (reviews_count r) (relevance r)
       (category r) (brand r) (availability r) (shipping r) (Some c).
End Result.

(** What [find_best_deal] returns: the dict [{"error": ...}] or the best
    deal. *)
Inductive best_deal_reply : Type :=
  | NoResults (error : string)
  | BestDeal (best_deal : Result.t).

Module Entry.
Record t : Type := Make {
  date : string;
  price : Q;
  currency : string;
  in_stock : bool
}.
End Entry.

(** The dict [get_price_history] returns. *)
Module History.
Record t : Type := Make {
  product_id : string;
  platform : string;
  currency : string;
  price_history : list Entry.t;
  lowest_price : Q;
  highest_price : Q;
  average_price : Q;
  current_price : Q
}.
End History.

(** ** The agent *)

Definition DEFAULT_CONFIDENCE_THRESHOLD : Q := 7 # 10.
Definition DEFAULT_MAX_RESULTS : Z := 5.
Definition DEFAULT_TIMEOUT : Z := 30.

(** [self.settings] after [__init__]. *)
Module Settings.
Record t : Type := Make {
  confidence_threshold : Q;
  max_results : Z;
  timeout : Z
}.
End Settings.

(** The ["settings"] entry of the configuration file: every key is
    optional. *)
Module Config.
Record t : Type := Make {
  confidence_threshold : option Q;
  max_results : option Z;
  timeout : option Z
}.
End Config.

(** The three [setdefault] calls of [__init__]. *)
Definition init_settings (config : Config.t) : Settings.t :=
  Settings.Make
    (default DEFAULT_CONFIDENCE_THRESHOLD (Config.confidence_threshold config))
    (default DEFAULT_MAX_RESULTS (Config.max_results config))
    (default DEFAULT_TIMEOUT (Config.timeout config)).

(** The answers of Google Cloud Vision that [_detect_with_google_vision]
    reads: an annotation has a name ([name] of an object, [description] of a
    logo or a label), a score and the vertices of its bounding polygon. *)
Module Vision.
Record annotation : Type := Annotation {
  name : string;
  score : Q;
  vertices : list (Q * Q)
}.
Record response : Type := Response {
  label_annotations : list annotation;
  logo_annotations : list annotation;
  localized_object_annotations : list annotation
}.
End Vision.

(** One object of [products_data], the JSON that [_detect_with_openai]
    parses out of the completion; every key is read with [get]. *)
Module Item.
Record t : Type := Make {
  name : option string;
  confidence : option Q;
  brand : option json;
  category : option json;
  features : option json;
  estimated_price_range : option json
}.
End Item.

(** The agent: its settings, the names [_init_api_clients] collected, and
    the collaborators outside the process.  A collaborator is given by the
    outcome of each call it can receive; the records it logs itself are not
    part of the model.
    - [path_exists] is [os.path.exists];
    - [vision_client] stands for reading the image and the three annotation
      requests of [_detect_with_google_vision];
    - [openai_vision] stands for the completion request of
      [_detect_with_openai] and the parsing of its answer into
      [products_data] (a parsing error ends in [Return []]);
    - [openai_chat] stands for the OpenAI branch of
      [_generate_mock_results] (the completion request, the parsing and its
      fall-back). *)
Record agent : Type := Agent {
  settings : Settings.t;
  available_apis : list string;
  path_exists : string → bool;
  vision_client : string → bool → outcome Vision.response;
  openai_vision : string → bool → outcome (list Item.t);
  openai_chat :
    string → option string → option (Q * Q) → Z → string →
    outcome (list Result.t)
}.

(** [name in self.available_apis] *)
Definition has_api (self : agent) (api : string) : bool :=
  bool_decide (api ∈ available_apis self).

(** ** Loops *)

(** A [for] loop whose body may raise and builds one list item per round. *)
Fixpoint for_each {A B} (body : A → outcome B) (l : list A) : outcome (list B) :=
  match l with
  | [] => Return []
  | x :: l' =>
      match body x with
      | Raise e => Raise e
      | Return y =>
          match for_each body l' with
          | Raise e => Raise e
          | Return ys => Return (y :: ys)
          end
      end
  end.

(** A [for] loop of statements over a local variable. *)
Fixpoint for_loop {A S} (body : S → A → M S) (s : S) (l : list A) : M S :=
  match l with
  | [] => ret s
  | x :: l' => s' <- body s x ;; for_loop body s' l'
  end.

(** ** Source adapters *)

(** The dict of round [i] of the loop in [_generate_mock_results]. *)
Definition mock_result {python : Interpreter} (query : string) (category : option string)
    (price_range : option (Q * Q)) (platform : string) (i : Z)
    : outcome Result.t :=
  let price := ((1999 # 100) + inject_Z i * 10)%Q in
  let price :=
    match price_range with
    | Some (min_price, max_price) =>
        if py_lt price min_price then (min_price + inject_Z i * 5)%Q
        else if py_lt max_price price then (max_price - inject_Z i * 5)%Q
        else price
    | None => price
    end in
  match chr (65 + i) with
  | Raise e => Raise e
  | Return letter =>
      Return {|
        Result.id := "mock-" +:+ lower platform +:+ "-" +:+ str_int i;
        Result.name := title query +:+ " " +:+ letter;
        Result.description :=
          "This is a mock " +:+ query +:+ " product for demonstration purposes.";
        Result.price := Some price;
        Result.currency := "USD";
        Result.url :=
          "https://example.com/" +:+ lower platform +:+ "/" +:+
          replace " " "-" query +:+ "-" +:+ str_int i;
        Result.image_url :=
          "https://example.com/images/" +:+ replace " " "-" query +:+ "-" +:+
          str_int i +:+ ".jpg";
        Result.platform := Some platform;
        Result.rating := (4 + inject_Z (i mod 10) / 10)%Q;
        Result.reviews_count := 10 + i * 5;
        Result.relevance := Some ((9 # 10) - inject_Z i * (1 # 10))%Q;
        Result.category :=
          match category with
          | Some c => if decide (c = EmptyString) then "General" else c
          | None => "General"
          end;
        Result.brand := "Brand " +:+ letter;
        Result.availability := "In Stock";
        Result.shipping :=
          {| Shipping.price := 599 # 100;
             Shipping.is_free := false;
             Shipping.estimated_delivery := "3-5 business days" |};
        Result.comparison := None
      |}
  end.

Definition _generate_mock_results {python : Interpreter} (self : agent) (query : string)
    (category : option string) (price_range : option (Q * Q))
    (max_results : Z) (platform : string) : outcome (list Result.t) :=
  if negb (has_api self "openai") then
    for_each (mock_result query category price_range platform) (range max_results)
  else
    openai_chat self query category price_range max_results platform.

Definition _search_amazon {python : Interpreter} (self : agent) (query : string)
    (category : option string) (price_range : option (Q * Q))
    (max_results : Z) : outcome (list Result.t) :=
  _generate_mock_results self query category price_range max_results "Amazon".

Definition _search_walmart {python : Interpreter} (self : agent) (query : string)
    (category : option string) (price_range : option (Q * Q))
    (max_results : Z) : outcome (list Result.t) :=
  _generate_mock_results self query category price_range max_results "Walmart".

Definition _search_ebay {python : Interpreter} (self : agent) (query : string)
    (category : option string) (price_range : option (Q * Q))
    (max_results : Z) : outcome (list Result.t) :=
  _generate_mock_results self query category price_range max_results "eBay".

Definition search_method : Type :=
  agent → string → option string → option (Q * Q) → Z → outcome (list Result.t).

(** [getattr(self, method_name)] when [hasattr(self, method_name)] holds and
    the attribute is callable with the arguments of a search: the class
    defines three such methods. *)
Definition getattr {python : Interpreter} (method_name : string) : option search_method :=
  if decide (method_name = "_search_amazon") then Some _search_amazon
  else if decide (method_name = "_search_walmart") then Some _search_walmart
  else if decide (method_name = "_search_ebay") then Some _search_ebay
  else None.

(** [term in s] *)
Fixpoint contains (term s : string) : bool :=
  String.prefix term s ||
  match s with
  | EmptyString => false
  | String _ s' => contains term s'
  end.

(** [[{"x": vertex.x, "y": vertex.y} for vertex in vertices]] *)
Definition bounding_box_of (vertices : list (Q * Q)) : list json :=
  (λ vertex, JObj [("x", JNum (fst vertex)); ("y", JNum (snd vertex))])
    <$> vertices.

Definition product_object_names : list string :=
  ["clothing"; "footwear"; "shoe"; "accessory"; "bag"; "watch";
   "electronics"; "phone"; "laptop"; "camera"; "headphones";
   "furniture"; "chair"; "table"; "sofa"; "bed";
   "food"; "fruit"; "vegetable"; "beverage"].

Definition product_related_labels : list string :=
  ["product"; "brand"; "clothing"; "electronics"; "food";
   "furniture"; "accessory"; "shoe"; "watch"; "bag"].

(** The three loops of [_detect_with_google_vision] that turn the
    annotations into products. *)
Definition products_of_response {python : Interpreter} (response : Vision.response) : list Product.t :=
  let objects :=
    (λ obj,
     {| Product.name := Vision.name obj;
        Product.confidence := Some (Vision.score obj);
        Product.type := "object";
        Product.bounding_box := bounding_box_of (Vision.vertices obj);
        Product.attributes := [] |})
    <$> filter (λ obj, lower (Vision.name obj) ∈ product_object_names)
               (Vision.localized_object_annotations response) in
  let logos :=
    (λ logo,
     {| Product.name := Vision.name logo;
        Product.confidence := Some (Vision.score logo);
        Product.type := "brand";
        Product.bounding_box := bounding_box_of (Vision.vertices logo);
        Product.attributes := [("brand", JStr (Vision.name logo))] |})
    <$> Vision.logo_annotations response in
  let labels :=
    (λ label,
     {| Product.name := Vision.name label;
        Product.confidence := Some (Vision.score label);
        Product.type := "label";
        Product.bounding_box := [];
        Product.attributes := [] |})
    <$> filter (λ label,
                Exists (λ term, contains term (lower (Vision.name label)))
                       product_related_labels)
               (Vision.label_annotations response) in
  objects ++ logos ++ labels.

Definition _detect_with_google_vision {python : Interpreter} (self : agent) (image_path : string)
    (is_base64 : bool) : outcome (list Product.t) :=
  if negb (has_api self "google_cloud_vision") then Return []
  else
    match vision_client self image_path is_base64 with
    | Raise e => Raise e
    | Return response => Return (products_of_response response)
    end.

(** The loop of [_detect_with_openai] that converts [products_data] "to our
    standard format". *)
Definition product_of_item (item : Item.t) : Product.t :=
  {| Product.name := default "Unknown Product" (Item.name item);
     Product.confidence := Some (default (7 # 10)%Q (Item.confidence item));
     Product.type := "product";
     Product.bounding_box := [];
     Product.attributes :=
       [("brand", default JNull (Item.brand item));
        ("category", default JNull (Item.category item));
        ("features", default (JArr []) (Item.features item));
        ("estimated_price_range",
         default JNull (Item.estimated_price_range item))] |}.

Definition _detect_with_openai (self : agent) (image_path : string)
    (is_base64 : bool) : outcome (list Product.t) :=
  if negb (has_api self "openai") then Return []
  else
    match openai_vision self image_path is_base64 with
    | Raise e => Raise e
    | Return products_data => Return (product_of_item <$> products_data)
    end.

(** ** [detect_products] *)

Module DetectOptions.
Record t : Type := Make {
  confidence_threshold : option Q;
  max_results : option Z
}.
Definition empty : t := Make None None.
End DetectOptions.

(** [p.get("confidence", 0)] *)
Definition get_confidence (p : Product.t) : Q := default 0%Q (Product.confidence p).

(** The dedupe key of the merge: [p["name"].lower()]. *)
Definition name_key {python : Interpreter} (p : Product.t) : string := lower (Product.name p).

(** One round of the loop that merges the OpenAI products. *)
Definition merge_product {python : Interpreter} (acc : list Product.t * gset string)
    (product : Product.t) : list Product.t * gset string :=
  let '(detected_products, existing_names) := acc in
  if bool_decide (name_key product ∈ existing_names) then acc
  else (detected_products ++ [product], {[name_key product]} ∪ existing_names).

(** "Merge with existing products, avoiding duplicates": the set
    comprehension and the loop. *)
Definition merge_products {python : Interpreter} (detected_products products : list Product.t)
    : list Product.t :=
  let existing_names : gset string :=
    list_to_set (name_key <$> detected_products) in
  fst (fold_left merge_product products (detected_products, existing_names)).

(** The local variables [confidence_threshold], [max_results] and
    [is_base64] of [detect_products]. *)
Definition detect_threshold (self : agent) (options : option DetectOptions.t) : Q :=
  default (Settings.confidence_threshold (settings self))
          (DetectOptions.confidence_threshold (default DetectOptions.empty options)).

Definition detect_max_results (self : agent) (options : option DetectOptions.t) : Z :=
  default (Settings.max_results (settings self))
          (DetectOptions.max_results (default DetectOptions.empty options)).

Definition is_base64 (self : agent) (image_path : string) : bool :=
  String.prefix "data:image" image_path
  || ((100 <? str_len image_path)
      && negb (path_exists self image_path)).

(** The condition under which OpenAI is asked as well. *)
Definition openai_consulted (self : agent) (detected_products : list Product.t)
    (max_results : Z) : bool :=
  has_api self "openai"
  && (bool_decide (detected_products = [])
      || (len detected_products <? max_results)).

Definition detect_products {python : Interpreter} (self : agent) (image_path : string)
    (options : option DetectOptions.t) : M (list Product.t) :=
  let confidence_threshold := detect_threshold self options in
  let max_results := detect_max_results self options in
  let is_base64 := is_base64 self image_path in
  let detected_products : list Product.t := [] in
  detected_products <-
    (if has_api self "google_cloud_vision" then
       try_except
         (products <- call (_detect_with_google_vision self image_path is_base64) ;;
          let detected_products := detected_products ++ products in
          logger INFO ("Detected " +:+ str_int (len products) +:+
                       " products with Google Cloud Vision API") ;;;
          ret detected_products)
         (λ e,
          logger ERROR ("Error detecting products with Google Cloud Vision API: "
                        +:+ exn_str e) ;;;
          ret detected_products)
     else ret detected_products) ;;
  detected_products <-
    (if openai_consulted self detected_products max_results then
       try_except
         (products <- call (_detect_with_openai self image_path is_base64) ;;
          let detected_products := merge_products detected_products products in
          logger INFO ("Detected " +:+ str_int (len products) +:+
                       " products with OpenAI API") ;;;
          ret detected_products)
         (λ e,
          logger ERROR ("Error detecting products with OpenAI API: "
                        +:+ exn_str e) ;;;
          ret detected_products)
     else ret detected_products) ;;
  let filtered_products :=
    filter (λ p, ge (get_confidence p) confidence_threshold) detected_products in
  let filtered_products :=
    slice_to max_results (sorted get_confidence true filtered_products) in
  ret filtered_products.

(** ** [search_products] *)

Module SearchOptions.
Record t : Type := Make {
  max_results : option Z;
  category : option string;
  price_range : option (Q * Q)
}.
Definition empty : t := Make None None None.
End SearchOptions.

(** [x.get("relevance", 0)] *)
Definition get_relevance (x : Result.t) : Q := default 0%Q (Result.relevance x).

(** The local variables [max_results], [category] and [price_range] of
    [search_products]. *)
Definition search_max_results (self : agent) (options : option SearchOptions.t) : Z :=
  default (Settings.max_results (settings self))
          (SearchOptions.max_results (default SearchOptions.empty options)).

Definition search_category (options : option SearchOptions.t) : option string :=
  SearchOptions.category (default SearchOptions.empty options).

Definition search_price_range (options : option SearchOptions.t) : option (Q * Q) :=
  SearchOptions.price_range (default SearchOptions.empty options).

(** The body of the loop over the other platforms. *)
Definition search_platform {python : Interpreter} (self : agent) (query : string)
    (category : option string) (price_range : option (Q * Q)) (max_results : Z)
    (all_results : list Result.t) (api_name : string) : M (list Result.t) :=
  if has_api self api_name then
    try_except
      (let method_name := "_search_" +:+ replace "_api" EmptyString api_name in
       match getattr method_name with
       | Some method =>
           results <- call (method self query category price_range max_results) ;;
           let all_results := all_results ++ results in
           logger INFO ("Found " +:+ str_int (len results) +:+ " products on " +:+
                        title (replace "_api" EmptyString api_name)) ;;;
           ret all_results
       | None => ret all_results
       end)
      (λ e,
       logger ERROR ("Error searching " +:+ api_name +:+ ": " +:+ exn_str e) ;;;
       ret all_results)
  else ret all_results.

Definition search_products {python : Interpreter} (self : agent) (query : string)
    (options : option SearchOptions.t) : M (list Result.t) :=
  let max_results := search_max_results self options in
  let category := search_category options in
  let price_range := search_price_range options in
  let all_results : list Result.t := [] in
  all_results <-
    (if has_api self "amazon_product_api" then
       try_except
         (amazon_results <-
            call (_search_amazon self query category price_range max_results) ;;
          let all_results := all_results ++ amazon_results in
          logger INFO ("Found " +:+ str_int (len amazon_results) +:+
                       " products on Amazon") ;;;
          ret all_results)
         (λ e,
          logger ERROR ("Error searching Amazon: " +:+ exn_str e) ;;;
          ret all_results)
     else ret all_results) ;;
  all_results <-
    for_loop (search_platform self query category price_range max_results)
             all_results
             ["walmart_api"; "ebay_api"; "shopify_api"; "etsy_api"] ;;
  all_results <-
    (if bool_decide (all_results = []) && has_api self "openai" then
       try_except
         (mock_results <-
            call (_generate_mock_results self query category price_range
                                         max_results "Various") ;;
          let all_results := all_results ++ mock_results in
          logger INFO ("Generated " +:+ str_int (len mock_results) +:+
                       " mock product results") ;;;
          ret all_results)
         (λ e,
          logger ERROR ("Error generating mock results: " +:+ exn_str e) ;;;
          ret all_results)
     else ret all_results) ;;
  let all_results := slice_to max_results (sorted get_relevance true all_results) in
  ret all_results.

(** ** [find_best_deal] *)

Module DealOptions.
Record t : Type := Make { max_results_per_platform : option Z }.
Definition empty : t := Make None.
End DealOptions.

(** [x.get("price", float("inf"))] *)
Definition get_price_or_inf (x : Result.t) : price_key :=
  match Result.price x with
  | Some q => Finite q
  | None => Infinity
  end.

(** [item.get("price", 0)] *)
Definition get_price (item : Result.t) : Q := default 0%Q (Result.price item).

(** The platforms [find_best_deal] goes through. *)
Definition deal_platforms {python : Interpreter} (self : agent) : list string :=
  let platforms := ["Amazon"; "Walmart"; "eBay"; "Target"; "BestBuy"] in
  let available_platforms :=
    filter (λ p, has_api self (lower p +:+ "_api")) platforms in
  if bool_decide (available_platforms = []) then platforms
  else available_platforms.

(** The local variable [max_results_per_platform] of [find_best_deal]. *)
Definition deal_max_results (options : option DealOptions.t) : Z :=
  default 3 (DealOptions.max_results_per_platform
               (default DealOptions.empty options)).

(** The body of the loop over the platforms. *)
Definition gather_platform {python : Interpreter} (self : agent) (product_name : string)
    (max_results_per_platform : Z) (all_results : list Result.t)
    (platform : string) : M (list Result.t) :=
  let method_name := "_search_" +:+ lower platform in
  match getattr method_name with
  | Some method =>
      try_except
        (results <-
           call (method self product_name None None max_results_per_platform) ;;
         ret (all_results ++ results))
        (λ e,
         logger ERROR ("Error searching " +:+ platform +:+ ": " +:+ exn_str e) ;;;
         ret all_results)
  | None =>
      results <-
        call (_generate_mock_results self product_name None None
                                     max_results_per_platform platform) ;;
      ret (all_results ++ results)
  end.

(** The first half of [find_best_deal]: the loop that fills [all_results]. *)
Definition gather_deals {python : Interpreter} (self : agent) (product_name : string)
    (max_results_per_platform : Z) (available_platforms : list string)
    : M (list Result.t) :=
  for_loop (gather_platform self product_name max_results_per_platform)
           [] available_platforms.

(** The second half of [find_best_deal]: from [if not all_results] on.  The
    dict that [min] returns is one of the dicts of [all_results]; the
    assignment to [best_deal["comparison"]] changes that dict in place, and
    the list is not used afterwards. *)
Definition pick_best_deal (product_name : string)
    (available_platforms : list string) (all_results : list Result.t)
    : M best_deal_reply :=
  if bool_decide (all_results = []) then
    logger WARNING ("No results found for " +:+ product_name) ;;;
    ret (NoResults "No results found")
  else
    best_deal <- call (min get_price_or_inf all_results) ;;
    average_price <-
      call (truediv (sum (get_price <$> all_results))
                    (inject_Z (len all_results))) ;;
    let best_deal :=
      Result.set_comparison best_deal
        {| Comparison.average_price := average_price;
           Comparison.savings := (average_price - get_price best_deal)%Q;
           Comparison.savings_percentage :=
             if py_lt 0%Q average_price
             then ((average_price - get_price best_deal) / average_price * 100)%Q
             else 0%Q;
           Comparison.total_results := len all_results;
           Comparison.platforms_searched := available_platforms |} in
    logger INFO ("Found best deal for " +:+ product_name +:+ " on " +:+
                 default "None" (Result.platform best_deal)) ;;;
    ret (BestDeal best_deal).

Definition find_best_deal {python : Interpreter} (self : agent) (product_name : string)
    (options : option DealOptions.t) : M best_deal_reply :=
  let max_results_per_platform := deal_max_results options in
  let available_platforms := deal_platforms self in
  all_results <-
    gather_deals self product_name max_results_per_platform available_platforms ;;
  pick_best_deal product_name available_platforms all_results.

(** ** [get_price_history] *)

Module HistoryOptions.
Record t : Type := Make { days : option Z }.
Definition empty : t := Make None.
End HistoryOptions.

(** What [get_price_history] takes from outside the process.
    - [now]: the day of [datetime.now()], as its proleptic Gregorian ordinal
      ([date.toordinal()]: 1 is 0001-01-01, 3652059 is 9999-12-31);
    - [strftime]: the text [strftime("%Y-%m-%d")] gives for a day;
    - [uniform i], [random i]: the values drawn in round [i] of the loop by
      [random.uniform(-0.2, 0.2)] and [random.random()]. *)
Record world : Type := World {
  now : Z;
  strftime : Z → string;
  uniform : Z → Q;
  random : Z → Q
}.

(** [current_date - timedelta(days=i)], as an ordinal. *)
Definition days_before (current_date i : Z) : outcome Z :=
  if 999999999 <? Z.abs i then
    Raise (Exn "OverflowError"
               ("days=" +:+ str_int i +:+ "; must have magnitude <= 999999999"))
  else if (current_date - i <? 1) || (3652059 <? current_date - i) then
    Raise (Exn "OverflowError" "date value out of range")
  else Return (current_date - i).

(** [round(x)] to the nearest integer, ties to even. *)
Definition round_half_even (x : Q) : Z :=
  let f := Qfloor x in
  let r := (x - inject_Z f)%Q in
  if py_lt r (1 # 2) then f
  else if py_lt (1 # 2) r then f + 1
  else if Z.even f then f else f + 1.

(** [round(x, 2)] *)
Definition round2 (x : Q) : Q := (inject_Z (round_half_even (x * 100)) / 100)%Q.

(** [float(s)] for a string of digits. *)
Fixpoint digits_value (acc : Z) (s : string) : Z :=
  match s with
  | EmptyString => acc
  | String c s' => digits_value (10 * acc + (Z.of_N (N_of_ascii c) - 48)) s'
  end.

(** Round [i] of the loop that fills [price_history]. *)
Definition history_entry (w : world) (base_price : Q) (i : Z) : outcome Entry.t :=
  match days_before (now w) i with
  | Raise e => Raise e
  | Return date =>
      let price := (base_price * (1 + uniform w i))%Q in
      let price := if i mod 7 =? 0 then (price * (9 # 10))%Q else price in
      let price := if i mod 30 =? 0 then (price * (8 # 10))%Q else price in
      Return {| Entry.date := strftime w date;
                Entry.price := round2 price;
                Entry.currency := "USD";
                Entry.in_stock := py_lt (1 # 10)%Q (random w i) |}
  end.

(** The local variables [days] and [base_price] of [get_price_history]. *)
Definition history_days (options : option HistoryOptions.t) : Z :=
  default 30 (HistoryOptions.days (default HistoryOptions.empty options)).

Definition history_base_price (product_id : string) : Q :=
  if isdigit product_id
  then (inject_Z (digits_value 0 product_id mod 100) + 50)%Q
  else 9999 # 100.

Definition get_price_history (w : world) (self : agent)
    (product_id platform : string) (options : option HistoryOptions.t)
    : M History.t :=
  let days := history_days options in
  let base_price := history_base_price product_id in
  price_history <- call (for_each (history_entry w base_price) (range days)) ;;
  let price_history := sorted Entry.date false price_history in
  lowest_price <- call (min (λ x : Q, x) (Entry.price <$> price_history)) ;;
  highest_price <- call (max (λ x : Q, x) (Entry.price <$> price_history)) ;;
  average_price <-
    call (truediv (sum (Entry.price <$> price_history))
                  (inject_Z (len price_history))) ;;
  let current_price :=
    match last price_history with
    | Some item => Entry.price item
    | None => base_price
    end in
  let result :=
    {| History.product_id := product_id;
       History.platform := platform;
       History.currency := "USD";
       History.price_history := price_history;
       History.lowest_price := lowest_price;
       History.highest_price := highest_price;
       History.average_price := average_price;
       History.current_price := current_price |} in
  logger INFO ("Retrieved price history for product " +:+ product_id +:+
               " on " +:+ platform) ;;;
  ret result.

(** ** Vocabulary of the statements *)

(** What a source adds to the merged list: its products when the call
    returns, nothing when it raises. *)
Definition contribution {A} (o : outcome (list A)) : list A :=
  match o with
  | Return l => l
  | Raise _ => []
  end.

(** The products of Google Cloud Vision and of OpenAI for one call of
    [detect_products]. *)
Definition google_products {python : Interpreter} (self : agent) (image_path : string) : list Product.t :=
  contribution (_detect_with_google_vision self image_path (is_base64 self image_path)).

Definition openai_products (self : agent) (image_path : string) : list Product.t :=
  contribution (_detect_with_openai self image_path (is_base64 self image_path)).

(** [detected_products] when the filter is reached. *)
Definition detected {python : Interpreter} (self : agent) (image_path : string)
    (options : option DetectOptions.t) : list Product.t :=
  let G := google_products self image_path in
  if openai_consulted self G (detect_max_results self options)
  then merge_products G (openai_products self image_path)
  else G.

(** The results one platform adds in [search_products]. *)
Definition platform_results (self : agent) (query : string)
    (options : option SearchOptions.t) (api_name : string)
    (method : search_method) : list Result.t :=
  if has_api self api_name then
    contribution (method self query (search_category options)
                         (search_price_range options)
                         (search_max_results self options))
  else [].

(** The results of the platforms, in the order they are appended. *)
Definition platform_lists {python : Interpreter} (self : agent) (query : string)
    (options : option SearchOptions.t) : list (list Result.t) :=
  [platform_results self query options "amazon_product_api" _search_amazon;
   platform_results self query options "walmart_api" _search_walmart;
   platform_results self query options "ebay_api" _search_ebay].

(** The generated results, asked for when the platforms gave nothing. *)
Definition fallback_results {python : Interpreter} (self : agent) (query : string)
    (options : option SearchOptions.t) : list Result.t :=
  if bool_decide (concat (platform_lists self query options) = [])
     && has_api self "openai"
  then contribution (_generate_mock_results self query (search_category options)
                       (search_price_range options)
                       (search_max_results self options) "Various")
  else [].

(** [all_results] when the sort is reached. *)
Definition found {python : Interpreter} (self : agent) (query : string)
    (options : option SearchOptions.t) : list Result.t :=
  concat (platform_lists self query options) ++ fallback_results self query options.

(** Scores in descending order. *)
Definition by_confidence (a b : Product.t) : Prop :=
  (get_confidence b <= get_confidence a)%Q.
Definition by_relevance (a b : Result.t) : Prop :=
  (get_relevance b <= get_relevance a)%Q.

(** The order [<=] on the keys of [min]. *)
Definition price_key_le (a b : price_key) : Prop :=
  match a, b with
  | Finite x, Finite y => (x <= y)%Q
  | _, Infinity => True
  | Infinity, Finite _ => False
  end.

(** The call [find_best_deal] makes for one platform. *)
Definition deal_source {python : Interpreter} (self : agent) (product_name : string)
    (max_results_per_platform : Z) (platform : string)
    : outcome (list Result.t) :=
  match getattr ("_search_" +:+ lower platform) with
  | Some method => method self product_name None None max_results_per_platform
  | None =>
      _generate_mock_results self product_name None None
                             max_results_per_platform platform
  end.

(** What one round of the platform loop appends. *)
Definition round_results {python : Interpreter} (self : agent) (query : string)
    (category : option string) (price_range : option (Q * Q)) (max_results : Z)
    (api_name : string) : list Result.t :=
  match getattr ("_search_" +:+ replace "_api" EmptyString api_name) with
  | Some method =>
      if has_api self api_name
      then contribution (method self query category price_range max_results)
      else []
  | None => []
  end.

(** [sorted(l, key=score, reverse=True)[:k]] *)
Definition ranked {A} (score : A → Q) (k : Z) (l : list A) : list A :=
  slice_to k (sorted score true l).

(** The dedupe keys of a list of products. *)
Definition keys {python : Interpreter} (l : list Product.t) : list string := name_key <$> l.

(** The history in ascending order of the date strings. *)
Definition dates_ascend (a b : Entry.t) : Prop :=
  String.leb (Entry.date a) (Entry.date b) = true.

#[local] Instance Qeq_decision (a b : Q) : Decision (a == b)%Q := Qeq_dec a b.

(** ** Sample agents *)
Module Sample.
(** An interpreter that knows no letters outside ASCII. *)
Definition ascii_only : Interpreter :=
  {| unicode_lower := ascii_lower; unicode_title := title_from false |}.

Definition unreachable {A} : outcome A :=
  Raise (Exn "ConnectionError" "Connection refused").

Definition settings : Settings.t := init_settings (Config.Make None None None).

Definition item (name : string) (confidence : Q) : Item.t :=
  Item.Make (Some name) (Some confidence) None None None None.

Definition bare (name : string) (price relevance : option Q) : Result.t :=
  {| Result.id := name; Result.name := name; Result.description := name;
     Result.price := price; Result.currency := "USD"; Result.url := name;
     Result.image_url := name; Result.platform := None; Result.rating := 0%Q;
     Result.reviews_count := 0; Result.relevance := relevance;
     Result.category := "General"; Result.brand := name;
     Result.availability := "In Stock";
     Result.shipping := Shipping.Make 0%Q true "1 day";
     Result.comparison := None |}.

(** Two shopping platforms and no OpenAI key: both answer with the mock
    data of [_generate_mock_results]. *)
Definition two_shops : agent :=
  Agent settings ["amazon_product_api"; "walmart_api"] (λ _, false)
        (λ _ _, unreachable) (λ _ _, unreachable) (λ _ _ _ _ _, unreachable).

(** Vision localises a shoe with score 0.9, OpenAI names a "shoe" with
    confidence 0.99. *)
Definition showroom : agent :=
  Agent settings ["google_cloud_vision"; "openai"] (λ _, true)
        (λ _ _, Return (Vision.Response [] []
                          [Vision.Annotation "Shoe" (9 # 10) []]))
        (λ _ _, Return [item "shoe" (99 # 100)])
        (λ _ _ _ _ _, unreachable).

(** Vision localises a shoe with score 0.5; OpenAI names a "shoe" with
    confidence 0.99 and a "Mug" with confidence -0.5. *)
Definition studio : agent :=
  Agent settings ["google_cloud_vision"; "openai"] (λ _, true)
        (λ _ _, Return (Vision.Response [] []
                          [Vision.Annotation "Shoe" (1 # 2) []]))
        (λ _ _, Return [item "shoe" (99 # 100); item "Mug" (-1 # 2)])
        (λ _ _ _ _ _, unreachable).

(** Vision localises a shoe with score 0.75; OpenAI names a "shoe" with
    confidence 0.99, a "Lamp" with 0.9 and a "Mug" with 0.95. *)
Definition crowded : agent :=
  Agent settings ["google_cloud_vision"; "openai"] (λ _, true)
        (λ _ _, Return (Vision.Response [] []
                          [Vision.Annotation "Shoe" (3 # 4) []]))
        (λ _ _, Return [item "shoe" (99 # 100); item "Lamp" (9 # 10);
                        item "Mug" (95 # 100)])
        (λ _ _ _ _ _, unreachable).

(** Vision localises a shoe with score 0.9 and reads the logo "Shoe" with
    score 0.8; OpenAI names a "shoe" with confidence 0.99. *)
Definition twice : agent :=
  Agent settings ["google_cloud_vision"; "openai"] (λ _, true)
        (λ _ _, Return (Vision.Response []
                          [Vision.Annotation "Shoe" (8 # 10) []]
                          [Vision.Annotation "Shoe" (9 # 10) []]))
        (λ _ _, Return [item "shoe" (99 # 100)])
        (λ _ _ _ _ _, unreachable).

(** The request to Vision fails; OpenAI names a lamp. *)
Definition blind : agent :=
  Agent settings ["google_cloud_vision"; "openai"] (λ _, true)
        (λ _ _, unreachable)
        (λ _ _, Return [item "Lamp" (8 # 10)])
        (λ _ _ _ _ _, unreachable).

(** Amazon and Walmart are answered by OpenAI: a cable whose relevance is
    negative and a plug without relevance for Amazon, the same cable for
    Walmart. *)
Definition generated : agent :=
  Agent settings ["amazon_product_api"; "walmart_api"; "openai"] (λ _, false)
        (λ _ _, unreachable) (λ _ _, unreachable)
        (λ _ _ _ _ platform,
           if decide (platform = "Amazon")
           then Return [bare "Cable" (Some (5 # 1)) (Some (-1 # 10));
                        bare "Plug" None None]
           else if decide (platform = "Walmart")
           then Return [bare "Cable" (Some (5 # 1)) (Some (-1 # 10))]
           else unreachable).

(** [strftime("%Y-%m-%d")] of the C library of Linux, which does not pad
    the year: the day of ordinal 1 reads 1-01-01. *)
Definition two_digits (n : Z) : string :=
  if n <? 10 then "0" +:+ str_int n else str_int n.

Definition strftime (ordinal : Z) : string :=
  let z := ordinal + 305 in
  let era := z / 146097 in
  let doe := z mod 146097 in
  let yoe := (doe - doe / 1460 + doe / 36524 - doe / 146096) / 365 in
  let doy := doe - (365 * yoe + yoe / 4 - yoe / 100) in
  let mp := (5 * doy + 2) / 153 in
  let d := doy - (153 * mp + 2) / 5 + 1 in
  let m := if mp <? 10 then mp + 3 else mp - 9 in
  let y := yoe + era * 400 + (if m <=? 2 then 1 else 0) in
  str_int y +:+ "-" +:+ two_digits m +:+ "-" +:+ two_digits d.

(** 3 November 2026; the prices vary by -10%, 0%, +10% in turn and every
    item is in stock. *)
Definition today : world :=
  World 739923 strftime
        (λ i, inject_Z (i mod 3) / 10 - (1 # 10))%Q
        (λ _, 1 # 2).
End Sample.

(** ** The rest of [ProductDetectionAgent] *)

(** *** [__init__] and [_init_api_clients] *)

(** The configuration dict; its two keys are read with [get]. *)
Module AgentConfig.
Record t : Type := Make {
  api_keys : option (gmap string json);
  settings : option Config.t
}.
Definition empty : t := Make None None.
End AgentConfig.

(** What [__init__] finds outside the process.
    - [google_setup] stands for the body of the first [try] of
      [_init_api_clients] up to the creation of the client (the import, the
      environment variable, [vision.ImageAnnotatorClient()]);
    - [openai_setup] stands for the import of [openai] and the assignment
      of the key;
    - the other fields become the collaborators of the agent. *)
Record services : Type := Services {
  google_setup : outcome unit;
  openai_setup : outcome unit;
  os_path_exists : string → bool;
  vision_answers : string → bool → outcome Vision.response;
  openai_vision_answers : string → bool → outcome (list Item.t);
  openai_chat_answers :
    string → option string → option (Q * Q) → Z → string →
    outcome (list Result.t)
}.

(** [name in self.api_keys] *)
Definition has_key (api_keys : gmap string json) (name : string) : bool :=
  bool_decide (is_Some (api_keys !! name)).

(** The four parts of [_init_api_clients]: "Check for Google Cloud Vision
    API", "Check for Amazon Product API", "Check for OpenAI API", and the
    body of the loop of "Check for other shopping APIs". *)
Definition init_google (api_keys : gmap string json) (s : services)
    (available_apis : list string) : M (list string) :=
  if has_key api_keys "google_cloud_vision" then
    try_except
      (call (google_setup s) ;;;
       let available_apis := available_apis ++ ["google_cloud_vision"] in
       logger INFO "Google Cloud Vision API client initialized" ;;;
       ret available_apis)
      (λ e,
       logger WARNING ("Failed to initialize Google Cloud Vision API: "
                       +:+ exn_str e) ;;;
       ret available_apis)
  else ret available_apis.

Definition init_amazon (api_keys : gmap string json)
    (available_apis : list string) : M (list string) :=
  if has_key api_keys "amazon_product_api" then
    let available_apis := available_apis ++ ["amazon_product_api"] in
    logger INFO "Amazon Product API client initialized" ;;;
    ret available_apis
  else ret available_apis.

Definition init_openai (api_keys : gmap string json) (s : services)
    (available_apis : list string) : M (list string) :=
  if has_key api_keys "openai" then
    try_except
      (call (openai_setup s) ;;;
       let available_apis := available_apis ++ ["openai"] in
       logger INFO "OpenAI API client initialized" ;;;
       ret available_apis)
      (λ e,
       logger WARNING ("Failed to initialize OpenAI API: " +:+ exn_str e) ;;;
       ret available_apis)
  else ret available_apis.

Definition init_platform {python : Interpreter} (api_keys : gmap string json)
    (available_apis : list string) (api_name : string) : M (list string) :=
  if has_key api_keys api_name then
    let available_apis := available_apis ++ [api_name] in
    logger INFO (title (replace "_" " " api_name) +:+ " client initialized") ;;;
    ret available_apis
  else ret available_apis.

Definition _init_api_clients {python : Interpreter} (api_keys : gmap string json) (s : services)
    : M (list string) :=
  let available_apis : list string := [] in
  available_apis <- init_google api_keys s available_apis ;;
  available_apis <- init_amazon api_keys available_apis ;;
  available_apis <- init_openai api_keys s available_apis ;;
  available_apis <-
    for_loop (init_platform api_keys) available_apis
             ["walmart_api"; "ebay_api"; "shopify_api"; "etsy_api"] ;;
  (if bool_decide (available_apis = []) then
     logger WARNING
       "No API clients were initialized. Functionality will be limited."
   else ret tt) ;;;
  ret available_apis.

Definition __init__ {python : Interpreter} (config : option AgentConfig.t) (s : services) : M agent :=
  let config := default AgentConfig.empty config in
  let api_keys := default ∅ (AgentConfig.api_keys config) in
  let settings :=
    init_settings (default (Config.Make None None None)
                           (AgentConfig.settings config)) in
  available_apis <- _init_api_clients api_keys s ;;
  logger INFO "ProductDetectionAgent initialized" ;;;
  ret (Agent settings available_apis (os_path_exists s) (vision_answers s)
             (openai_vision_answers s) (openai_chat_answers s)).

(** The names [_init_api_clients] can append, in the order it tries
    them. *)
Definition known_apis : list string :=
  ["google_cloud_vision"; "amazon_product_api"; "openai";
   "walmart_api"; "ebay_api"; "shopify_api"; "etsy_api"].

Definition returns {A} (o : outcome A) : bool :=
  match o with
  | Return _ => true
  | Raise _ => false
  end.

(** Whether [_init_api_clients] appends [name]: its key is configured, and
    for the two clients that are set up the set-up went through. *)
Definition initialized (api_keys : gmap string json) (s : services)
    (name : string) : bool :=
  has_key api_keys name
  && (if decide (name = "google_cloud_vision") then returns (google_setup s)
      else if decide (name = "openai") then returns (openai_setup s)
      else true).

(** [self.api_keys] and [self.settings] after [__init__]. *)
Definition config_api_keys (config : option AgentConfig.t) : gmap string json :=
  default ∅ (AgentConfig.api_keys (default AgentConfig.empty config)).

Definition config_settings (config : option AgentConfig.t) : Settings.t :=
  init_settings (default (Config.Make None None None)
                         (AgentConfig.settings (default AgentConfig.empty config))).

(** *** [find_similar_products] *)

Module SimilarOptions.
Record t : Type := Make { max_results : option Z }.
Definition empty : t := Make None.
End SimilarOptions.

(** [s.split(sep, 1)] for a separator of one character. *)
Fixpoint split_once (sep : ascii) (s : string) : list string :=
  match s with
  | EmptyString => [EmptyString]
  | String c s' =>
      if decide (c = sep) then [EmptyString; s']
      else
        match split_once sep s' with
        | before :: rest => String c before :: rest
        | [] => []
        end
  end.

(** [l[i]] *)
Definition getitem {A} (l : list A) (i : nat) : outcome A :=
  match l !! i with
  | Some x => Return x
  | None => Raise (Exn "IndexError" "list index out of range")
  end.

(** The local variable [max_results] of [find_similar_products]. *)
Definition similar_max_results (self : agent)
    (options : option SimilarOptions.t) : Z :=
  default (Settings.max_results (settings self))
          (SimilarOptions.max_results (default SimilarOptions.empty options)).

(** The local variable [product_name] of [find_similar_products]. *)
Definition similar_product_name (product_id : string) : outcome string :=
  let product_name := "Product " +:+ product_id in
  if contains ":" product_id then getitem (split_once ":" product_id) 1
  else Return product_name.

Definition find_similar_products {python : Interpreter} (self : agent) (product_id platform : string)
    (options : option SimilarOptions.t) : M (list Result.t) :=
  let max_results := similar_max_results self options in
  product_name <- call (similar_product_name product_id) ;;
  similar_products <-
    call (_generate_mock_results self product_name None None max_results
                                 platform) ;;
  logger INFO ("Found " +:+ str_int (len similar_products) +:+
               " similar products to " +:+ product_id +:+ " on " +:+ platform) ;;;
  ret similar_products.

(** *** [track_price] *)

Module TrackOptions.
Record t : Type := Make {
  target_price : option Q;
  notify_email : option string;
  notify_phone : option string
}.
Definition empty : t := Make None None None.
End TrackOptions.

Module Tracking.
Record t : Type := Make {
  tracking_id : string;
  product_id : string;
  platform : string;
  target_price : option Q;
  notify_email : option string;
  notify_phone : option string;
  created_at : string;
  status : string
}.
End Tracking.

(** The clock [track_price] reads: [int(time.time())] and
    [datetime.now().isoformat()]. *)
Record wall_clock : Type := WallClock {
  epoch_seconds : Z;
  now_isoformat : string
}.

Definition track_price (c : wall_clock) (self : agent)
    (product_id platform : string) (options : option TrackOptions.t)
    : M Tracking.t :=
  let options := default TrackOptions.empty options in
  let target_price := TrackOptions.target_price options in
  let notify_email := TrackOptions.notify_email options in
  let notify_phone := TrackOptions.notify_phone options in
  let tracking_id :=
    "track-" +:+ str_int (epoch_seconds c) +:+ "-" +:+ product_id in
  let tracking_info :=
    {| Tracking.tracking_id := tracking_id;
       Tracking.product_id := product_id;
       Tracking.platform := platform;
       Tracking.target_price := target_price;
       Tracking.notify_email := notify_email;
       Tracking.notify_phone := notify_phone;
       Tracking.created_at := now_isoformat c;
       Tracking.status := "active" |} in
  logger INFO ("Set up price tracking for product " +:+ product_id +:+
               " on " +:+ platform) ;;;
  ret tracking_info.

(** *** [get_buying_options] *)

Module Seller.
Record t : Type := Make {
  name : string;
  rating : Q;
  price : Q;
  condition : option string
}.
End Seller.

Module Offer.
Record t : Type := Make {
  price : Q;
  availability : string;
  condition : option string;
  shipping : string;
  warranty : string;
  sellers : list Seller.t
}.
End Offer.

(** The dict [get_buying_options] returns; [new], [used] and [refurbished]
    are the three keys of its ["options"]. *)
Module BuyingOptions.
Record t : Type := Make {
  product_name : string;
  new : Offer.t;
  used : Offer.t;
  refurbished : Offer.t;
  best_value : string;
  recommendation : string
}.

(** The three values of [buying_options["options"]], in the order of their
    keys. *)
Definition offers (b : t) : list Offer.t := [new b; used b; refurbished b].

(** [buying_options["options"][key]] *)
Definition option_of (b : t) (key : string) : outcome Offer.t :=
  if decide (key = "new") then Return (new b)
  else if decide (key = "used") then Return (used b)
  else if decide (key = "refurbished") then Return (refurbished b)
  else Raise (Exn "KeyError" key).
End BuyingOptions.

(** [new_price] is the value drawn by [random.uniform(80, 120)]; nothing is
    read from [options]. *)
Definition get_buying_options (new_price : Q) (self : agent)
    (product_name : string) (options : option (gmap string json))
    : M BuyingOptions.t :=
  let options := default ∅ options in
  let buying_options :=
    {| BuyingOptions.product_name := product_name;
       BuyingOptions.new :=
         {| Offer.price := round2 new_price;
            Offer.availability := "In Stock";
            Offer.condition := None;
            Offer.shipping := "Free";
            Offer.warranty := "1 Year Manufacturer Warranty";
            Offer.sellers :=
              [Seller.Make "Official Store" (48 # 10) (round2 new_price) None;
               Seller.Make "MegaRetailer" (46 # 10)
                           (round2 (new_price * (105 # 100))) None;
               Seller.Make "ElectronicsPlus" (45 # 10)
                           (round2 (new_price * (102 # 100))) None] |};
       BuyingOptions.used :=
         {| Offer.price := round2 (new_price * (7 # 10));
            Offer.availability := "Limited Stock";
            Offer.condition := Some "Good";
            Offer.shipping := "$5.99";
            Offer.warranty := "30 Day Seller Warranty";
            Offer.sellers :=
              [Seller.Make "TechReseller" (43 # 10)
                           (round2 (new_price * (7 # 10))) (Some "Good");
               Seller.Make "ValueDeals" (41 # 10)
                           (round2 (new_price * (65 # 100))) (Some "Acceptable");
               Seller.Make "QualityUsed" (44 # 10)
                           (round2 (new_price * (75 # 100))) (Some "Very Good")] |};
       BuyingOptions.refurbished :=
         {| Offer.price := round2 (new_price * (85 # 100));
            Offer.availability := "In Stock";
            Offer.condition := Some "Certified Refurbished";
            Offer.shipping := "Free";
            Offer.warranty := "90 Day Warranty";
            Offer.sellers :=
              [Seller.Make "RefurbMaster" (45 # 10)
                           (round2 (new_price * (85 # 100))) None;
               Seller.Make "RenewTech" (44 # 10)
                           (round2 (new_price * (82 # 100))) None;
               Seller.Make "CertifiedRenew" (46 # 10)
                           (round2 (new_price * (88 # 100))) None] |};
       BuyingOptions.best_value := "refurbished";
       BuyingOptions.recommendation :=
         "The refurbished option offers the best value with a 90-day warranty and 15% savings over new." |} in
  logger INFO ("Retrieved buying options for " +:+ product_name) ;;;
  ret buying_options.

(** ** [load_config] *)

(** What [load_config] reads of the file system: [os.getcwd()],
    [os.path.dirname(__file__)], [os.path.expanduser], [os.path.exists], and
    [load_json path] for opening the file and [json.load]. *)
Record filesystem : Type := Filesystem {
  getcwd : string;
  module_dirname : string;
  expanduser : string → string;
  exists_path : string → bool;
  load_json : string → outcome json
}.

(** [s.endswith("/")] *)
Fixpoint ends_with_slash (s : string) : bool :=
  match s with
  | EmptyString => false
  | String c EmptyString => bool_decide (c = "/"%char)
  | String _ s' => ends_with_slash s'
  end.

(** [os.path.join(a, b)] of [posixpath]. *)
Definition path_join (a b : string) : string :=
  if String.prefix "/" b then b
  else if bool_decide (a = EmptyString) || ends_with_slash a then a +:+ b
  else a +:+ "/" +:+ b.

(** [not config_path] *)
Definition no_path (config_path : option string) : bool :=
  match config_path with
  | None => true
  | Some path => bool_decide (path = EmptyString)
  end.

(** The standard locations, in the order they are tried. *)
Definition possible_paths (fs : filesystem) : list string :=
  [path_join (getcwd fs) "config.json";
   path_join (module_dirname fs) "config.json";
   expanduser fs "~/.config/shopping_agent/config.json";
   "/etc/shopping_agent/config.json"].

(** The first part of [load_config]: the path that is going to be read. *)
Definition resolve_config_path (fs : filesystem) (config_path : option string)
    : option string :=
  if no_path config_path then
    match List.find (exists_path fs) (possible_paths fs) with
    | Some path => Some path
    | None => config_path
    end
  else config_path.

Definition load_config (fs : filesystem) (config_path : option string) : M json :=
  let config_path := resolve_config_path fs config_path in
  match config_path with
  | Some path =>
      if no_path config_path || negb (exists_path fs path) then
        logger WARNING
          "No configuration file found. Using default configuration." ;;;
        ret (JObj [])
      else
        try_except
          (config <- call (load_json fs path) ;;
           logger INFO ("Loaded configuration from " +:+ path) ;;;
           ret config)
          (λ e,
           logger ERROR ("Error loading configuration: " +:+ exn_str e) ;;;
           ret (JObj []))
  | None =>
      logger WARNING
        "No configuration file found. Using default configuration." ;;;
      ret (JObj [])
  end.

(** ** What [load_config] does with the path it has settled on *)

Definition read_config (fs : filesystem) (path : string) (log : list log_record)
    : outcome json * list log_record :=
  match load_json fs path with
  | Return config =>
      (Return config,
       log ++ [LogRecord INFO ("Loaded configuration from " +:+ path)])
  | Raise e =>
      (Return (JObj []),
       log ++ [LogRecord ERROR ("Error loading configuration: " +:+ exn_str e)])
  end.

Definition no_config (log : list log_record) : outcome json * list log_record :=
  (Return (JObj []),
   log ++ [LogRecord WARNING
             "No configuration file found. Using default configuration."]).

(** * api_server.py: the routes that read [request.args] *)

(** The routes [/history], [/similar], [/best-deal] and [/buying-options]
    read the query string of a GET request, call one method of the agent
    and answer with [jsonify]; [/health] reads nothing.  The other routes
    read an uploaded file or a JSON body and are not modelled.
    - [request.args] is a map from a key to its first value;
    - a response is the value handed to [jsonify] and the status code;
    - the records of the logger of the server are kept in the same list as
      those of the agent. *)
Module Api.

(** What the routes use besides the request.
    - [agent]: the agent the module builds when it is loaded;
    - [int]: the conversion [int(s)] of a string, left open: it returns the
      number or raises ValueError;
    - [clock] and [new_price]: what [get_price_history] and
      [get_buying_options] take from the clock and from [random]. *)
Record server : Type := Server {
  agent : agent;
  int : string → outcome Z;
  clock : world;
  new_price : Q
}.

Inductive body (A : Type) : Type :=
  | Json (value : A)
  | Error (error : string).
Arguments Json {A} value.
Arguments Error {A} error.

(** [(jsonify(...), status)]; the status is 200 when none is given. *)
Definition response (A : Type) : Type := body A * Z.

(** [not value] for what [request.args.get(key)] returns. *)
Definition absent (value : option string) : bool :=
  match value with
  | None => true
  | Some text => bool_decide (text = EmptyString)
  end.

(** The string of an argument that is not absent. *)
Definition text (value : option string) : string := default EmptyString value.

(** [int(request.args.get(key, default))] with a default that is an
    [int]. *)
Definition int_arg (s : server) (args : gmap string string) (key : string)
    (default : Z) : outcome Z :=
  match args !! key with
  | Some text => int s text
  | None => Return default
  end.

(** The body is the pair of the values of ["status"] and ["apis"]. *)
Definition health_check (s : server) : response (string * list string) :=
  (Json ("ok", available_apis (agent s)), 200).

Definition get_price_history (s : server) (args : gmap string string)
    : M (response History.t) :=
  try_except
    (let product_id := args !! "product_id" in
     let platform := args !! "platform" in
     if absent product_id || absent platform then
       ret (Error "Product ID and platform are required", 400)
     else
       days <- call (int_arg s args "days" 30) ;;
       let options := Some (HistoryOptions.Make (Some days)) in
       history <-
         get_price_history (clock s) (agent s) (text product_id)
                           (text platform) options ;;
       ret (Json history, 200))
    (λ e,
     logger ERROR ("Error in get_price_history: " +:+ exn_str e) ;;;
     ret (Error (exn_str e), 500)).

(** The body is the value of ["similar_products"]. *)
Definition find_similar_products {python : Interpreter} (s : server)
    (args : gmap string string)
    : M (response (list Result.t)) :=
  try_except
    (let product_id := args !! "product_id" in
     let platform := args !! "platform" in
     if absent product_id || absent platform then
       ret (Error "Product ID and platform are required", 400)
     else
       max_results <-
         call (int_arg s args "max_results"
                       (Settings.max_results (settings (agent s)))) ;;
       let options := Some (SimilarOptions.Make (Some max_results)) in
       similar_products <-
         find_similar_products (agent s) (text product_id) (text platform)
                               options ;;
       ret (Json similar_products, 200))
    (λ e,
     logger ERROR ("Error in find_similar_products: " +:+ exn_str e) ;;;
     ret (Error (exn_str e), 500)).

Definition find_best_deal {python : Interpreter} (s : server)
    (args : gmap string string)
    : M (response best_deal_reply) :=
  try_except
    (let product_name := args !! "product_name" in
     if absent product_name then
       ret (Error "Product name is required", 400)
     else
       max_results_per_platform <-
         call (int_arg s args "max_results_per_platform" 3) ;;
       let options := Some (DealOptions.Make (Some max_results_per_platform)) in
       best_deal <- find_best_deal (agent s) (text product_name) options ;;
       ret (Json best_deal, 200))
    (λ e,
     logger ERROR ("Error in find_best_deal: " +:+ exn_str e) ;;;
     ret (Error (exn_str e), 500)).

Definition get_buying_options (s : server) (args : gmap string string)
    : M (response BuyingOptions.t) :=
  try_except
    (let product_name := args !! "product_name" in
     if absent product_name then
       ret (Error "Product name is required", 400)
     else
       let options : gmap string json := ∅ in
       buying_options <-
         get_buying_options (new_price s) (agent s) (text product_name)
                            (Some options) ;;
       ret (Json buying_options, 200))
    (λ e,
     logger ERROR ("Error in get_buying_options: " +:+ exn_str e) ;;;
     ret (Error (exn_str e), 500)).

End Api.

(** ** Vocabulary of the statements about the routes *)

(** What is said of a response: its status is 200, 400 or 500; 400 stands
    for [missing]; with 500 the body is the text of an exception, which is
    the last record of the log; with 200 the body is a value. *)
Definition answered {A} (name : string) (missing : bool)
    (r : outcome (Api.response A) * list log_record) : Prop :=
  ∃ body status log',
    r = (Return (body, status), log')
    ∧ (status = 200 ∨ status = 400 ∨ status = 500)
    ∧ (status = 400 ↔ missing = true)
    ∧ (status = 200 → ∃ value, body = Api.Json value)
    ∧ (status = 500 →
       ∃ e, body = Api.Error (exn_str e)
            ∧ last log' = Some (LogRecord ERROR ("Error in " +:+ name +:+ ": "
                                                 +:+ exn_str e))).

(** ** More sample data *)
Module Fixture.
(** Only the Amazon key is configured. *)
Definition amazon_only : agent :=
  Agent Sample.settings ["amazon_product_api"] (λ _, false)
        (λ _ _, Sample.unreachable) (λ _ _, Sample.unreachable)
        (λ _ _ _ _ _, Sample.unreachable).

(** Every set-up goes through and every request is refused. *)
Definition offline : services :=
  Services (Return tt) (Return tt) (λ _, false)
           (λ _ _, Sample.unreachable) (λ _ _, Sample.unreachable)
           (λ _ _ _ _ _, Sample.unreachable).

(** The keys of Amazon and Walmart. *)
Definition two_keys : AgentConfig.t :=
  AgentConfig.Make
    (Some {[ "amazon_product_api" := JStr "key-a"; "walmart_api" := JStr "key-w" ]})
    None.

(** Walmart is answered by OpenAI with a cable at 5 and a plug that has no
    price. *)
Definition unpriced : agent :=
  Agent Sample.settings ["walmart_api"; "openai"] (λ _, false)
        (λ _ _, Sample.unreachable) (λ _ _, Sample.unreachable)
        (λ _ _ _ _ _,
           Return [Sample.bare "Cable" (Some (5 # 1)) (Some (9 # 10));
                   Sample.bare "Plug" None None]).

(** OpenAI alone, which names neither of the two products it sees. *)
Definition labelless : agent :=
  Agent Sample.settings ["openai"] (λ _, true)
        (λ _ _, Sample.unreachable)
        (λ _ _, Return [Item.Make None None None None None None;
                        Item.Make None None (Some (JStr "Acme")) None None None])
        (λ _ _ _ _ _, Sample.unreachable).

(** The key of Shopify alone. *)
Definition shopify_key : AgentConfig.t :=
  AgentConfig.Make (Some {[ "shopify_api" := JStr "key-s" ]}) None.

(** A file system with one file, the configuration of the whole machine. *)
Definition disk : filesystem :=
  Filesystem "/srv/app" "/srv/app/shopping_agent"
             (λ path, "/home/viro" +:+ String.substring 1 (String.length path) path)
             (λ path, bool_decide (path = "/etc/shopping_agent/config.json"))
             (λ path, Return (JObj [("settings", JObj [("max_results", JNum 3)])])).

(** A server whose agent has no OpenAI key; [int] reads a few numbers. *)
Definition server : Api.server :=
  Api.Server Sample.two_shops
             (λ text,
                if decide (text = "0") then Return 0
                else if decide (text = "3") then Return 3
                else Raise (Exn "ValueError"
                                ("invalid literal for int() with base 10: '"
                                 +:+ text +:+ "'")))
             Sample.today 100.
End Fixture.

(** * Properties *)

(** The statements about sample data are about text in ASCII: they are
    read with the interpreter [Sample.ascii_only]. *)
#[local] Existing Instance Sample.ascii_only.

(** ** The comparison of scores *)

Lemma Q_py_lt_spec (a b : Q) : py_lt a b = true ↔ (a < b)%Q.
Proof.
  unfold py_lt, Q_py_lt. rewrite negb_true_iff.
  split; intros Hab.
  - apply Qnot_le_lt. intros Hle. apply Qle_bool_iff in Hle. congruence.
  - destruct (Qle_bool b a) eqn:Hle; [|done].
    apply Qle_bool_iff in Hle. exfalso. by apply (Qlt_not_le a b).
Qed.

Lemma Q_py_lt_false (a b : Q) : py_lt a b = false ↔ (b <= a)%Q.
Proof.
  unfold py_lt, Q_py_lt. rewrite negb_false_iff. apply Qle_bool_iff.
Qed.

Lemma Q_py_lt_asym (a b : Q) : py_lt a b = true → py_lt b a = false.
Proof.
  rewrite Q_py_lt_spec, Q_py_lt_false. apply Qlt_le_weak.
Qed.

Lemma ge_spec (a b : Q) : ge a b ↔ (b <= a)%Q.
Proof.
  unfold ge. rewrite Is_true_true. apply Qle_bool_iff.
Qed.

Lemma string_py_lt_asym (a b : string) : py_lt a b = true → py_lt b a = false.
Proof.
  unfold py_lt, string_py_lt, String.ltb.
  rewrite (String.compare_antisym a b).
  by destruct (String.compare b a).
Qed.

(** ** [sorted] is a stable sort *)

Section sorted_facts.
Context {A K : Type} `{PyLt K}.
Variable key : A → K.
Variable reverse : bool.
Hypothesis py_lt_asym : ∀ a b : K, py_lt a b = true → py_lt b a = false.

Lemma comes_first_asym x y :
  comes_first key reverse y x = true → comes_first key reverse x y = false.
Proof. unfold comes_first. destruct reverse; apply py_lt_asym. Qed.

Lemma insert_stable_Permutation x ys :
  insert_stable key reverse x ys ≡ₚ x :: ys.
Proof.
  induction ys as [|y ys IH]; simpl; [done|].
  destruct (comes_first key reverse y x); [|done].
  rewrite IH. apply Permutation_swap.
Qed.

Lemma sorted_Permutation l : sorted key reverse l ≡ₚ l.
Proof.
  induction l as [|x l IH]; simpl; [done|].
  unfold sorted in *. simpl. by rewrite insert_stable_Permutation, IH.
Qed.

Lemma length_sorted l : length (sorted key reverse l) = length l.
Proof. by rewrite sorted_Permutation. Qed.

Lemma insert_stable_HdRel a x ys :
  in_order key reverse a x → HdRel (in_order key reverse) a ys →
  HdRel (in_order key reverse) a (insert_stable key reverse x ys).
Proof.
  intros Hax Hays. destruct ys as [|y ys]; simpl.
  - by constructor.
  - inversion_clear Hays. destruct (comes_first key reverse y x); by constructor.
Qed.

Lemma insert_stable_Sorted x ys :
  Sorted (in_order key reverse) ys →
  Sorted (in_order key reverse) (insert_stable key reverse x ys).
Proof.
  induction 1 as [|y ys Hys IH Hhd]; simpl.
  - repeat constructor.
  - destruct (comes_first key reverse y x) eqn:Hyx.
    + constructor; [done|].
      apply insert_stable_HdRel; [|done].
      unfold in_order. by apply comes_first_asym.
    + constructor; [by constructor|]. by constructor.
Qed.

Lemma sorted_Sorted l : Sorted (in_order key reverse) (sorted key reverse l).
Proof.
  induction l as [|x l IH]; [constructor|].
  by apply insert_stable_Sorted.
Qed.

(** Stability: elements that do not overtake one another keep their
    order. *)
Lemma insert_stable_filter (P : A → Prop) `{!∀ x, Decision (P x)} x ys :
  (∀ y, P x → P y → comes_first key reverse y x = false) →
  filter P (insert_stable key reverse x ys) = filter P (x :: ys).
Proof.
  intros Hstay. induction ys as [|y ys IH]; simpl; [done|].
  destruct (comes_first key reverse y x) eqn:Hyx; [|done].
  rewrite !filter_cons in *.
  destruct (decide (P y)) as [Hy|Hy]; destruct (decide (P x)) as [Hx|Hx];
    rewrite IH; try done.
  rewrite (Hstay y Hx Hy) in Hyx. done.
Qed.

Lemma sorted_filter (P : A → Prop) `{!∀ x, Decision (P x)} l :
  (∀ x y, P x → P y → comes_first key reverse y x = false) →
  filter P (sorted key reverse l) = filter P l.
Proof.
  intros Hstay. induction l as [|x l IH]; [done|].
  unfold sorted in *. simpl.
  rewrite insert_stable_filter by eauto.
  by rewrite !filter_cons, IH.
Qed.
End sorted_facts.

(** ** [l[:k]] *)

Lemma slice_to_prefix {A} (k : Z) (l : list A) : slice_to k l `prefix_of` l.
Proof.
  unfold slice_to. destruct (k <? 0); apply prefix_take.
Qed.

Lemma len_slice_to {A} (k : Z) (l : list A) :
  0 ≤ k → len (slice_to k l) = Z.min k (len l).
Proof.
  intros Hk. unfold slice_to, len.
  destruct (Z.ltb_spec k 0) as [?|_]; [lia|].
  rewrite length_take. lia.
Qed.

Lemma slice_to_all {A} (k : Z) (l : list A) : len l ≤ k → slice_to k l = l.
Proof.
  intros Hk. unfold slice_to, len in *.
  destruct (Z.ltb_spec k 0) as [?|_]; [lia|].
  apply take_ge. lia.
Qed.

Lemma slice_to_0 {A} (l : list A) : slice_to 0 l = [].
Proof. done. Qed.

Lemma prefix_Sorted {A} (R : A → A → Prop) (l1 l2 : list A) :
  l1 `prefix_of` l2 → Sorted R l2 → Sorted R l1.
Proof.
  intros [l ->]. induction l1 as [|x l1 IH]; simpl; [constructor|].
  intros Hs. apply Sorted_inv in Hs as [Hs Hhd].
  constructor; [by apply IH|].
  destruct l1; simpl in *; [constructor|].
  inversion_clear Hhd. by constructor.
Qed.

Lemma prefix_filter {A} (P : A → Prop) `{!∀ x, Decision (P x)} (l1 l2 : list A) :
  l1 `prefix_of` l2 → filter P l1 `prefix_of` filter P l2.
Proof.
  intros [l ->]. rewrite filter_app. by apply prefix_app_r.
Qed.

Lemma prefix_elem_of {A} (l1 l2 : list A) x :
  l1 `prefix_of` l2 → x ∈ l1 → x ∈ l2.
Proof. intros [l ->] ?. apply elem_of_app. by left. Qed.

(** ** The merge of the OpenAI products *)

Lemma merge_product_fold {python : Interpreter} (O D : list Product.t) (S : gset string) :
  S = list_to_set (keys D) →
  ∃ kept,
    fold_left merge_product O (D, S) = (D ++ kept, list_to_set (keys (D ++ kept)))
    ∧ kept `sublist_of` O
    ∧ (∀ p, p ∈ kept → name_key p ∉ keys D)
    ∧ NoDup (keys kept)
    ∧ (∀ o, o ∈ O → name_key o ∈ keys (D ++ kept)).
Proof.
  revert D S. induction O as [|o O IH]; intros D S ->; simpl.
  - exists []. rewrite app_nil_r. repeat split; try done.
    + intros p Hp. by apply elem_of_nil in Hp.
    + constructor.
    + intros o Ho. by apply elem_of_nil in Ho.
  - case_bool_decide as Ho.
    + destruct (IH D (list_to_set (keys D)) eq_refl)
        as (kept & Hfold & Hsub & Hnew & Hdup & Hall).
      exists kept. repeat split; try done.
      * by apply sublist_cons.
      * intros o' [->|Ho']%elem_of_cons; [|by auto].
        apply elem_of_list_to_set in Ho. unfold keys.
        rewrite fmap_app. apply elem_of_app. by left.
    + assert (Hfresh : name_key o ∉ keys D).
      { intros Hin. apply Ho. by apply elem_of_list_to_set. }
      destruct (IH (D ++ [o]) ({[name_key o]} ∪ list_to_set (keys D)))
        as (kept & Hfold & Hsub & Hnew & Hdup & Hall).
      { unfold keys. rewrite fmap_app, list_to_set_app_L. simpl.
        rewrite (right_id_L ∅ (∪)). apply (comm_L (∪)). }
      exists (o :: kept). rewrite Hfold, <- !(assoc_L (++)). simpl.
      repeat split.
      * by apply sublist_skip.
      * intros p [->|Hp]%elem_of_cons; [done|].
        intros Hin. apply (Hnew p Hp). unfold keys.
        rewrite fmap_app. apply elem_of_app. by left.
      * simpl. constructor; [|done].
        intros Hin. apply list_elem_of_fmap in Hin as (p & Hk & Hp).
        apply (Hnew p Hp). unfold keys. rewrite fmap_app, <- Hk.
        apply elem_of_app. right. simpl. apply list_elem_of_here.
      * intros o' [->|Ho']%elem_of_cons.
        -- unfold keys. rewrite !fmap_app. simpl.
           apply elem_of_app. right. apply list_elem_of_here.
        -- specialize (Hall o' Ho'). by rewrite <- (assoc_L (++)) in Hall.
Qed.

(** [merge_products G O] is [G] followed by the products of [O] whose name
    is seen for the first time. *)
Lemma merge_products_spec {python : Interpreter} (G O : list Product.t) :
  ∃ kept,
    merge_products G O = G ++ kept
    ∧ kept `sublist_of` O
    ∧ (∀ p, p ∈ kept → name_key p ∉ keys G)
    ∧ NoDup (keys kept)
    ∧ (∀ o, o ∈ O → name_key o ∈ keys (G ++ kept)).
Proof.
  destruct (merge_product_fold O G (list_to_set (keys G)) eq_refl)
    as (kept & Hfold & Hrest).
  exists kept. split; [|done].
  unfold merge_products. fold (keys G). by rewrite Hfold.
Qed.

Lemma merge_products_nil_r {python : Interpreter} (G : list Product.t) : merge_products G [] = G.
Proof. done. Qed.

Lemma merge_products_sublist {python : Interpreter} (G O : list Product.t) :
  merge_products G O `sublist_of` G ++ O.
Proof.
  destruct (merge_products_spec G O) as (kept & -> & Hsub & _).
  by apply sublist_app.
Qed.

(** ** What the methods return and log *)

Ltac run :=
  unfold bind, try_except, call, ret, logger; simpl.

Ltac in_list :=
  repeat first [apply list_elem_of_here | apply list_elem_of_further].

Ltac give_records :=
  rewrite <- ?(assoc_L (++)); simpl;
  first [ eexists; split; [reflexivity|]
        | exists []; split; [by rewrite app_nil_r|] ].

Lemma detect_products_run {python : Interpreter} self image_path options log :
  ∃ records,
    detect_products self image_path options log =
    (Return (ranked get_confidence (detect_max_results self options)
               (filter (λ p, ge (get_confidence p)
                                (detect_threshold self options))
                       (detected self image_path options))),
     log ++ records)
    ∧ (∀ e,
        has_api self "google_cloud_vision" = true →
        _detect_with_google_vision self image_path (is_base64 self image_path)
          = Raise e →
        LogRecord ERROR
          ("Error detecting products with Google Cloud Vision API: "
           +:+ exn_str e) ∈ records)
    ∧ (∀ e,
        openai_consulted self (google_products self image_path)
                         (detect_max_results self options) = true →
        _detect_with_openai self image_path (is_base64 self image_path)
          = Raise e →
        LogRecord ERROR
          ("Error detecting products with OpenAI API: " +:+ exn_str e)
          ∈ records).
Proof.
  unfold detect_products, detected, google_products, openai_products.
  unfold openai_consulted, _detect_with_google_vision, _detect_with_openai.
  run.
  destruct (has_api self "google_cloud_vision"),
           (has_api self "openai"); simpl;
    repeat match goal with
    | |- context [vision_client ?s ?i ?b] => destruct (vision_client s i b); simpl
    | |- context [openai_vision ?s ?i ?b] => destruct (openai_vision s i b); simpl
    | |- context [bool_decide ?P || ?c] => destruct (bool_decide P || c); simpl
    end;
    give_records;
    (split; intros e' ? ?; simplify_eq; in_list).
Qed.

Lemma detect_products_value {python : Interpreter} self image_path options log :
  fst (detect_products self image_path options log) =
  Return (ranked get_confidence (detect_max_results self options)
            (filter (λ p, ge (get_confidence p) (detect_threshold self options))
                    (detected self image_path options))).
Proof.
  destruct (detect_products_run self image_path options log) as (? & -> & _).
  done.
Qed.

Lemma search_platform_run {python : Interpreter} self query category price_range max_results
    all_results api_name log :
  ∃ records,
    search_platform self query category price_range max_results
                    all_results api_name log =
    (Return (all_results ++
             round_results self query category price_range max_results api_name),
     log ++ records)
    ∧ (∀ method e,
        getattr ("_search_" +:+ replace "_api" EmptyString api_name) = Some method →
        has_api self api_name = true →
        method self query category price_range max_results = Raise e →
        LogRecord ERROR ("Error searching " +:+ api_name +:+ ": " +:+ exn_str e)
          ∈ records).
Proof.
  unfold search_platform, round_results. run.
  destruct (has_api self api_name);
    destruct (getattr _) as [method|]; simpl;
    try destruct (method _ _ _ _ _) eqn:Hcall; simpl;
    rewrite ?app_nil_r; give_records;
    intros method' e' Hm Hon Hraise; simplify_eq;
    try (rewrite Hcall in Hraise; simplify_eq); in_list.
Qed.

Lemma search_products_run {python : Interpreter} self query options log :
  let k := search_max_results self options in
  let c := search_category options in
  let pr := search_price_range options in
  ∃ records,
    search_products self query options log =
    (Return (ranked get_relevance k (found self query options)),
     log ++ records)
    ∧ (∀ e,
        has_api self "amazon_product_api" = true →
        _search_amazon self query c pr k = Raise e →
        LogRecord ERROR ("Error searching Amazon: " +:+ exn_str e) ∈ records)
    ∧ (∀ e,
        has_api self "walmart_api" = true →
        _search_walmart self query c pr k = Raise e →
        LogRecord ERROR ("Error searching walmart_api: " +:+ exn_str e)
          ∈ records)
    ∧ (∀ e,
        has_api self "ebay_api" = true →
        _search_ebay self query c pr k = Raise e →
        LogRecord ERROR ("Error searching ebay_api: " +:+ exn_str e) ∈ records)
    ∧ (∀ e,
        concat (platform_lists self query options) = [] →
        has_api self "openai" = true →
        _generate_mock_results self query c pr k "Various" = Raise e →
        LogRecord ERROR ("Error generating mock results: " +:+ exn_str e)
          ∈ records).
Proof.
  intros k c pr.
  unfold search_products, found, fallback_results, platform_lists,
    platform_results.
  fold k c pr.
  unfold bind at 1.
  set (amazon := if has_api self "amazon_product_api"
                 then contribution (_search_amazon self query c pr k) else []).
  assert (∃ records,
    (if has_api self "amazon_product_api"
     then try_except
            (amazon_results <- call (_search_amazon self query c pr k) ;;
             logger INFO ("Found " +:+ str_int (len amazon_results) +:+
                          " products on Amazon") ;;;
             ret ([] ++ amazon_results))
            (λ e, logger ERROR ("Error searching Amazon: " +:+ exn_str e) ;;;
                  ret [])
     else ret []) log = (Return amazon, log ++ records)
    ∧ (∀ e,
        has_api self "amazon_product_api" = true →
        _search_amazon self query c pr k = Raise e →
        LogRecord ERROR ("Error searching Amazon: " +:+ exn_str e) ∈ records))
    as (r1 & -> & Hamazon).
  { subst amazon. run. destruct (has_api self "amazon_product_api").
    - destruct (_search_amazon _ _ _ _ _); simpl; give_records;
        intros e' ? ?; simplify_eq; in_list.
    - give_records. intros e' ? ?; simplify_eq. }
  unfold bind at 1. unfold for_loop.
  unfold bind at 1.
  destruct (search_platform_run self query c pr k amazon "walmart_api"
              (log ++ r1)) as (r2 & -> & Hwalmart).
  unfold bind at 1.
  destruct (search_platform_run self query c pr k
              (amazon ++ round_results self query c pr k "walmart_api")
              "ebay_api" ((log ++ r1) ++ r2)) as (r3 & -> & Hebay).
  unfold bind at 1.
  destruct (search_platform_run self query c pr k
              ((amazon ++ round_results self query c pr k "walmart_api")
               ++ round_results self query c pr k "ebay_api")
              "shopify_api" (((log ++ r1) ++ r2) ++ r3)) as (r4 & -> & _).
  unfold bind at 1.
  destruct (search_platform_run self query c pr k
              (((amazon ++ round_results self query c pr k "walmart_api")
               ++ round_results self query c pr k "ebay_api")
               ++ round_results self query c pr k "shopify_api")
              "etsy_api" ((((log ++ r1) ++ r2) ++ r3) ++ r4)) as (r5 & -> & _).
  change (round_results self query c pr k "shopify_api") with (@nil Result.t).
  change (round_results self query c pr k "etsy_api") with (@nil Result.t).
  change (round_results self query c pr k "walmart_api")
    with (if has_api self "walmart_api"
          then contribution (_search_walmart self query c pr k) else []).
  change (round_results self query c pr k "ebay_api")
    with (if has_api self "ebay_api"
          then contribution (_search_ebay self query c pr k) else []).
  rewrite !app_nil_r.
  set (walmart := if has_api self "walmart_api"
                  then contribution (_search_walmart self query c pr k) else []).
  set (ebay := if has_api self "ebay_api"
               then contribution (_search_ebay self query c pr k) else []).
  simpl concat. rewrite app_nil_r, (assoc_L (++)).
  assert (Hwalmart' : ∀ e,
            has_api self "walmart_api" = true →
            _search_walmart self query c pr k = Raise e →
            LogRecord ERROR ("Error searching walmart_api: " +:+ exn_str e) ∈ r2)
    by (intros; by apply (Hwalmart _search_walmart)).
  assert (Hebay' : ∀ e,
            has_api self "ebay_api" = true →
            _search_ebay self query c pr k = Raise e →
            LogRecord ERROR ("Error searching ebay_api: " +:+ exn_str e) ∈ r3)
    by (intros; by apply (Hebay _search_ebay)).
  clear Hwalmart Hebay.
  unfold ret at 1. unfold bind at 1.
  assert (Hlogs : ∀ (r6 : list log_record) x,
            x ∈ r1 ∨ x ∈ r2 ∨ x ∈ r3 ∨ x ∈ r6 →
            x ∈ r1 ++ r2 ++ r3 ++ r4 ++ r5 ++ r6).
  { intros r6 x. rewrite !elem_of_app. tauto. }
  destruct (bool_decide ((amazon ++ walmart) ++ ebay = []) && has_api self "openai")
    eqn:Hfallback.
  - run. destruct (_generate_mock_results _ _ _ _ _ _) eqn:Hmock; simpl;
      rewrite ?app_nil_r, <- ?(assoc_L (++));
      (eexists; split; [reflexivity|]);
      (split; [|split; [|split]]); intros e' **; apply Hlogs; simplify_eq;
      eauto 6.
    do 3 right. in_list.
  - run. rewrite ?app_nil_r, <- ?(assoc_L (++)).
    exists (r1 ++ r2 ++ r3 ++ r4 ++ r5 ++ []).
    split; [by rewrite !app_nil_r|].
    (split; [|split; [|split]]); intros e' **; apply Hlogs; eauto 6.
    exfalso. apply andb_false_iff in Hfallback as [Hne|Hno]; [|congruence].
    apply bool_decide_eq_false in Hne. apply Hne.
    by rewrite <- (assoc_L (++)).
Qed.

Lemma search_products_value {python : Interpreter} self query options log :
  fst (search_products self query options log) =
  Return (ranked get_relevance (search_max_results self options)
            (found self query options)).
Proof.
  destruct (search_products_run self query options log) as (? & -> & _). done.
Qed.

(** ** Membership and order in the output *)

Lemma Sorted_weaken {A} (R1 R2 : A → A → Prop) (l : list A) :
  (∀ a b, R1 a b → R2 a b) → Sorted R1 l → Sorted R2 l.
Proof.
  intros HR. induction 1 as [|x l Hl IH Hhd]; constructor; [done|].
  destruct Hhd; constructor; auto.
Qed.

Lemma prefix_sublist {A} (l1 l2 : list A) :
  l1 `prefix_of` l2 → l1 `sublist_of` l2.
Proof. intros [k ->]. by apply sublist_inserts_r. Qed.

Lemma sublist_fmap {A B} (f : A → B) (l1 l2 : list A) :
  l1 `sublist_of` l2 → f <$> l1 `sublist_of` f <$> l2.
Proof. induction 1; simpl; by constructor. Qed.

Section ranked.
Context {A : Type}.
Variable score : A → Q.
Variable k : Z.
Variable l : list A.

Lemma ranked_Sorted :
  Sorted (λ a b, (score b <= score a)%Q) (ranked score k l).
Proof.
  apply (prefix_Sorted _ _ (sorted score true l)); [apply slice_to_prefix|].
  eapply Sorted_weaken; [|apply (sorted_Sorted score true Q_py_lt_asym)].
  intros a b. unfold in_order, comes_first. apply Q_py_lt_false.
Qed.

Lemma ranked_stable (q : Q) :
  filter (λ a, score a == q)%Q (ranked score k l)
    `prefix_of` filter (λ a, score a == q)%Q l.
Proof.
  rewrite <- (sorted_filter score true (λ a, score a == q)%Q l).
  - apply prefix_filter, slice_to_prefix.
  - intros x y Hx Hy. unfold comes_first. apply Q_py_lt_false.
    rewrite Hx, Hy. apply Qle_refl.
Qed.

Lemma ranked_elem_of x : x ∈ ranked score k l → x ∈ l.
Proof.
  intros Hx. apply (prefix_elem_of _ _ _ (slice_to_prefix _ _)) in Hx.
  by rewrite sorted_Permutation in Hx.
Qed.

Lemma ranked_all : len l ≤ k → ranked score k l ≡ₚ l.
Proof.
  intros Hk. unfold ranked. rewrite slice_to_all.
  - apply sorted_Permutation.
  - unfold len in *. by rewrite length_sorted.
Qed.

Lemma len_ranked : 0 ≤ k → len (ranked score k l) = Z.min k (len l).
Proof.
  intros Hk. unfold ranked. rewrite len_slice_to by done.
  unfold len. by rewrite length_sorted.
Qed.

Lemma ranked_sublist_fmap {B} (f : A → B) :
  NoDup (f <$> l) → NoDup (f <$> ranked score k l).
Proof.
  intros Hl.
  apply (sublist_NoDup (f <$> ranked score k l) (f <$> sorted score true l)).
  - by rewrite sorted_Permutation.
  - apply sublist_fmap, prefix_sublist, slice_to_prefix.
Qed.
End ranked.

(** A descending stable sort is determined by its two properties, so
    [sorted] stands for any implementation of [sorted(..., reverse=True)]:
    a list in descending order of the keys in which, for every key, the
    elements of that key are those of [l] in the order of [l], is
    [sorted key true l]. *)
Lemma stable_sort_unique {A} (key : A → Q) (l1 l2 : list A) :
  Sorted (λ a b, key b <= key a)%Q l1 →
  Sorted (λ a b, key b <= key a)%Q l2 →
  (∀ q : Q, filter (λ a, key a == q)%Q l1 = filter (λ a, key a == q)%Q l2) →
  l1 = l2.
Proof.
  intros H1 H2.
  assert (Htrans : Transitive (λ a b : A, (key b <= key a)%Q)).
  { intros a b c Hab Hbc. by eapply Qle_trans. }
  apply Sorted_StronglySorted in H1, H2; try done.
  revert l2 H2. induction H1 as [|x l1 Hl1 IH Hx]; intros l2 H2 Hf.
  - destruct l2 as [|y l2]; [done|].
    specialize (Hf (key y)). rewrite filter_cons_True in Hf by reflexivity.
    done.
  - destruct H2 as [|y l2 Hl2 Hy].
    { specialize (Hf (key x)). rewrite filter_cons_True in Hf by reflexivity.
      done. }
    assert (Hxy : (key x == key y)%Q).
    { apply Qle_antisym.
      - assert (x ∈ y :: l2) as [->|Hin]%elem_of_cons; [|apply Qle_refl|].
        + eapply (list_elem_of_filter (λ a, key a == key x)%Q).
          rewrite <- Hf, filter_cons_True by reflexivity. apply list_elem_of_here.
        + rewrite Forall_forall in Hy. by apply Hy.
      - assert (y ∈ x :: l1) as [->|Hin]%elem_of_cons; [|apply Qle_refl|].
        + eapply (list_elem_of_filter (λ a, key a == key y)%Q).
          rewrite Hf, filter_cons_True by reflexivity. apply list_elem_of_here.
        + rewrite Forall_forall in Hx. by apply Hx. }
    assert (x = y) as ->.
    { specialize (Hf (key x)).
      rewrite filter_cons_True in Hf by reflexivity.
      rewrite filter_cons_True in Hf by (by symmetry).
      by injection Hf. }
    f_equal. apply IH; [done|].
    intros q. specialize (Hf q). rewrite !filter_cons in Hf.
    destruct (decide (key y == q)%Q); [by injection Hf|done].
Qed.

Lemma sorted_is_the_stable_sort {A} (key : A → Q) (l l' : list A) :
  Sorted (λ a b, key b <= key a)%Q l' →
  (∀ q : Q, filter (λ a, key a == q)%Q l' = filter (λ a, key a == q)%Q l) →
  l' = sorted key true l.
Proof.
  intros Hsorted Hstable. apply (stable_sort_unique key); [done| |].
  - eapply Sorted_weaken; [|apply (sorted_Sorted key true Q_py_lt_asym)].
    intros a b. unfold in_order, comes_first. apply Q_py_lt_false.
  - intros q. rewrite Hstable. symmetry. apply sorted_filter.
    intros x y Hx Hy. unfold comes_first. apply Q_py_lt_false.
    rewrite Hx, Hy. apply Qle_refl.
Qed.

Lemma ranked_0 {A} (score : A → Q) (l : list A) : ranked score 0 l = [].
Proof. done. Qed.

Lemma ranked_nil {A} (score : A → Q) (k : Z) : ranked score k [] = [].
Proof. unfold ranked, slice_to. simpl. destruct (k <? 0); apply take_nil. Qed.

(** ** The products of the two detection adapters *)

Lemma detected_sublist {python : Interpreter} self image_path options :
  detected self image_path options
    `sublist_of` google_products self image_path ++ openai_products self image_path.
Proof.
  unfold detected. destruct (openai_consulted _ _ _).
  - apply merge_products_sublist.
  - by apply sublist_inserts_r.
Qed.

Lemma google_products_confidence {python : Interpreter} self image_path p :
  p ∈ google_products self image_path → is_Some (Product.confidence p).
Proof.
  unfold google_products, _detect_with_google_vision.
  destruct (has_api self "google_cloud_vision"); simpl;
    [|by intros ?%elem_of_nil].
  destruct (vision_client _ _ _) as [response|]; simpl;
    [|by intros ?%elem_of_nil].
  unfold products_of_response.
  rewrite !elem_of_app, !list_elem_of_fmap.
  intros [(a & -> & _)|[(a & -> & _)|(a & -> & _)]]; by eexists.
Qed.

Lemma openai_products_confidence self image_path p :
  p ∈ openai_products self image_path → is_Some (Product.confidence p).
Proof.
  unfold openai_products, _detect_with_openai.
  destruct (has_api self "openai"); simpl; [|by intros ?%elem_of_nil].
  destruct (openai_vision _ _ _) as [items|]; simpl;
    [|by intros ?%elem_of_nil].
  rewrite list_elem_of_fmap. intros (a & -> & _). by eexists.
Qed.

Lemma detected_confidence {python : Interpreter} self image_path options p :
  p ∈ detected self image_path options → is_Some (Product.confidence p).
Proof.
  intros Hp. eapply elem_of_sublist in Hp; [|apply detected_sublist].
  apply elem_of_app in Hp as [Hp|Hp];
    eauto using google_products_confidence, openai_products_confidence.
Qed.

(** ** The claims *)


(** C9 (detect_products): every returned product carries a confidence, and
    its value is at least the threshold in force; the threshold is the one
    of the options when they give one, else the setting, which [__init__]
    sets to 0.7 when the configuration has none.  The last part is about the
    filter alone: whatever the list of products, a product the filter lets
    through has a confidence (0 when the key is missing) of at least the
    threshold, so with a positive threshold the key is never missing. *)
Theorem detect_products_respects_threshold {python : Interpreter} self image_path options log :
  (∃ out,
     fst (detect_products self image_path options log) = Return out
     ∧ ∀ p, p ∈ out →
         ∃ q, Product.confidence p = Some q
              ∧ (detect_threshold self options <= q)%Q)
  ∧ (∀ t m, detect_threshold self (Some (DetectOptions.Make (Some t) m)) = t)
  ∧ (∀ m, detect_threshold self (Some (DetectOptions.Make None m))
          = Settings.confidence_threshold (settings self))
  ∧ detect_threshold self None = Settings.confidence_threshold (settings self)
  ∧ (∀ m t, Settings.confidence_threshold (init_settings (Config.Make None m t))
            = DEFAULT_CONFIDENCE_THRESHOLD)
  ∧ DEFAULT_CONFIDENCE_THRESHOLD = 7 # 10
  ∧ (∀ (threshold : Q) (k : Z) (products : list Product.t) p,
       p ∈ ranked get_confidence k
             (filter (λ p, ge (get_confidence p) threshold) products) →
       (threshold <= get_confidence p)%Q
       ∧ ((0 < threshold)%Q → Product.confidence p ≠ None)).
Proof.
  split; [|do 5 (split; [done|])].
  - rewrite detect_products_value. eexists. split; [reflexivity|].
    intros p Hp. apply ranked_elem_of, list_elem_of_filter in Hp as [Hge Hp].
    apply ge_spec in Hge.
    destruct (detected_confidence _ _ _ _ Hp) as [q Hq].
    exists q. split; [done|].
    unfold get_confidence in Hge. by rewrite Hq in Hge.
  - intros threshold k products p
      [Hge _]%ranked_elem_of%list_elem_of_filter.
    apply ge_spec in Hge. split; [done|].
    intros Hpos Hnone. unfold get_confidence in Hge. rewrite Hnone in Hge.
    simpl in Hge. by apply (Qlt_not_le 0 threshold).
Qed.

Lemma detect_products_respects_threshold_witness :
  ∃ q, Product.confidence
         (product_of_item (Sample.item "Lamp" (8 # 10))) = Some q
       ∧ (7 # 10 <= q)%Q.
Proof.
  destruct (detect_products_respects_threshold Sample.blind "lamp.jpg" None [])
    as [(out & Hout & Hall) _].
  apply Hall.
  vm_compute in Hout. injection Hout as <-.
  apply list_elem_of_here.
Defined.



(** ** Deduplication *)

Lemma detected_cases {python : Interpreter} self image_path options :
  let G := google_products self image_path in
  ∃ kept,
    detected self image_path options = G ++ kept
    ∧ kept `sublist_of` openai_products self image_path
    ∧ (∀ p, p ∈ kept → name_key p ∉ keys G)
    ∧ NoDup (keys kept)
    ∧ (openai_consulted self G (detect_max_results self options) = true →
       ∀ o, o ∈ openai_products self image_path → name_key o ∈ keys (G ++ kept))
    ∧ (openai_consulted self G (detect_max_results self options) = false →
       kept = []).
Proof.
  intros G. unfold detected. fold G.
  destruct (openai_consulted self G _).
  - destruct (merge_products_spec G (openai_products self image_path))
      as (kept & -> & Hsub & Hnew & Hdup & Hall).
    exists kept. by repeat split.
  - exists []. rewrite app_nil_r. repeat split; try done.
    + apply sublist_nil_l.
    + by intros p ?%elem_of_nil.
    + constructor.
Qed.

Lemma detected_NoDup_keys {python : Interpreter} self image_path options :
  NoDup (keys (google_products self image_path)) →
  NoDup (keys (detected self image_path options)).
Proof.
  intros HG.
  destruct (detected_cases self image_path options)
    as (kept & -> & _ & Hnew & Hdup & _).
  unfold keys in *. rewrite fmap_app. apply NoDup_app.
  split; [done|]. split; [|done].
  intros key Hkey (p & -> & Hp)%list_elem_of_fmap.
  by apply (Hnew p Hp).
Qed.

(** The number of products collected when OpenAI is asked as well: those
    of Vision, and one for each name that OpenAI brings and Vision does
    not. *)
Lemma len_detected_consulted {python : Interpreter} self image_path options :
  let G := google_products self image_path in
  let O := openai_products self image_path in
  openai_consulted self G (detect_max_results self options) = true →
  len (detected self image_path options) =
  len G + Z.of_nat (size ((list_to_set (keys O) : gset string)
                          ∖ list_to_set (keys G))).
Proof.
  intros G O Hc.
  destruct (detected_cases self image_path options)
    as (kept & -> & Hsub & Hnew & Hdup & Hall & _).
  fold G in Hnew, Hall. fold O in Hsub, Hall. specialize (Hall Hc).
  unfold len. rewrite length_app, Nat2Z.inj_add. f_equal. f_equal.
  replace (length kept) with (length (keys kept))
    by (unfold keys; apply length_fmap).
  rewrite <- (size_list_to_set (C:=gset string) (keys kept)) by done.
  f_equal. apply set_eq. intros key.
  rewrite elem_of_difference, !elem_of_list_to_set. split.
  - intros (p & -> & Hp)%list_elem_of_fmap. split; [|by apply Hnew].
    apply list_elem_of_fmap_2. by eapply elem_of_sublist.
  - intros [(o & -> & Ho)%list_elem_of_fmap Hfresh].
    specialize (Hall o Ho). unfold keys in Hall.
    rewrite fmap_app in Hall. by apply elem_of_app in Hall as [?|?].
Qed.

(** The two adapters mark their products: those of Vision are objects,
    brands or labels, those of OpenAI are products. *)
Lemma google_products_type {python : Interpreter} self image_path p :
  p ∈ google_products self image_path →
  Product.type p ∈ ["object"; "brand"; "label"].
Proof.
  unfold google_products, _detect_with_google_vision.
  destruct (has_api self "google_cloud_vision"); simpl;
    [|by intros ?%elem_of_nil].
  destruct (vision_client _ _ _) as [response|]; simpl;
    [|by intros ?%elem_of_nil].
  unfold products_of_response.
  rewrite !elem_of_app, !list_elem_of_fmap.
  intros [(a & -> & _)|[(a & -> & _)|(a & -> & _)]]; simpl; in_list.
Qed.

Lemma openai_products_type {python : Interpreter} self image_path p :
  p ∈ openai_products self image_path → Product.type p = "product".
Proof.
  unfold openai_products, _detect_with_openai.
  destruct (has_api self "openai"); simpl; [|by intros ?%elem_of_nil].
  destruct (openai_vision _ _ _) as [items|]; simpl;
    [|by intros ?%elem_of_nil].
  rewrite list_elem_of_fmap. by intros (a & -> & _).
Qed.

Lemma openai_product_not_of_google {python : Interpreter} self image_path o :
  o ∈ openai_products self image_path → o ∉ google_products self image_path.
Proof.
  intros Ho%openai_products_type Hg%google_products_type.
  rewrite Ho in Hg. by repeat apply elem_of_cons in Hg as [?|Hg];
    [..|apply elem_of_nil in Hg].
Qed.

(** In a list without two elements of the same key, an element is the only
    one of its key. *)
Lemma filter_key_singleton {A B} `{EqDecision B} (f : A → B) (l : list A) x :
  NoDup (f <$> l) → x ∈ l → filter (λ y, f y = f x) l = [x].
Proof.
  induction l as [|y l IH]; intros Hdup Hx; [by apply elem_of_nil in Hx|].
  simpl in Hdup. apply NoDup_cons in Hdup as [Hy Hdup].
  rewrite filter_cons. apply elem_of_cons in Hx as [->|Hx].
  - rewrite decide_True by done. f_equal.
    clear IH Hdup. induction l as [|z l IH]; [done|].
    rewrite filter_cons_False.
    + apply IH. intros Hin. apply Hy. simpl. by apply list_elem_of_further.
    + intros Hz. apply Hy. simpl. rewrite <- Hz. apply list_elem_of_here.
  - rewrite decide_False; [by apply IH|].
    intros Hyx. apply Hy. rewrite Hyx. by apply list_elem_of_fmap_2.
Qed.




(** C3, as amended: for a cap [k >= 0], the output of detect_products has
    [min(k, n)] entries, [n] being the number of collected products whose
    confidence reaches the threshold; the collected products are those of
    Vision and, when OpenAI is asked, one more for each name that OpenAI
    brings and Vision does not.  The output of search_products has
    [min(k, n)] entries, [n] being the number of results the platforms gave,
    duplicates included. *)
Theorem merged_length {python : Interpreter}
    self image_path query detect_options search_options log :
  (0 ≤ detect_max_results self detect_options →
   ∃ out,
     fst (detect_products self image_path detect_options log) = Return out
     ∧ len out =
       Z.min (detect_max_results self detect_options)
             (len (filter (λ p, ge (get_confidence p)
                                   (detect_threshold self detect_options))
                          (detected self image_path detect_options)))
     ∧ (openai_consulted self (google_products self image_path)
                         (detect_max_results self detect_options) = true →
        len (detected self image_path detect_options) =
        len (google_products self image_path)
        + Z.of_nat (size ((list_to_set (keys (openai_products self image_path))
                           : gset string)
                          ∖ list_to_set (keys (google_products self image_path)))))
     ∧ (openai_consulted self (google_products self image_path)
                         (detect_max_results self detect_options) = false →
        detected self image_path detect_options
        = google_products self image_path))
  ∧ (0 ≤ search_max_results self search_options →
     ∃ out,
       fst (search_products self query search_options log) = Return out
       ∧ len out =
         Z.min (search_max_results self search_options)
               (len (concat (platform_lists self query search_options)
                     ++ fallback_results self query search_options))).
Proof.
  split; intros Hk.
  - rewrite detect_products_value. eexists. split; [reflexivity|].
    split; [by apply len_ranked|]. split.
    + apply len_detected_consulted.
    + intros Hc. unfold detected. by rewrite Hc.
  - rewrite search_products_value. eexists. split; [reflexivity|].
    by apply len_ranked.
Qed.

Lemma merged_length_witness :
  len (google_products Sample.showroom "shoe.jpg") = 1
  ∧ (∃ out,
       fst (search_products Sample.two_shops "shoe" None []) = Return out
       ∧ len out = 5).
Proof.
  destruct (merged_length Sample.showroom "shoe.jpg" "shoe" None None [])
    as [Hdetect _].
  destruct Hdetect as (out & Hout & Hlen & Hmerged & _); [vm_compute; congruence|].
  split.
  - specialize (Hmerged eq_refl). vm_compute in Hmerged. vm_compute. reflexivity.
  - destruct (merged_length Sample.two_shops "shoe.jpg" "shoe" None None [])
      as [_ Hsearch].
    destruct Hsearch as (out' & Hout' & Hlen'); [vm_compute; congruence|].
    exists out'. split; [done|]. rewrite Hlen'. vm_compute. reflexivity.
Defined.

(** C3 fails as stated.  Vision sees a "Shoe" of score 0.5, OpenAI a "shoe"
    and a "Mug": the sources contribute two distinct names, the cap is 5, and
    the output is empty.  In a search, Amazon answers with a cable and a
    plug and Walmart with the same cable: two distinct names, a cap of 5,
    and three entries in the output. *)
Lemma merged_length_counterexample :
  (detect_max_results Sample.studio None = 5
   ∧ size (list_to_set (keys (google_products Sample.studio "shoe.jpg"
                              ++ openai_products Sample.studio "shoe.jpg"))
           : gset string) = 2%nat
   ∧ ∃ out,
       fst (detect_products Sample.studio "shoe.jpg" None []) = Return out
       ∧ len out = 0)
  ∧ (search_max_results Sample.generated None = 5
     ∧ size (list_to_set
               (lower ∘ Result.name <$>
                concat (platform_lists Sample.generated "cable" None))
             : gset string) = 2%nat
     ∧ ∃ out,
         fst (search_products Sample.generated "cable" None []) = Return out
         ∧ len out = 3).
Proof.
  split; (split; [reflexivity|]); (split; [vm_compute; reflexivity|]);
    eexists; split; vm_compute; reflexivity.
Qed.

(** C4, as amended.  search_products rejects no result for its relevance:
    the output is ordered by relevance, a missing relevance counting as 0
    and a negative one as itself, and when the cap is not reached every
    result the platforms gave is in it.  detect_products rejects the
    products whose confidence (0 when the key is missing) is below the
    threshold and no others: every entry of the output reaches the
    threshold, and when the cap is not reached every collected product that
    reaches the threshold is in the output. *)
Theorem low_scores_are_kept_by_search_only {python : Interpreter}
    self image_path query detect_options search_options log :
  (∃ out,
     fst (search_products self query search_options log) = Return out
     ∧ Sorted by_relevance out
     ∧ (∀ r, Result.relevance r = None → get_relevance r = 0%Q)
     ∧ (∀ r q, Result.relevance r = Some q → get_relevance r = q)
     ∧ (len (found self query search_options)
          ≤ search_max_results self search_options →
        ∀ r, r ∈ found self query search_options → r ∈ out))
  ∧ (∃ out,
       fst (detect_products self image_path detect_options log) = Return out
       ∧ (∀ p, p ∈ out →
            (detect_threshold self detect_options <= get_confidence p)%Q)
       ∧ (len (detected self image_path detect_options)
            ≤ detect_max_results self detect_options →
          ∀ p, p ∈ detected self image_path detect_options →
               (detect_threshold self detect_options <= get_confidence p)%Q →
               p ∈ out)).
Proof.
  split.
  - rewrite search_products_value. eexists. split; [reflexivity|].
    split; [apply ranked_Sorted|].
    split; [intros r Hr; unfold get_relevance; by rewrite Hr|].
    split; [intros r q Hr; unfold get_relevance; by rewrite Hr|].
    intros Hk r Hr.
    by rewrite (ranked_all get_relevance _ _ Hk).
  - rewrite detect_products_value. eexists. split; [reflexivity|]. split.
    + intros p [Hge _]%ranked_elem_of%list_elem_of_filter. by apply ge_spec.
    + intros Hk p Hp Hge.
      rewrite (ranked_all get_confidence).
      * apply list_elem_of_filter. split; [by apply ge_spec|done].
      * etrans; [|exact Hk]. unfold len. apply inj_le, length_filter.
Qed.

Lemma low_scores_are_kept_by_search_only_witness :
  Sample.bare "Plug" None None
    ∈ ranked get_relevance 5 (found Sample.generated "cable" None).
Proof.
  destruct (low_scores_are_kept_by_search_only
              Sample.generated "cable.jpg" "cable" None None [])
    as [(out & Hout & _ & _ & _ & Hall) _].
  rewrite search_products_value in Hout. injection Hout as <-.
  apply Hall.
  - vm_compute. congruence.
  - vm_compute. apply list_elem_of_further, list_elem_of_here.
Defined.

(** C4 fails as stated.  OpenAI names a "Mug" with confidence -0.5; the cap
    is 5 and the output of detect_products is empty: the product is
    rejected for its score.  In a search, a cable of relevance -0.1 comes
    before a plug without relevance in Amazon's answer and after it in the
    output: the negative relevance does not count as 0. *)
Lemma low_scores_counterexample :
  (product_of_item (Sample.item "Mug" (-1 # 2))
     ∈ openai_products Sample.studio "shoe.jpg"
   ∧ detect_max_results Sample.studio None = 5
   ∧ fst (detect_products Sample.studio "shoe.jpg" None []) = Return [])
  ∧ (platform_results Sample.generated "cable" None
                      "amazon_product_api" _search_amazon
     = [Sample.bare "Cable" (Some (5 # 1)) (Some (-1 # 10));
        Sample.bare "Plug" None None]
     ∧ fst (search_products Sample.generated "cable" None [])
       = Return [Sample.bare "Plug" None None;
                 Sample.bare "Cable" (Some (5 # 1)) (Some (-1 # 10));
                 Sample.bare "Cable" (Some (5 # 1)) (Some (-1 # 10))]).
Proof.
  split; [split; [|split]|split]; try (vm_compute; reflexivity).
  vm_compute. apply list_elem_of_further, list_elem_of_here.
Qed.

(** C6 (detect_products and search_products): let the adapters fail, when
    they do, with instances of [Exception] (the class the [except] blocks
    name).  Then the method ends with a value.  An adapter that raises is
    logged at level ERROR with the text of its exception and counts for the
    empty list; the output is the merge of what the adapters contribute, so
    that the products of the other adapters go through the merge as if the
    failed adapter had found nothing. *)
Theorem adapter_failure_is_contained {python : Interpreter}
    self image_path query detect_options search_options log :
  (raises_exceptions_only
     (_detect_with_google_vision self image_path (is_base64 self image_path)) →
   raises_exceptions_only
     (_detect_with_openai self image_path (is_base64 self image_path)) →
   ∃ out records,
     detect_products self image_path detect_options log
       = (Return out, log ++ records)
     ∧ out = ranked get_confidence (detect_max_results self detect_options)
               (filter (λ p, ge (get_confidence p)
                                (detect_threshold self detect_options))
                       (detected self image_path detect_options))
     ∧ (∀ e,
          is_exception e = true →
          has_api self "google_cloud_vision" = true →
          _detect_with_google_vision self image_path (is_base64 self image_path)
            = Raise e →
          google_products self image_path = []
          ∧ detected self image_path detect_options
            = (if has_api self "openai"
               then merge_products [] (openai_products self image_path)
               else [])
          ∧ LogRecord ERROR
              ("Error detecting products with Google Cloud Vision API: "
               +:+ exn_str e) ∈ records)
     ∧ (∀ e,
          is_exception e = true →
          openai_consulted self (google_products self image_path)
                           (detect_max_results self detect_options) = true →
          _detect_with_openai self image_path (is_base64 self image_path)
            = Raise e →
          openai_products self image_path = []
          ∧ detected self image_path detect_options
            = google_products self image_path
          ∧ LogRecord ERROR
              ("Error detecting products with OpenAI API: " +:+ exn_str e)
              ∈ records))
  ∧ (let k := search_max_results self search_options in
     let c := search_category search_options in
     let pr := search_price_range search_options in
     raises_exceptions_only (_search_amazon self query c pr k) →
     raises_exceptions_only (_search_walmart self query c pr k) →
     raises_exceptions_only (_search_ebay self query c pr k) →
     raises_exceptions_only
       (_generate_mock_results self query c pr k "Various") →
     ∃ out records,
       search_products self query search_options log
         = (Return out, log ++ records)
       ∧ out = ranked get_relevance k
                 (concat (platform_lists self query search_options)
                  ++ fallback_results self query search_options)
       ∧ (∀ e,
            is_exception e = true →
            has_api self "amazon_product_api" = true →
            _search_amazon self query c pr k = Raise e →
            platform_results self query search_options
                             "amazon_product_api" _search_amazon = []
            ∧ LogRecord ERROR ("Error searching Amazon: " +:+ exn_str e)
                ∈ records)
       ∧ (∀ e,
            is_exception e = true →
            has_api self "walmart_api" = true →
            _search_walmart self query c pr k = Raise e →
            platform_results self query search_options
                             "walmart_api" _search_walmart = []
            ∧ LogRecord ERROR ("Error searching walmart_api: " +:+ exn_str e)
                ∈ records)
       ∧ (∀ e,
            is_exception e = true →
            has_api self "ebay_api" = true →
            _search_ebay self query c pr k = Raise e →
            platform_results self query search_options
                             "ebay_api" _search_ebay = []
            ∧ LogRecord ERROR ("Error searching ebay_api: " +:+ exn_str e)
                ∈ records)
       ∧ (∀ e,
            is_exception e = true →
            concat (platform_lists self query search_options) = [] →
            has_api self "openai" = true →
            _generate_mock_results self query c pr k "Various" = Raise e →
            fallback_results self query search_options = []
            ∧ LogRecord ERROR ("Error generating mock results: " +:+ exn_str e)
                ∈ records)).
Proof.
  split.
  - intros _ _.
    destruct (detect_products_run self image_path detect_options log)
      as (records & Hrun & HG & HO).
    eexists _, records. split; [exact Hrun|]. split; [done|]. split.
    + intros e _ Hon Hraise. split; [|split; [|by apply HG]].
      * unfold google_products. by rewrite Hraise.
      * unfold detected, google_products, openai_consulted.
        rewrite Hraise. simpl. by destruct (has_api self "openai").
    + intros e _ Hc Hraise.
      assert (openai_products self image_path = []) as HO'
        by (unfold openai_products; by rewrite Hraise).
      split; [done|]. split; [|by apply HO].
      unfold detected. rewrite Hc, HO'. apply merge_products_nil_r.
  - intros k c pr _ _ _ _.
    destruct (search_products_run self query search_options log)
      as (records & Hrun & HA & HW & HE & HF).
    eexists _, records. split; [exact Hrun|]. split; [done|].
    unfold platform_results, fallback_results. fold k c pr.
    repeat split; intros;
      repeat match goal with
      | H : has_api _ _ = true |- _ => rewrite H
      | H : _ = Raise _ |- _ => rewrite H
      end; simpl; eauto.
    by destruct (bool_decide _).
Qed.

Lemma adapter_failure_is_contained_witness :
  ∃ records,
    detect_products Sample.blind "lamp.jpg" None []
      = (Return [product_of_item (Sample.item "Lamp" (8 # 10))], records)
    ∧ LogRecord ERROR
        "Error detecting products with Google Cloud Vision API: Connection refused"
        ∈ records.
Proof.
  destruct (adapter_failure_is_contained Sample.blind "lamp.jpg" "lamp" None None [])
    as [Hdetect _].
  destruct Hdetect as (out & records & Hrun & Hout & HG & _).
  - intros e [= <-]. reflexivity.
  - intros e [=].
  - exists records. split.
    + rewrite Hrun, Hout. vm_compute. reflexivity.
    + apply (HG (Exn "ConnectionError" "Connection refused")); reflexivity.
Defined.

(** Outside the two merges an adapter failure can reach the caller: the
    loop of [find_best_deal] calls [_generate_mock_results] for "Target"
    and "BestBuy" outside any [try]. *)
Lemma find_best_deal_can_raise :
  fst (find_best_deal Sample.showroom "shoe" None [])
    = Raise (Exn "ConnectionError" "Connection refused").
Proof. vm_compute. reflexivity. Qed.

(** ** [min] and [max] *)

Section min_max_facts.
Context {A K : Type} `{PyLt K}.
Variable key : A → K.
Variable le : K → K → Prop.
Hypothesis le_trans : ∀ a b c, le a b → le b c → le a c.
Hypothesis lt_le : ∀ a b, py_lt a b = true → le a b.
Hypothesis not_lt_le : ∀ a b, py_lt a b = false → le b a.
Hypothesis lt_irrefl : ∀ a, py_lt a a = false.

Lemma min_from_elem_of best l : min_from key best l ∈ best :: l.
Proof.
  revert best. induction l as [|x l IH]; intros best; simpl.
  - apply list_elem_of_here.
  - specialize (IH (if py_lt (key x) (key best) then x else best)).
    apply elem_of_cons in IH as [->|IH].
    + destruct (py_lt (key x) (key best)).
      * apply list_elem_of_further, list_elem_of_here.
      * apply list_elem_of_here.
    + by do 2 apply list_elem_of_further.
Qed.

Lemma min_from_le best l x :
  x ∈ best :: l → le (key (min_from key best l)) (key x).
Proof.
  revert best x. induction l as [|y l IH]; intros best x Hx; simpl.
  - apply list_elem_of_singleton in Hx as ->. by apply not_lt_le.
  - set (b := if py_lt (key y) (key best) then y else best).
    assert (Hb : le (key b) (key best) ∧ le (key b) (key y)).
    { subst b. destruct (py_lt (key y) (key best)) eqn:Hlt.
      - split; [by apply lt_le|by apply not_lt_le].
      - split; [by apply not_lt_le|by apply not_lt_le]. }
    destruct Hb as [Hbest Hy].
    apply elem_of_cons in Hx as [->|[->|Hx]%elem_of_cons].
    + eapply le_trans; [|exact Hbest]. apply IH, list_elem_of_here.
    + eapply le_trans; [|exact Hy]. apply IH, list_elem_of_here.
    + by apply IH, list_elem_of_further.
Qed.

Lemma max_from_elem_of best l : max_from key best l ∈ best :: l.
Proof.
  revert best. induction l as [|x l IH]; intros best; simpl.
  - apply list_elem_of_here.
  - specialize (IH (if py_lt (key best) (key x) then x else best)).
    apply elem_of_cons in IH as [->|IH].
    + destruct (py_lt (key best) (key x)).
      * apply list_elem_of_further, list_elem_of_here.
      * apply list_elem_of_here.
    + by do 2 apply list_elem_of_further.
Qed.

Lemma max_from_ge best l x :
  x ∈ best :: l → le (key x) (key (max_from key best l)).
Proof.
  revert best x. induction l as [|y l IH]; intros best x Hx; simpl.
  - apply list_elem_of_singleton in Hx as ->. by apply not_lt_le.
  - set (b := if py_lt (key best) (key y) then y else best).
    assert (Hb : le (key best) (key b) ∧ le (key y) (key b)).
    { subst b. destruct (py_lt (key best) (key y)) eqn:Hlt.
      - split; [by apply lt_le|by apply not_lt_le].
      - split; [by apply not_lt_le|by apply not_lt_le]. }
    destruct Hb as [Hbest Hy].
    apply elem_of_cons in Hx as [->|[->|Hx]%elem_of_cons].
    + eapply le_trans; [exact Hbest|]. apply IH, list_elem_of_here.
    + eapply le_trans; [exact Hy|]. apply IH, list_elem_of_here.
    + by apply IH, list_elem_of_further.
Qed.
End min_max_facts.

Lemma Q_py_lt_irrefl (a : Q) : py_lt a a = false.
Proof. apply Q_py_lt_false, Qle_refl. Qed.

Lemma price_key_le_trans a b c :
  price_key_le a b → price_key_le b c → price_key_le a c.
Proof.
  destruct a, b, c; simpl; try done. apply Qle_trans.
Qed.

Lemma price_key_lt_le a b : py_lt a b = true → price_key_le a b.
Proof.
  destruct a, b; simpl; try done.
  intros Hlt%Q_py_lt_spec. by apply Qlt_le_weak.
Qed.

Lemma price_key_not_lt_le a b : py_lt a b = false → price_key_le b a.
Proof.
  destruct a, b; simpl; try done. apply Q_py_lt_false.
Qed.

Lemma price_key_lt_irrefl a : py_lt a a = false.
Proof. destruct a; [apply Q_py_lt_irrefl|done]. Qed.

(** ** [find_best_deal] *)

Lemma inject_Z_len_nonzero {A} (l : list A) :
  l ≠ [] → Qeq_bool (inject_Z (len l)) 0 = false.
Proof.
  intros Hl. destruct l as [|x l]; [done|].
  unfold len. simpl length. rewrite Nat2Z.inj_succ.
  destruct (Qeq_bool _ 0) eqn:Heq; [|done].
  apply Qeq_bool_iff in Heq. unfold Qeq in Heq. simpl in Heq. lia.
Qed.

Lemma pick_best_deal_run product_name available_platforms all_results log :
  all_results ≠ [] →
  ∃ best c log',
    pick_best_deal product_name available_platforms all_results log
      = (Return (BestDeal (Result.set_comparison best c)), log')
    ∧ min get_price_or_inf all_results = Return best
    ∧ Comparison.average_price c
      = (sum (get_price <$> all_results) / inject_Z (len all_results))%Q
    ∧ Comparison.savings c = (Comparison.average_price c - get_price best)%Q
    ∧ Comparison.total_results c = len all_results
    ∧ Comparison.platforms_searched c = available_platforms.
Proof.
  intros Hne. unfold pick_best_deal.
  rewrite bool_decide_eq_false_2 by done.
  destruct all_results as [|x l]; [done|].
  unfold bind, call, ret, logger, truediv.
  rewrite inject_Z_len_nonzero by done. simpl.
  eexists _, _, _. split; [reflexivity|]. by repeat split.
Qed.

Lemma min_price_spec (all_results : list Result.t) best :
  min get_price_or_inf all_results = Return best →
  best ∈ all_results
  ∧ ∀ x, x ∈ all_results →
         price_key_le (get_price_or_inf best) (get_price_or_inf x).
Proof.
  destruct all_results as [|r l]; [done|]. simpl. intros [= <-]. split.
  - apply min_from_elem_of.
  - intros x Hx.
    by apply (min_from_le get_price_or_inf price_key_le price_key_le_trans
                price_key_lt_le price_key_not_lt_le price_key_lt_irrefl).
Qed.

Lemma gather_platform_run {python : Interpreter} self product_name k all_results platform log out log' :
  gather_platform self product_name k all_results platform log
    = (Return out, log') →
  out = all_results ++ contribution (deal_source self product_name k platform).
Proof.
  unfold gather_platform, deal_source.
  destruct (getattr _) as [method|].
  - run. destruct (method _ _ _ _ _); simpl; intros [= <- _];
      by rewrite ?app_nil_r.
  - run. destruct (_generate_mock_results _ _ _ _ _ _); simpl; [|done].
    by intros [= <- _].
Qed.

Lemma gather_loop_elem_of {python : Interpreter} self product_name k platforms :
  ∀ all_results log out log',
    for_loop (gather_platform self product_name k) all_results platforms log
      = (Return out, log') →
    ∀ r, r ∈ out →
      r ∈ all_results
      ∨ ∃ platform, platform ∈ platforms
           ∧ r ∈ contribution (deal_source self product_name k platform).
Proof.
  induction platforms as [|platform platforms IH];
    intros all_results log out log'; simpl.
  - intros [= <- _] r Hr. by left.
  - unfold bind at 1.
    destruct (gather_platform _ _ _ _ _ _) as [[acc|e] log1] eqn:Hstep; [|done].
    apply gather_platform_run in Hstep as ->.
    intros Hloop r Hr.
    destruct (IH _ _ _ _ Hloop r Hr) as [Hin|(p & Hp & Hin)].
    + apply elem_of_app in Hin as [Hin|Hin]; [by left|].
      right. exists platform. split; [apply list_elem_of_here|done].
    + right. exists p. split; [by apply list_elem_of_further|done].
Qed.

Lemma set_comparison_fields (r : Result.t) (c : Comparison.t) :
  let r' := Result.set_comparison r c in
  Result.id r' = Result.id r
  ∧ Result.name r' = Result.name r
  ∧ Result.description r' = Result.description r
  ∧ Result.price r' = Result.price r
  ∧ Result.currency r' = Result.currency r
  ∧ Result.url r' = Result.url r
  ∧ Result.image_url r' = Result.image_url r
  ∧ Result.platform r' = Result.platform r
  ∧ Result.rating r' = Result.rating r
  ∧ Result.reviews_count r' = Result.reviews_count r
  ∧ Result.relevance r' = Result.relevance r
  ∧ Result.category r' = Result.category r
  ∧ Result.brand r' = Result.brand r
  ∧ Result.availability r' = Result.availability r
  ∧ Result.shipping r' = Result.shipping r
  ∧ Result.comparison r' = Some c.
Proof. by repeat split. Qed.



(** C7, as amended.  detect_products and search_products return products
    and results exactly as the adapters gave them: they only filter, reorder
    and truncate.  find_best_deal returns a result of an adapter with one
    key added, ["comparison"]; every other key is as the adapter gave it. *)
Theorem only_find_best_deal_adds_a_field {python : Interpreter}
    self image_path query product_name
    detect_options search_options deal_options log :
  (∃ out,
     fst (detect_products self image_path detect_options log) = Return out
     ∧ ∀ p, p ∈ out →
         p ∈ google_products self image_path
         ∨ p ∈ openai_products self image_path)
  ∧ (∃ out,
       fst (search_products self query search_options log) = Return out
       ∧ ∀ r, r ∈ out →
           (∃ results, results ∈ platform_lists self query search_options
                       ∧ r ∈ results)
           ∨ r ∈ fallback_results self query search_options)
  ∧ (∀ best_deal,
       fst (find_best_deal self product_name deal_options log)
         = Return (BestDeal best_deal) →
       ∃ r c platform,
         platform ∈ deal_platforms self
         ∧ r ∈ contribution (deal_source self product_name
                               (deal_max_results deal_options) platform)
         ∧ best_deal = Result.set_comparison r c)
  ∧ (∀ r c,
       let r' := Result.set_comparison r c in
       Result.id r' = Result.id r
       ∧ Result.name r' = Result.name r
       ∧ Result.description r' = Result.description r
       ∧ Result.price r' = Result.price r
       ∧ Result.currency r' = Result.currency r
       ∧ Result.url r' = Result.url r
       ∧ Result.image_url r' = Result.image_url r
       ∧ Result.platform r' = Result.platform r
       ∧ Result.rating r' = Result.rating r
       ∧ Result.reviews_count r' = Result.reviews_count r
       ∧ Result.relevance r' = Result.relevance r
       ∧ Result.category r' = Result.category r
       ∧ Result.brand r' = Result.brand r
       ∧ Result.availability r' = Result.availability r
       ∧ Result.shipping r' = Result.shipping r
       ∧ Result.comparison r' = Some c).
Proof.
  split; [|split; [|split]].
  - rewrite detect_products_value. eexists. split; [reflexivity|].
    intros p [_ Hp]%ranked_elem_of%list_elem_of_filter.
    apply elem_of_app. eapply elem_of_sublist; [exact Hp|].
    apply detected_sublist.
  - rewrite search_products_value. eexists. split; [reflexivity|].
    intros r Hr%ranked_elem_of. unfold found in Hr.
    apply elem_of_app in Hr as [Hr|Hr]; [left|by right].
    apply list_elem_of_In, in_concat in Hr as (results & Hin & Hr).
    exists results. by rewrite !list_elem_of_In.
  - intros best_deal. unfold find_best_deal, bind, gather_deals.
    destruct (for_loop _ _ _ _) as [[all_results|e] log1] eqn:Hgather;
      [|done].
    destruct (decide (all_results = [])) as [->|Hne].
    { by unfold pick_best_deal, bind, logger, ret. }
    destruct (pick_best_deal_run product_name (deal_platforms self)
                all_results log1 Hne)
      as (best & c & log' & -> & Hmin & _).
    simpl. intros [= <-].
    destruct (min_price_spec _ _ Hmin) as [Hin _].
    destruct (gather_loop_elem_of _ _ _ _ _ _ _ _ Hgather best Hin)
      as [?%elem_of_nil|(platform & Hp & Hbest)]; [done|].
    by exists best, c, platform.
  - apply set_comparison_fields.
Qed.

Lemma only_find_best_deal_adds_a_field_witness :
  ∃ r c,
    r ∈ contribution (_search_walmart Sample.two_shops "shoe" None None 3)
    ∧ fst (find_best_deal Sample.two_shops "shoe" None [])
      = Return (BestDeal (Result.set_comparison r c)).
Proof.
  destruct (only_find_best_deal_adds_a_field Sample.two_shops "shoe.jpg" "shoe" "shoe"
              None None None []) as (_ & _ & Hdeal & _).
  destruct (find_best_deal Sample.two_shops "shoe" None [])
    as [[[error|best_deal]|e] log'] eqn:Hrun;
    try (vm_compute in Hrun; discriminate Hrun).
  destruct (Hdeal best_deal eq_refl) as (r & c & platform & Hp & Hr & ->).
  exists r, c. split; [|done].
  vm_compute in Hp. apply list_elem_of_singleton in Hp as ->. exact Hr.
Defined.

(** C7 fails as stated.  With Walmart configured, find_best_deal "shoe"
    returns the cheapest of Walmart's three results with a comparison in it,
    which none of the results of the adapter has: the returned dict is not
    the dict the adapter produced. *)
Lemma find_best_deal_adds_a_field_counterexample :
  ∃ best_deal,
    fst (find_best_deal Sample.two_shops "shoe" None [])
      = Return (BestDeal best_deal)
    ∧ deal_platforms Sample.two_shops = ["Walmart"]
    ∧ Result.comparison best_deal ≠ None
    ∧ Forall (λ r, Result.comparison r = None)
             (contribution (_search_walmart Sample.two_shops "shoe" None None 3))
    ∧ best_deal ∉ contribution
                    (_search_walmart Sample.two_shops "shoe" None None 3).
Proof.
  eexists. split; [vm_compute; reflexivity|]. split; [reflexivity|].
  split; [done|].
  assert (HF : Forall (λ r, Result.comparison r = None)
                 (contribution
                    (_search_walmart Sample.two_shops "shoe" None None 3)))
    by (vm_compute; repeat constructor).
  split; [exact HF|].
  intros Hin. rewrite Forall_forall in HF. by specialize (HF _ Hin).
Qed.

(** ** Loops that may raise *)

Lemma for_each_Return {A B} (body : A → outcome B) (l : list A) :
  (∀ x, x ∈ l → ∃ y, body x = Return y) →
  ∃ ys, for_each body l = Return ys ∧ length ys = length l.
Proof.
  induction l as [|x l IH]; intros Hbody; simpl.
  - by exists [].
  - destruct (Hbody x) as [y ->]; [apply list_elem_of_here|].
    destruct IH as (ys & -> & Hlen).
    { intros x' Hx'. by apply Hbody, list_elem_of_further. }
    exists (y :: ys). simpl. by rewrite Hlen.
Qed.

Lemma for_each_Raise {A B} (body : A → outcome B) (l1 l2 : list A) x e :
  (∀ y, y ∈ l1 → ∃ z, body y = Return z) →
  body x = Raise e →
  for_each body (l1 ++ x :: l2) = Raise e.
Proof.
  intros Hl1 Hx. induction l1 as [|y l1 IH]; simpl.
  - by rewrite Hx.
  - destruct (Hl1 y) as [z ->]; [apply list_elem_of_here|].
    rewrite IH; [done|].
    intros y' Hy'. by apply Hl1, list_elem_of_further.
Qed.

Lemma elem_of_range (n i : Z) : i ∈ range n ↔ 0 ≤ i < n.
Proof.
  unfold range. rewrite list_elem_of_fmap. split.
  - intros (k & -> & Hk). apply elem_of_seq in Hk. lia.
  - intros Hi. exists (Z.to_nat i). split; [lia|].
    apply elem_of_seq. lia.
Qed.

Lemma length_range (n : Z) : 0 ≤ n → len (range n) = n.
Proof.
  intros Hn. unfold len, range. rewrite length_fmap, length_seq. lia.
Qed.

Lemma range_nonpositive (n : Z) : n ≤ 0 → range n = [].
Proof.
  intros Hn. unfold range. by replace (Z.to_nat n) with 0%nat by lia.
Qed.

Lemma range_split (n i : Z) :
  0 ≤ i < n → ∃ l2, range n = range i ++ i :: l2.
Proof.
  intros Hi. unfold range.
  replace (Z.to_nat n) with (Z.to_nat i + S (Z.to_nat (n - i - 1)))%nat by lia.
  rewrite seq_app, fmap_app. simpl.
  eexists. f_equal. f_equal. lia.
Qed.

(** ** Sums and averages *)

Lemma fold_left_Qplus_bounds (l : list Q) (lo hi a : Q) :
  (∀ x, x ∈ l → (lo <= x <= hi)%Q) →
  (a + inject_Z (len l) * lo <= fold_left Qplus l a
   ∧ fold_left Qplus l a <= a + inject_Z (len l) * hi)%Q.
Proof.
  revert a. induction l as [|x l IH]; intros a Hl; simpl.
  - change (inject_Z (len [])) with 0%Q. simpl fold_left. split; lra.
  - destruct (Hl x) as [Hlo Hhi]; [apply list_elem_of_here|].
    destruct (IH (a + x)%Q) as [IHlo IHhi].
    { intros y Hy. by apply Hl, list_elem_of_further. }
    assert (Hlen : (inject_Z (len (x :: l)) == inject_Z (len l) + 1)%Q).
    { unfold len. simpl length. rewrite Nat2Z.inj_succ, <- Z.add_1_r.
      rewrite inject_Z_plus. reflexivity. }
    rewrite Hlen. split; lra.
Qed.

Lemma average_bounds (l : list Q) (lo hi : Q) :
  l ≠ [] →
  (∀ x, x ∈ l → (lo <= x <= hi)%Q) →
  (lo <= sum l / inject_Z (len l) ∧ sum l / inject_Z (len l) <= hi)%Q.
Proof.
  intros Hne Hl.
  assert (Hpos : (0 < inject_Z (len l))%Q).
  { destruct l; [done|]. unfold len. simpl length.
    rewrite <- (Zlt_Qlt 0). lia. }
  destruct (fold_left_Qplus_bounds l lo hi 0 Hl) as [Hlo Hhi].
  fold (sum l) in Hlo, Hhi. split.
  - apply Qle_shift_div_l; [done|]. lra.
  - apply Qle_shift_div_r; [done|]. lra.
Qed.

(** ** [get_price_history] *)

Lemma history_entry_Return w base_price i :
  0 ≤ i < now w → now w ≤ 3652059 →
  ∃ item, history_entry w base_price i = Return item.
Proof.
  intros Hi Hnow. unfold history_entry, days_before.
  destruct (Z.ltb_spec 999999999 (Z.abs i)); [lia|].
  destruct (Z.ltb_spec (now w - i) 1); [lia|].
  destruct (Z.ltb_spec 3652059 (now w - i)); [lia|].
  simpl. by eexists.
Qed.

Lemma history_entry_Raise w base_price :
  1 ≤ now w ≤ 3652059 →
  history_entry w base_price (now w)
    = Raise (Exn "OverflowError" "date value out of range").
Proof.
  intros Hnow. unfold history_entry, days_before.
  destruct (Z.ltb_spec 999999999 (Z.abs (now w))); [lia|].
  destruct (Z.ltb_spec (now w - now w) 1); [|lia].
  done.
Qed.

Lemma get_price_history_empty w self product_id platform options log :
  history_days options ≤ 0 →
  get_price_history w self product_id platform options log
    = (Raise (Exn "ValueError" "min() arg is an empty sequence"), log).
Proof.
  intros Hdays. unfold get_price_history.
  rewrite range_nonpositive; [reflexivity|exact Hdays].
Qed.

Lemma get_price_history_overflow w self product_id platform options log :
  1 ≤ now w ≤ 3652059 →
  now w < history_days options →
  get_price_history w self product_id platform options log
    = (Raise (Exn "OverflowError" "date value out of range"), log).
Proof.
  intros Hnow Hdays. unfold get_price_history.
  destruct (range_split (history_days options) (now w)) as [l2 ->]; [lia|].
  unfold bind at 1. unfold call at 1.
  rewrite (for_each_Raise _ _ _ _ (Exn "OverflowError" "date value out of range")).
  - done.
  - intros i Hi%elem_of_range. apply history_entry_Return; lia.
  - by apply history_entry_Raise.
Qed.

Lemma string_not_lt_leb (a b : string) :
  py_lt b a = false → String.leb a b = true.
Proof.
  unfold py_lt, string_py_lt, String.ltb, String.leb.
  rewrite (String.compare_antisym a b).
  by destruct (String.compare b a).
Qed.

Lemma get_price_history_run w self product_id platform options log :
  1 ≤ history_days options ≤ now w →
  now w ≤ 3652059 →
  ∃ result log',
    get_price_history w self product_id platform options log
      = (Return result, log')
    ∧ len (History.price_history result) = history_days options
    ∧ Sorted dates_ascend (History.price_history result)
    ∧ (∀ item, item ∈ History.price_history result →
         (History.lowest_price result <= Entry.price item
          ∧ Entry.price item <= History.highest_price result)%Q)
    ∧ (∃ item, item ∈ History.price_history result
               ∧ Entry.price item = History.lowest_price result)
    ∧ (∃ item, item ∈ History.price_history result
               ∧ Entry.price item = History.highest_price result)
    ∧ (History.lowest_price result <= History.average_price result
       ∧ History.average_price result <= History.highest_price result)%Q.
Proof.
  intros Hdays Hnow. unfold get_price_history.
  destruct (for_each_Return (history_entry w (history_base_price product_id))
              (range (history_days options))) as (entries & Hloop & Hlen).
  { intros i Hi%elem_of_range. apply history_entry_Return; lia. }
  unfold bind at 1. unfold call at 1. rewrite Hloop. clear Hloop.
  set (price_history := sorted Entry.date false entries).
  assert (Hcount : len price_history = history_days options).
  { unfold len, price_history. rewrite length_sorted, Hlen.
    apply (length_range (history_days options)). lia. }
  assert (Hsorted : Sorted dates_ascend price_history).
  { eapply Sorted_weaken;
      [|apply (sorted_Sorted Entry.date false string_py_lt_asym)].
    intros a b. apply string_not_lt_leb. }
  assert (Hprices : ∀ x, x ∈ Entry.price <$> price_history ↔
                         ∃ item, item ∈ price_history ∧ Entry.price item = x).
  { intros x. rewrite list_elem_of_fmap.
    split; [intros (item & -> & Hin)|intros (item & Hin & <-)]; eauto. }
  assert (Hne : price_history ≠ []).
  { intros Hnil. rewrite Hnil in Hcount. unfold len in Hcount. simpl in Hcount.
    lia. }
  destruct (Entry.price <$> price_history) as [|x prices] eqn:Hp.
  { by destruct price_history. }
  unfold bind, call, ret, logger, truediv. simpl min. simpl max.
  rewrite inject_Z_len_nonzero by done. simpl.
  set (lowest := min_from (λ x : Q, x) x prices).
  set (highest := max_from (λ x : Q, x) x prices).
  assert (Hlow : ∀ y, y ∈ x :: prices → (lowest <= y)%Q).
  { intros y Hy.
    apply (min_from_le (λ x : Q, x) Qle Qle_trans); try done.
    - intros a b Hab%Q_py_lt_spec. by apply Qlt_le_weak.
    - intros a b. apply Q_py_lt_false.
    - apply Q_py_lt_irrefl. }
  assert (Hhigh : ∀ y, y ∈ x :: prices → (y <= highest)%Q).
  { intros y Hy.
    apply (max_from_ge (λ x : Q, x) Qle Qle_trans); try done.
    - intros a b Hab%Q_py_lt_spec. by apply Qlt_le_weak.
    - intros a b. apply Q_py_lt_false.
    - apply Q_py_lt_irrefl. }
  eexists _, _. split; [reflexivity|]. simpl.
  split; [done|]. split; [done|]. split; [|split; [|split]].
  - intros item Hitem.
    assert (Entry.price item ∈ x :: prices) by (apply Hprices; eauto).
    split; [by apply Hlow|by apply Hhigh].
  - apply Hprices. apply min_from_elem_of.
  - apply Hprices. apply max_from_elem_of.
  - replace (len price_history) with (len (x :: prices)).
    + apply average_bounds; [done|].
      intros y Hy. split; [by apply Hlow|by apply Hhigh].
    + rewrite <- Hp. unfold len. by rewrite length_fmap.
Qed.




(** * Properties of the rest of the code *)

(** ** The generator of mock results *)

Lemma for_each_Forall2 {A B} (body : A → outcome B) (l : list A) (ys : list B) :
  for_each body l = Return ys ↔ Forall2 (λ x y, body x = Return y) l ys.
Proof.
  revert ys. induction l as [|x l IH]; intros ys; simpl.
  - split.
    + intros [= <-]. constructor.
    + intros Hall. by inversion Hall.
  - destruct (body x) as [y|e] eqn:Hx.
    + destruct (for_each body l) as [zs|e] eqn:Hl.
      * split.
        -- intros [= <-]. constructor; [done|]. by apply IH.
        -- intros Hall. inversion Hall as [|? y' ? zs' Hy Hzs]; subst.
           apply IH in Hzs. congruence.
      * split; [done|].
        intros Hall. inversion Hall as [|? y' ? zs' Hy Hzs]; subst.
        apply IH in Hzs. congruence.
    + split; [done|].
      intros Hall. inversion Hall; subst. congruence.
Qed.

Lemma chr_Return (i : Z) : 0 ≤ i ≤ 1114111 → ∃ s, chr i = Return s.
Proof.
  intros Hi. unfold chr.
  replace ((i <? 0) || (1114111 <? i)) with false
    by (symmetry; apply orb_false_intro; lia).
  repeat case_match; eauto.
Qed.

Lemma chr_Raise (i : Z) :
  i < 0 ∨ 1114111 < i →
  chr i = Raise (Exn "ValueError" "chr() arg not in range(0x110000)").
Proof.
  intros Hi. unfold chr.
  replace ((i <? 0) || (1114111 <? i)) with true; [done|].
  symmetry. apply orb_true_iff. lia.
Qed.

Lemma byte_inj (a b : Z) : 0 ≤ a < 256 → 0 ≤ b < 256 → byte a = byte b → a = b.
Proof.
  intros Ha Hb Hab. unfold byte in Hab.
  apply (f_equal N_of_ascii) in Hab.
  rewrite !N_ascii_embedding in Hab by lia. lia.
Qed.

Lemma chr_inj (i j : Z) (s : string) : chr i = Return s → chr j = Return s → i = j.
Proof.
  unfold chr. intros Hi Hj.
  destruct ((i <? 0) || (1114111 <? i)) eqn:Ei; [done|].
  destruct ((j <? 0) || (1114111 <? j)) eqn:Ej; [done|].
  apply orb_false_elim in Ei as [Ei1 Ei2], Ej as [Ej1 Ej2].
  repeat case_match; simplify_eq;
    repeat match goal with
    | H : byte _ = byte _ |- _ =>
        apply byte_inj in H; [|Z.div_mod_to_equations; lia..]
    end;
    Z.div_mod_to_equations; lia.
Qed.

(** The fields of the result of round [i]. *)
Lemma mock_result_fields {python : Interpreter} query category price_range platform i r :
  mock_result query category price_range platform i = Return r →
  ∃ letter,
    chr (65 + i) = Return letter
    ∧ Result.id r = "mock-" +:+ lower platform +:+ "-" +:+ str_int i
    ∧ Result.name r = title query +:+ " " +:+ letter
    ∧ Result.brand r = "Brand " +:+ letter
    ∧ Result.platform r = Some platform
    ∧ Result.relevance r = Some ((9 # 10) - inject_Z i * (1 # 10))%Q
    ∧ Result.rating r = (4 + inject_Z (i mod 10) / 10)%Q
    ∧ Result.reviews_count r = 10 + i * 5
    ∧ Result.comparison r = None
    ∧ (price_range = None →
       Result.price r = Some ((1999 # 100) + inject_Z i * 10)%Q).
Proof.
  unfold mock_result. destruct (chr (65 + i)) as [letter|e]; [|done].
  intros [= <-]. exists letter. simpl. do 9 (split; [done|]).
  by intros ->.
Qed.

Lemma mock_result_Return {python : Interpreter} query category price_range platform i :
  -65 ≤ i ≤ 1114046 →
  ∃ r, mock_result query category price_range platform i = Return r.
Proof.
  intros Hi. unfold mock_result.
  destruct (chr_Return (65 + i)) as [letter ->]; [lia|]. eauto.
Qed.

Lemma mock_result_Raise {python : Interpreter} query category price_range platform i :
  1114046 < i →
  mock_result query category price_range platform i
    = Raise (Exn "ValueError" "chr() arg not in range(0x110000)").
Proof.
  intros Hi. unfold mock_result. rewrite chr_Raise; [done|lia].
Qed.

Lemma generate_without_openai {python : Interpreter} self query category price_range max_results platform :
  has_api self "openai" = false →
  _generate_mock_results self query category price_range max_results platform
  = for_each (mock_result query category price_range platform) (range max_results).
Proof. intros Hno. unfold _generate_mock_results. by rewrite Hno. Qed.

Lemma lookup_range (n : Z) (i : nat) (x : Z) :
  range n !! i = Some x ↔ x = Z.of_nat i ∧ Z.of_nat i < n.
Proof.
  unfold range. rewrite list_lookup_fmap.
  destruct (seq 0 (Z.to_nat n) !! i) as [j|] eqn:Hj; simpl.
  - apply lookup_seq in Hj as [-> Hlt]. simpl. split.
    + intros [= <-]. lia.
    + intros [-> _]. done.
  - split; [done|]. intros [-> Hlt].
    apply lookup_seq_ge in Hj || idtac.
    assert (seq 0 (Z.to_nat n) !! i = Some (0 + i)%nat) as Hs
      by (apply lookup_seq; lia).
    congruence.
Qed.

Lemma NoDup_range (n : Z) : NoDup (range n).
Proof. unfold range. apply NoDup_fmap_2; [apply _|apply NoDup_seq]. Qed.

Lemma mock_results_run {python : Interpreter} self query category price_range max_results platform :
  has_api self "openai" = false →
  max_results ≤ 1114047 →
  ∃ results,
    _generate_mock_results self query category price_range max_results platform
      = Return results
    ∧ len results = Z.max 0 max_results
    ∧ ∀ (i : nat) r,
        results !! i = Some r ↔
        Z.of_nat i < max_results
        ∧ mock_result query category price_range platform (Z.of_nat i) = Return r.
Proof.
  intros Hno Hk. rewrite generate_without_openai by done.
  destruct (for_each_Return (mock_result query category price_range platform)
              (range max_results)) as (results & Hrun & Hlen).
  { intros x Hx%elem_of_range. apply mock_result_Return. lia. }
  exists results. split; [done|]. split.
  - unfold len. rewrite Hlen.
    destruct (decide (0 ≤ max_results)) as [Hpos|Hneg].
    + pose proof (length_range max_results Hpos) as Hr. unfold len in Hr. lia.
    + rewrite range_nonpositive by lia. simpl. lia.
  - apply for_each_Forall2 in Hrun. intros i r. split.
    + intros Hr.
      destruct (Forall2_lookup_r _ _ _ _ _ Hrun Hr) as (x & Hx & Hbody).
      apply lookup_range in Hx as [-> Hlt]. done.
    + intros [Hlt Hbody].
      assert (range max_results !! i = Some (Z.of_nat i)) as Hx
        by (by apply lookup_range).
      destruct (Forall2_lookup_l _ _ _ _ _ Hrun Hx) as (r' & Hr' & Hbody').
      congruence.
Qed.

Lemma mock_results_overflow {python : Interpreter}
    self query category price_range max_results platform :
  has_api self "openai" = false →
  1114047 < max_results →
  _generate_mock_results self query category price_range max_results platform
    = Raise (Exn "ValueError" "chr() arg not in range(0x110000)").
Proof.
  intros Hno Hk. rewrite generate_without_openai by done.
  destruct (range_split max_results 1114047) as [l2 ->]; [lia|].
  apply for_each_Raise.
  - intros y Hy%elem_of_range. apply mock_result_Return. lia.
  - apply mock_result_Raise. lia.
Qed.

(** X1 ([_generate_mock_results]).  Without an OpenAI key the generator
    returns one result per round of [range(max_results)]: for
    [max_results <= 1114047] it returns exactly [max(0, max_results)]
    results, the result at index [i] being the dict of round [i]; for a
    larger [max_results] it raises ValueError, from [chr(65 + i)] when
    [65 + i] passes 0x10FFFF. *)
Theorem generate_mock_results_count {python : Interpreter}
    self query category price_range max_results platform :
  has_api self "openai" = false →
  (max_results ≤ 1114047 →
   ∃ results,
     _generate_mock_results self query category price_range max_results platform
       = Return results
     ∧ len results = Z.max 0 max_results
     ∧ ∀ (i : nat) r,
         results !! i = Some r ↔
         Z.of_nat i < max_results
         ∧ mock_result query category price_range platform (Z.of_nat i) = Return r)
  ∧ (1114047 < max_results →
     _generate_mock_results self query category price_range max_results platform
       = Raise (Exn "ValueError" "chr() arg not in range(0x110000)")).
Proof.
  intros Hno. split; intros Hk.
  - by apply mock_results_run.
  - by apply mock_results_overflow.
Qed.

Lemma generate_mock_results_count_witness :
  ∃ results,
    _generate_mock_results Sample.two_shops "shoe" None None 3 "Amazon"
      = Return results
    ∧ len results = 3.
Proof.
  destruct (generate_mock_results_count
              Sample.two_shops "shoe" None None 3 "Amazon")
    as [Hsome _]; [reflexivity|].
  destruct Hsome as (results & Hrun & Hlen & _); [lia|].
  exists results. split; [exact Hrun|exact Hlen].
Defined.

Lemma Forall2_NoDup_fmap {A B C} (R : A → B → Prop) (f : B → C)
    (l : list A) (k : list B) :
  Forall2 R l k → NoDup l →
  (∀ x x' y y', R x y → R x' y' → f y = f y' → x = x') →
  NoDup (f <$> k).
Proof.
  intros Hall Hnd Hinj. induction Hall as [|x y l k Hxy Hall IH]; simpl.
  - constructor.
  - apply NoDup_cons in Hnd as [Hx Hnd]. constructor; [|by apply IH].
    intros (y' & Hfy & Hy')%list_elem_of_fmap.
    apply list_elem_of_lookup in Hy' as [i Hi].
    destruct (Forall2_lookup_r _ _ _ _ _ Hall Hi) as (x' & Hx' & Hxy').
    apply Hx. rewrite (Hinj x x' y y' Hxy Hxy' Hfy).
    by eapply list_elem_of_lookup_2.
Qed.

(** X2 ([_generate_mock_results]).  Without an OpenAI key the results of
    one call are pairwise distinct in their id, in their name, in their
    brand and in their url: the index of the round can be read back from
    each of them. *)
Theorem mock_results_are_distinct {python : Interpreter}
    self query category price_range max_results platform results :
  has_api self "openai" = false →
  _generate_mock_results self query category price_range max_results platform
    = Return results →
  NoDup (Result.id <$> results)
  ∧ NoDup (Result.name <$> results)
  ∧ NoDup (Result.brand <$> results)
  ∧ NoDup (Result.url <$> results).
Proof.
  intros Hno Hrun. rewrite generate_without_openai in Hrun by done.
  apply for_each_Forall2 in Hrun.
  assert (∀ i j r r',
    mock_result query category price_range platform i = Return r →
    mock_result query category price_range platform j = Return r' →
    Result.id r = Result.id r' → i = j) as Hid.
  { intros i j r r' Hi Hj.
    destruct (mock_result_fields _ _ _ _ _ _ Hi) as (_ & _ & -> & _).
    destruct (mock_result_fields _ _ _ _ _ _ Hj) as (_ & _ & -> & _).
    intros Heq. do 3 apply (inj (String.append _)) in Heq.
    by apply (inj pretty) in Heq. }
  assert (∀ i j r r',
    mock_result query category price_range platform i = Return r →
    mock_result query category price_range platform j = Return r' →
    Result.name r = Result.name r' → i = j) as Hname.
  { intros i j r r' Hi Hj.
    destruct (mock_result_fields _ _ _ _ _ _ Hi) as (a & Ha & _ & -> & _).
    destruct (mock_result_fields _ _ _ _ _ _ Hj) as (b & Hb & _ & -> & _).
    intros Heq. do 2 apply (inj (String.append _)) in Heq. subst b.
    pose proof (chr_inj _ _ _ Ha Hb). lia. }
  assert (∀ i j r r',
    mock_result query category price_range platform i = Return r →
    mock_result query category price_range platform j = Return r' →
    Result.brand r = Result.brand r' → i = j) as Hbrand.
  { intros i j r r' Hi Hj.
    destruct (mock_result_fields _ _ _ _ _ _ Hi) as (a & Ha & _ & _ & -> & _).
    destruct (mock_result_fields _ _ _ _ _ _ Hj) as (b & Hb & _ & _ & -> & _).
    intros Heq. apply (inj (String.append _)) in Heq. subst b.
    pose proof (chr_inj _ _ _ Ha Hb). lia. }
  assert (∀ i j r r',
    mock_result query category price_range platform i = Return r →
    mock_result query category price_range platform j = Return r' →
    Result.url r = Result.url r' → i = j) as Hurl.
  { intros i j r r'. unfold mock_result.
    destruct (chr (65 + i)); [|done]. destruct (chr (65 + j)); [|done].
    intros [= <-] [= <-]. simpl. intros Heq.
    do 5 apply (inj (String.append _)) in Heq.
    by apply (inj pretty) in Heq. }
  pose proof (NoDup_range max_results) as Hnd.
  repeat split; eapply Forall2_NoDup_fmap; eauto.
Qed.

Lemma mock_results_are_distinct_witness :
  ∃ results,
    _generate_mock_results Sample.two_shops "shoe" None None 3 "Amazon"
      = Return results
    ∧ NoDup (Result.id <$> results).
Proof.
  eexists. split; [reflexivity|].
  eapply (mock_results_are_distinct
            Sample.two_shops "shoe" None None 3 "Amazon"); reflexivity.
Defined.

Lemma len_lookup_lt {A} (l : list A) (i : nat) (x : A) :
  l !! i = Some x → Z.of_nat i < len l.
Proof. intros Hi%lookup_lt_Some. unfold len. lia. Qed.

(** Consecutive elements related by [R] when every earlier element is
    related to every later one. *)
Lemma Sorted_lookup {A} (R : A → A → Prop) (l : list A) :
  (∀ i j x y, l !! i = Some x → l !! j = Some y → (i < j)%nat → R x y) →
  Sorted R l.
Proof.
  induction l as [|a l IH]; intros Hall; constructor.
  - apply IH. intros i j x y Hi Hj Hlt.
    apply (Hall (S i) (S j)); [done|done|lia].
  - destruct l as [|b l]; constructor.
    apply (Hall 0%nat 1%nat); [done|done|lia].
Qed.

Lemma mock_relevance_lookup {python : Interpreter}
    self query category price_range max_results platform results :
  has_api self "openai" = false →
  _generate_mock_results self query category price_range max_results platform
    = Return results →
  ∀ (i : nat) r,
    results !! i = Some r →
    Result.relevance r = Some ((9 # 10) - inject_Z (Z.of_nat i) * (1 # 10))%Q
    ∧ Result.rating r = (4 + inject_Z (Z.of_nat i mod 10) / 10)%Q
    ∧ (price_range = None →
       Result.price r = Some ((1999 # 100) + inject_Z (Z.of_nat i) * 10)%Q).
Proof.
  intros Hno Hrun i r Hi. rewrite generate_without_openai in Hrun by done.
  apply for_each_Forall2 in Hrun.
  destruct (Forall2_lookup_r _ _ _ _ _ Hrun Hi) as (x & Hx & Hbody).
  apply lookup_range in Hx as [-> _].
  destruct (mock_result_fields _ _ _ _ _ _ Hbody)
    as (_ & _ & _ & _ & _ & _ & Hrel & Hrating & _ & _ & Hprice).
  done.
Qed.

Lemma mock_results_Sorted {python : Interpreter}
    self query category price_range max_results platform results :
  has_api self "openai" = false →
  _generate_mock_results self query category price_range max_results platform
    = Return results →
  Sorted (λ a b, get_relevance b < get_relevance a)%Q results.
Proof.
  intros Hno Hrun. apply Sorted_lookup. intros i j x y Hi Hj Hlt.
  destruct (mock_relevance_lookup _ _ _ _ _ _ _ Hno Hrun i x Hi) as [Hx _].
  destruct (mock_relevance_lookup _ _ _ _ _ _ _ Hno Hrun j y Hj) as [Hy _].
  unfold get_relevance. rewrite Hx, Hy. simpl.
  assert (inject_Z (Z.of_nat i) < inject_Z (Z.of_nat j))%Q as Hq
    by (rewrite <- Zlt_Qlt; lia).
  lra.
Qed.

Lemma mock_results_len {python : Interpreter} self query category price_range max_results platform results :
  has_api self "openai" = false →
  _generate_mock_results self query category price_range max_results platform
    = Return results →
  len results = Z.max 0 max_results.
Proof.
  intros Hno Hrun.
  destruct (decide (max_results ≤ 1114047)) as [Hk|Hbig].
  - destruct (mock_results_run self query category price_range
                max_results platform Hno Hk) as (results' & Hrun' & Hlen & _).
    congruence.
  - rewrite mock_results_overflow in Hrun by (done || lia). done.
Qed.



(** X4 ([_generate_mock_results]).  With a price range [(lo, hi)],
    [lo <= hi], and without an OpenAI key, the price of the result at index
    [i] lies inside the range whenever [5 * i <= hi - lo]; the first
    result is always inside.  (Further down the list a price that was
    moved up from below [lo] can pass [hi], and the other way round.) *)
Theorem mock_prices_within_range {python : Interpreter}
    self query category (lo hi : Q) max_results platform results :
  has_api self "openai" = false →
  (lo <= hi)%Q →
  _generate_mock_results self query category (Some (lo, hi)) max_results platform
    = Return results →
  ∀ (i : nat) r,
    results !! i = Some r →
    (inject_Z (Z.of_nat i) * 5 <= hi - lo)%Q →
    ∃ price, Result.price r = Some price ∧ (lo <= price <= hi)%Q.
Proof.
  intros Hno Hle Hrun i r Hi Hgap.
  rewrite generate_without_openai in Hrun by done.
  apply for_each_Forall2 in Hrun.
  destruct (Forall2_lookup_r _ _ _ _ _ Hrun Hi) as (x & Hx & Hbody).
  apply lookup_range in Hx as [-> _].
  unfold mock_result in Hbody.
  destruct (chr (65 + Z.of_nat i)); [|done].
  injection Hbody as <-. simpl. eexists. split; [done|].
  assert (0 <= inject_Z (Z.of_nat i))%Q as Hpos.
  { change 0%Q with (inject_Z 0). rewrite <- Zle_Qle. lia. }
  destruct (py_lt _ lo) eqn:Hlo.
  - apply Q_py_lt_spec in Hlo. lra.
  - apply Q_py_lt_false in Hlo.
    destruct (py_lt hi _) eqn:Hhi.
    + apply Q_py_lt_spec in Hhi. lra.
    + apply Q_py_lt_false in Hhi. lra.
Qed.

Lemma mock_prices_within_range_witness :
  ∃ results r price,
    _generate_mock_results Sample.two_shops "shoe" None (Some (100, 105)%Q) 2
                           "Amazon" = Return results
    ∧ results !! 1%nat = Some r
    ∧ Result.price r = Some price ∧ (100 <= price <= 105)%Q.
Proof.
  eexists _, _.
  destruct (mock_prices_within_range
              Sample.two_shops "shoe" None 100 105 2 "Amazon" _
              eq_refl ltac:(vm_compute; congruence) eq_refl 1%nat _ eq_refl)
    as (price & Hprice & Hrange); [vm_compute; congruence|].
  exists price. split; [reflexivity|]. split; [reflexivity|].
  split; [exact Hprice|exact Hrange].
Defined.

(** ** The merge on lists that are ranked already, and with a negative cap *)

Lemma sorted_of_Sorted {A} (key : A → Q) (l : list A) :
  Sorted (λ a b, key b <= key a)%Q l → sorted key true l = l.
Proof. intros Hs. symmetry. by apply sorted_is_the_stable_sort. Qed.

Lemma ranked_of_Sorted {A} (score : A → Q) (k : Z) (l : list A) :
  Sorted (λ a b, score b <= score a)%Q l → len l ≤ k → ranked score k l = l.
Proof.
  intros Hs Hk. unfold ranked. rewrite sorted_of_Sorted by done.
  by apply slice_to_all.
Qed.

(** X5 ([detect_products], [search_products]).  A list that is already in
    descending order of its score and not longer than the cap comes back
    as it is: the products that reach the threshold for [detect_products],
    the concatenated results for [search_products]. *)
Theorem ranked_lists_pass_unchanged {python : Interpreter}
    self image_path query detect_options search_options log :
  let kept :=
    filter (λ p, ge (get_confidence p) (detect_threshold self detect_options))
           (detected self image_path detect_options) in
  (Sorted by_confidence kept →
   len kept ≤ detect_max_results self detect_options →
   fst (detect_products self image_path detect_options log) = Return kept)
  ∧ (Sorted by_relevance (found self query search_options) →
     len (found self query search_options)
       ≤ search_max_results self search_options →
     fst (search_products self query search_options log)
       = Return (found self query search_options)).
Proof.
  intros kept. split; intros Hs Hk.
  - rewrite detect_products_value. fold kept. by rewrite ranked_of_Sorted.
  - rewrite search_products_value. by rewrite ranked_of_Sorted.
Qed.

Lemma ranked_lists_pass_unchanged_witness :
  fst (search_products Fixture.amazon_only "shoe" None [])
    = Return (found Fixture.amazon_only "shoe" None).
Proof.
  apply (ranked_lists_pass_unchanged
           Fixture.amazon_only "shoe.jpg" "shoe" None None []).
  - repeat constructor; vm_compute; congruence.
  - vm_compute; congruence.
Defined.

Lemma found_single_platform {python : Interpreter} self query options :
  has_api self "openai" = false →
  found self query options = concat (platform_lists self query options).
Proof.
  intros Hno. unfold found, fallback_results. rewrite Hno.
  rewrite andb_false_r. by rewrite app_nil_r.
Qed.

Lemma search_of_mock_results {python : Interpreter} self query options log platform results :
  found self query options = results →
  has_api self "openai" = false →
  _generate_mock_results self query (search_category options)
    (search_price_range options) (search_max_results self options) platform
    = Return results →
  fst (search_products self query options log) = Return results.
Proof.
  intros Hfound Hno Hrun. rewrite search_products_value, Hfound.
  f_equal.
  pose proof (mock_results_len _ _ _ _ _ _ _ Hno Hrun) as Hlen.
  destruct (decide (0 ≤ search_max_results self options)) as [Hk|Hk].
  - apply ranked_of_Sorted; [|lia].
    eapply Sorted_weaken; [|by eapply mock_results_Sorted].
    intros a b Hlt. simpl in Hlt. lra.
  - destruct results; [apply ranked_nil|]. unfold len in Hlen. simpl in Hlen. lia.
Qed.

(** X6 ([search_products] over [_search_amazon], [_search_walmart],
    [_search_ebay]).  With no OpenAI key, [max_results <= 1114047] and
    exactly one of the three platforms configured, [search_products]
    returns what the search method of that platform returns: the sort and
    the cap change nothing. *)
Theorem search_single_mock_platform {python : Interpreter} self query options log :
  let c := search_category options in
  let pr := search_price_range options in
  let k := search_max_results self options in
  has_api self "openai" = false →
  k ≤ 1114047 →
  (has_api self "amazon_product_api" = true →
   has_api self "walmart_api" = false → has_api self "ebay_api" = false →
   fst (search_products self query options log)
     = _search_amazon self query c pr k)
  ∧ (has_api self "amazon_product_api" = false →
     has_api self "walmart_api" = true → has_api self "ebay_api" = false →
     fst (search_products self query options log)
       = _search_walmart self query c pr k)
  ∧ (has_api self "amazon_product_api" = false →
     has_api self "walmart_api" = false → has_api self "ebay_api" = true →
     fst (search_products self query options log)
       = _search_ebay self query c pr k).
Proof.
  intros c pr k Hno Hk.
  assert (∀ platform, ∃ results,
            _generate_mock_results self query c pr k platform = Return results)
    as Hgen.
  { intros platform.
    destruct (mock_results_run self query c pr k platform Hno Hk)
      as (results & Hrun & _). eauto. }
  split; [|split]; intros Ha Hw He.
  - destruct (Hgen "Amazon") as [results Hrun].
    unfold _search_amazon. rewrite Hrun.
    apply (search_of_mock_results _ _ _ _ "Amazon"); [|done..].
    rewrite found_single_platform by done.
    unfold platform_lists, platform_results. rewrite Ha, Hw, He.
    unfold _search_amazon. fold c pr k. rewrite Hrun. simpl.
    by rewrite app_nil_r.
  - destruct (Hgen "Walmart") as [results Hrun].
    unfold _search_walmart. rewrite Hrun.
    apply (search_of_mock_results _ _ _ _ "Walmart"); [|done..].
    rewrite found_single_platform by done.
    unfold platform_lists, platform_results. rewrite Ha, Hw, He.
    unfold _search_walmart. fold c pr k. rewrite Hrun. simpl.
    by rewrite app_nil_r.
  - destruct (Hgen "eBay") as [results Hrun].
    unfold _search_ebay. rewrite Hrun.
    apply (search_of_mock_results _ _ _ _ "eBay"); [|done..].
    rewrite found_single_platform by done.
    unfold platform_lists, platform_results. rewrite Ha, Hw, He.
    unfold _search_ebay. fold c pr k. rewrite Hrun. simpl.
    by rewrite app_nil_r.
Qed.

Lemma search_single_mock_platform_witness :
  fst (search_products Fixture.amazon_only "shoe" None [])
    = _search_amazon Fixture.amazon_only "shoe" None None 5.
Proof.
  destruct (search_single_mock_platform Fixture.amazon_only "shoe" None [])
    as (Hamazon & _); [reflexivity|vm_compute; congruence|].
  apply Hamazon; reflexivity.
Defined.

(** X7 ([detect_products]).  When Google Cloud Vision delivers at least one
    product and at least [max_results] of them, OpenAI is not consulted: an
    agent that differs in its OpenAI collaborators only returns the same
    value and logs the same records, and the merged list is the list of
    Vision. *)
Theorem detect_products_leaves_openai_alone {python : Interpreter} self self' image_path options log :
  settings self' = settings self →
  available_apis self' = available_apis self →
  path_exists self' = path_exists self →
  vision_client self' = vision_client self →
  google_products self image_path ≠ [] →
  detect_max_results self options ≤ len (google_products self image_path) →
  detect_products self' image_path options log
    = detect_products self image_path options log
  ∧ detected self image_path options = google_products self image_path.
Proof.
  destruct self as [st apis pe vc ov oc], self' as [st' apis' pe' vc' ov' oc'].
  simpl. intros -> -> -> -> Hne Hk.
  set (self := Agent st apis pe vc ov oc) in *.
  set (self' := Agent st apis pe vc ov' oc').
  assert (openai_consulted self (google_products self image_path)
            (detect_max_results self options) = false) as Hskip.
  { unfold openai_consulted. apply andb_false_intro2.
    apply orb_false_intro; [by apply bool_decide_eq_false|].
    apply Z.ltb_ge. lia. }
  split; [|unfold detected; by rewrite Hskip].
  unfold detect_products.
  change (detect_threshold self' options) with (detect_threshold self options).
  change (detect_max_results self' options) with (detect_max_results self options).
  change (is_base64 self' image_path) with (is_base64 self image_path).
  change (has_api self' "google_cloud_vision")
    with (has_api self "google_cloud_vision").
  change (_detect_with_google_vision self' image_path (is_base64 self image_path))
    with (_detect_with_google_vision self image_path (is_base64 self image_path)).
  unfold google_products in Hne, Hskip, Hk.
  destruct (has_api self "google_cloud_vision") eqn:Hg.
  - destruct (_detect_with_google_vision self image_path
                (is_base64 self image_path)) as [products|e] eqn:Hv;
      [|done].
    simpl in Hne, Hskip, Hk.
    unfold bind, try_except, call, logger, ret. simpl.
    change (openai_consulted self' products (detect_max_results self options))
      with (openai_consulted self products (detect_max_results self options)).
    by rewrite Hskip.
  - exfalso. apply Hne. unfold _detect_with_google_vision. by rewrite Hg.
Qed.

Lemma detect_products_leaves_openai_alone_witness :
  detect_products
    (Agent Sample.settings ["google_cloud_vision"; "openai"] (λ _, true)
           (vision_client Sample.showroom) (λ _ _, Sample.unreachable)
           (openai_chat Sample.showroom))
    "shoe.jpg" (Some (DetectOptions.Make None (Some 1))) []
  = detect_products Sample.showroom "shoe.jpg"
                    (Some (DetectOptions.Make None (Some 1))) [].
Proof.
  apply (detect_products_leaves_openai_alone Sample.showroom);
    try reflexivity; vm_compute; congruence.
Defined.

Lemma len_slice_to_negative {A} (k : Z) (l : list A) :
  k < 0 → len (slice_to k l) = Z.max 0 (len l + k).
Proof.
  intros Hk. unfold slice_to, len.
  replace (k <? 0) with true by (symmetry; apply Z.ltb_lt; lia).
  rewrite length_take. unfold len. lia.
Qed.

Lemma len_ranked_negative {A} (score : A → Q) (k : Z) (l : list A) :
  k < 0 → len (ranked score k l) = Z.max 0 (len l + k).
Proof.
  intros Hk. unfold ranked. rewrite len_slice_to_negative by done.
  unfold len. by rewrite length_sorted.
Qed.

(** X8 ([detect_products], [search_products]).  A negative [max_results]
    is not refused: the slice [[:max_results]] drops that many entries from
    the end of the ranked list, so the output has [max(0, n + max_results)]
    entries, [n] being the number of products that reach the threshold,
    respectively of results found. *)
Theorem negative_max_results_counts_from_the_end {python : Interpreter}
    self image_path query detect_options search_options log :
  (detect_max_results self detect_options < 0 →
   ∃ out,
     fst (detect_products self image_path detect_options log) = Return out
     ∧ len out =
       Z.max 0 (len (filter (λ p, ge (get_confidence p)
                                     (detect_threshold self detect_options))
                            (detected self image_path detect_options))
                + detect_max_results self detect_options))
  ∧ (search_max_results self search_options < 0 →
     ∃ out,
       fst (search_products self query search_options log) = Return out
       ∧ len out = Z.max 0 (len (found self query search_options)
                            + search_max_results self search_options)).
Proof.
  split; intros Hk; eexists.
  - split; [apply detect_products_value|]. by apply len_ranked_negative.
  - split; [apply search_products_value|]. by apply len_ranked_negative.
Qed.

Lemma negative_max_results_counts_from_the_end_witness :
  ∃ out,
    fst (search_products Sample.generated "cable"
           (Some (SearchOptions.Make (Some (-1)) None None)) []) = Return out
    ∧ len out = 2.
Proof.
  destruct (negative_max_results_counts_from_the_end
              Sample.generated "cable.jpg" "cable" None
              (Some (SearchOptions.Make (Some (-1)) None None)) [])
    as [_ Hsearch].
  destruct Hsearch as (out & Hrun & Hlen); [reflexivity|].
  exists out. split; [exact Hrun|exact Hlen].
Defined.

(** ** [__init__] *)

Lemma bind_Return {A B} (c : M A) (k : A → M B) log a log1 :
  c log = (Return a, log1) → bind c k log = k a log1.
Proof. intros Hc. unfold bind. by rewrite Hc. Qed.

Lemma filter_singleton_initialized api_keys s name :
  filter (initialized api_keys s) [name]
  = if initialized api_keys s name then [name] else [].
Proof.
  rewrite filter_cons, filter_nil.
  destruct (initialized api_keys s name); by case_decide.
Qed.

Lemma init_google_run api_keys s acc log :
  ∃ records,
    init_google api_keys s acc log
      = (Return (acc ++ filter (initialized api_keys s) ["google_cloud_vision"]),
         log ++ records)
    ∧ ∀ e,
        has_key api_keys "google_cloud_vision" = true →
        google_setup s = Raise e →
        LogRecord WARNING
          ("Failed to initialize Google Cloud Vision API: " +:+ exn_str e)
          ∈ records.
Proof.
  rewrite filter_singleton_initialized. unfold init_google, initialized. run.
  destruct (has_key api_keys "google_cloud_vision"),
           (google_setup s) as [[]|e];
    simpl; rewrite ?app_nil_r; give_records;
    intros e' ? ?; simplify_eq; in_list.
Qed.

Lemma init_amazon_run api_keys s acc log :
  ∃ records,
    init_amazon api_keys acc log
      = (Return (acc ++ filter (initialized api_keys s) ["amazon_product_api"]),
         log ++ records).
Proof.
  rewrite filter_singleton_initialized. unfold init_amazon, initialized. run.
  destruct (has_key api_keys "amazon_product_api");
    simpl; rewrite ?app_nil_r; [by eexists|].
  exists []. by rewrite app_nil_r.
Qed.

Lemma init_openai_run api_keys s acc log :
  ∃ records,
    init_openai api_keys s acc log
      = (Return (acc ++ filter (initialized api_keys s) ["openai"]),
         log ++ records)
    ∧ ∀ e,
        has_key api_keys "openai" = true →
        openai_setup s = Raise e →
        LogRecord WARNING ("Failed to initialize OpenAI API: " +:+ exn_str e)
          ∈ records.
Proof.
  rewrite filter_singleton_initialized. unfold init_openai, initialized. run.
  destruct (has_key api_keys "openai"), (openai_setup s) as [[]|e];
    simpl; rewrite ?app_nil_r; give_records;
    intros e' ? ?; simplify_eq; in_list.
Qed.

Lemma init_platform_run {python : Interpreter} api_keys acc name log :
  init_platform api_keys acc name log
  = (Return (acc ++ if has_key api_keys name then [name] else []),
     log ++ if has_key api_keys name
            then [LogRecord INFO (title (replace "_" " " name)
                                  +:+ " client initialized")]
            else []).
Proof.
  unfold init_platform. run.
  destruct (has_key api_keys name); [done|]. by rewrite !app_nil_r.
Qed.

Lemma init_platforms_run {python : Interpreter} api_keys s names :
  Forall (λ name, name ≠ "google_cloud_vision" ∧ name ≠ "openai") names →
  ∀ acc log,
  ∃ records,
    for_loop (init_platform api_keys) acc names log
      = (Return (acc ++ filter (initialized api_keys s) names), log ++ records)
    ∧ ∀ name,
        name ∈ names → has_key api_keys name = true →
        LogRecord INFO (title (replace "_" " " name) +:+ " client initialized")
          ∈ records.
Proof.
  induction 1 as [|name names [Hg Ho] _ IH]; intros acc log; simpl.
  - exists []. unfold ret. rewrite filter_nil, !app_nil_r. split; [done|].
    by intros name ?%not_elem_of_nil.
  - assert (initialized api_keys s name = has_key api_keys name) as Hinit.
    { unfold initialized. rewrite !decide_False by done. apply andb_true_r. }
    rewrite filter_cons.
    erewrite bind_Return by apply init_platform_run.
    destruct (IH (acc ++ (if has_key api_keys name then [name] else []))
                 (log ++ (if has_key api_keys name
                          then [LogRecord INFO (title (replace "_" " " name)
                                                +:+ " client initialized")]
                          else [])))
      as (records & -> & Hrecords).
    rewrite <- !(assoc_L (++)).
    destruct (has_key api_keys name) eqn:Hkey.
    + rewrite decide_True by (by rewrite Hinit).
      eexists. split; [reflexivity|].
      intros name' [->|Hin]%elem_of_cons Hkey'; [left|right; by apply Hrecords].
    + rewrite decide_False by (rewrite Hinit; intros []).
      eexists. split; [reflexivity|].
      intros name' [->|Hin]%elem_of_cons Hkey'; [congruence|by apply Hrecords].
Qed.

Lemma init_api_clients_run {python : Interpreter} api_keys s log :
  ∃ records,
    _init_api_clients api_keys s log
      = (Return (filter (initialized api_keys s) known_apis), log ++ records)
    ∧ (∀ e,
        has_key api_keys "google_cloud_vision" = true →
        google_setup s = Raise e →
        LogRecord WARNING
          ("Failed to initialize Google Cloud Vision API: " +:+ exn_str e)
          ∈ records)
    ∧ (∀ e,
        has_key api_keys "openai" = true →
        openai_setup s = Raise e →
        LogRecord WARNING ("Failed to initialize OpenAI API: " +:+ exn_str e)
          ∈ records)
    ∧ (filter (initialized api_keys s) known_apis = [] →
       LogRecord WARNING
         "No API clients were initialized. Functionality will be limited."
         ∈ records)
    ∧ (∀ name,
         name ∈ ["walmart_api"; "ebay_api"; "shopify_api"; "etsy_api"] →
         has_key api_keys name = true →
         LogRecord INFO (title (replace "_" " " name) +:+ " client initialized")
           ∈ records).
Proof.
  unfold _init_api_clients.
  destruct (init_google_run api_keys s [] log) as (r1 & H1 & Hgoogle).
  erewrite bind_Return by exact H1.
  destruct (init_amazon_run api_keys s
              ([] ++ filter (initialized api_keys s) ["google_cloud_vision"])
              (log ++ r1)) as (r2 & H2).
  erewrite bind_Return by exact H2.
  destruct (init_openai_run api_keys s
              (([] ++ filter (initialized api_keys s) ["google_cloud_vision"])
               ++ filter (initialized api_keys s) ["amazon_product_api"])
              ((log ++ r1) ++ r2)) as (r3 & H3 & Hopenai).
  erewrite bind_Return by exact H3.
  destruct (init_platforms_run api_keys s
              ["walmart_api"; "ebay_api"; "shopify_api"; "etsy_api"]
              ltac:(repeat constructor; done)
              ((([] ++ filter (initialized api_keys s) ["google_cloud_vision"])
                ++ filter (initialized api_keys s) ["amazon_product_api"])
               ++ filter (initialized api_keys s) ["openai"])
              (((log ++ r1) ++ r2) ++ r3)) as (r4 & H4 & Hplatforms).
  erewrite bind_Return by exact H4.
  rewrite !app_nil_l, <- !filter_app. simpl app. fold known_apis.
  rewrite <- !(assoc_L (++)).
  destruct (filter (initialized api_keys s) known_apis) as [|name names] eqn:Hf.
  - rewrite bool_decide_eq_true_2 by done. run.
    rewrite <- !(assoc_L (++)).
    eexists. split; [reflexivity|].
    split; [|split; [|split]].
    + intros e Hkey He. rewrite elem_of_app. left. by eapply Hgoogle.
    + intros e Hkey He. rewrite !elem_of_app. right. right. left.
      by eapply Hopenai.
    + intros _. rewrite !elem_of_app. do 4 right. in_list.
    + intros name Hname Hkey. rewrite !elem_of_app. do 3 right. left.
      by apply Hplatforms.
  - rewrite bool_decide_eq_false_2 by done. run.
    eexists. split; [reflexivity|].
    split; [|split; [|split]].
    + intros e Hkey He. rewrite elem_of_app. left. by eapply Hgoogle.
    + intros e Hkey He. rewrite !elem_of_app. right. right. left.
      by eapply Hopenai.
    + done.
    + intros name' Hname Hkey. rewrite !elem_of_app. do 3 right.
      by apply Hplatforms.
Qed.

Lemma init_run {python : Interpreter} config s log :
  ∃ records,
    __init__ config s log
      = (Return (Agent (config_settings config)
                       (filter (initialized (config_api_keys config) s) known_apis)
                       (os_path_exists s) (vision_answers s)
                       (openai_vision_answers s) (openai_chat_answers s)),
         log ++ records ++ [LogRecord INFO "ProductDetectionAgent initialized"])
    ∧ (∀ e,
        has_key (config_api_keys config) "google_cloud_vision" = true →
        google_setup s = Raise e →
        LogRecord WARNING
          ("Failed to initialize Google Cloud Vision API: " +:+ exn_str e)
          ∈ records)
    ∧ (∀ e,
        has_key (config_api_keys config) "openai" = true →
        openai_setup s = Raise e →
        LogRecord WARNING ("Failed to initialize OpenAI API: " +:+ exn_str e)
          ∈ records)
    ∧ (filter (initialized (config_api_keys config) s) known_apis = [] →
       LogRecord WARNING
         "No API clients were initialized. Functionality will be limited."
         ∈ records)
    ∧ (∀ name,
         name ∈ ["walmart_api"; "ebay_api"; "shopify_api"; "etsy_api"] →
         has_key (config_api_keys config) name = true →
         LogRecord INFO (title (replace "_" " " name) +:+ " client initialized")
           ∈ records).
Proof.
  unfold __init__. fold (config_api_keys config). fold (config_settings config).
  destruct (init_api_clients_run (config_api_keys config) s log)
    as (records & Hrun & Hfacts).
  erewrite bind_Return by exact Hrun. run.
  exists records. split; [|done]. by rewrite <- (assoc_L (++)).
Qed.

Lemma has_api_initialized {python : Interpreter} config s log self log' name :
  __init__ config s log = (Return self, log') →
  has_api self name
  = bool_decide (name ∈ known_apis) && initialized (config_api_keys config) s name.
Proof.
  destruct (init_run config s log) as (records & -> & _). intros [= <- _].
  unfold has_api. simpl.
  destruct (initialized (config_api_keys config) s name) eqn:Hinit.
  - rewrite andb_true_r. apply bool_decide_ext.
    rewrite list_elem_of_filter. rewrite Hinit. simpl. tauto.
  - rewrite andb_false_r. apply bool_decide_eq_false.
    rewrite list_elem_of_filter. rewrite Hinit. simpl. tauto.
Qed.

Lemma NoDup_known_apis : NoDup known_apis.
Proof. apply (bool_decide_unpack _). by vm_compute. Qed.


(** X10 ([__init__] with [find_best_deal]).  For an agent built by the
    constructor the platforms of [find_best_deal] depend on the keys
    [walmart_api] and [ebay_api] only: those of the two that are configured,
    and all five platforms when neither is.  The Amazon key plays no part,
    since the name [amazon_api] that [find_best_deal] looks for is never
    put into [available_apis]. *)
Theorem best_deal_platforms_after_init {python : Interpreter} config s log self log' :
  __init__ config s log = (Return self, log') →
  deal_platforms self
  = match has_key (config_api_keys config) "walmart_api",
          has_key (config_api_keys config) "ebay_api" with
    | true, true => ["Walmart"; "eBay"]
    | true, false => ["Walmart"]
    | false, true => ["eBay"]
    | false, false => ["Amazon"; "Walmart"; "eBay"; "Target"; "BestBuy"]
    end.
Proof.
  intros Hinit. unfold deal_platforms.
  rewrite !filter_cons, filter_nil.
  change (lower "Amazon" +:+ "_api") with "amazon_api".
  change (lower "Walmart" +:+ "_api") with "walmart_api".
  change (lower "eBay" +:+ "_api") with "ebay_api".
  change (lower "Target" +:+ "_api") with "target_api".
  change (lower "BestBuy" +:+ "_api") with "bestbuy_api".
  rewrite !(has_api_initialized _ _ _ _ _ _ Hinit).
  unfold initialized.
  destruct (has_key (config_api_keys config) "walmart_api"),
           (has_key (config_api_keys config) "ebay_api");
    vm_compute; reflexivity.
Qed.

Lemma best_deal_platforms_after_init_witness :
  ∃ self log',
    __init__ (Some Fixture.two_keys) Fixture.offline [] = (Return self, log')
    ∧ has_api self "amazon_product_api" = true
    ∧ deal_platforms self = ["Walmart"].
Proof.
  eexists _, _. split; [reflexivity|]. split; [reflexivity|].
  exact (best_deal_platforms_after_init
           (Some Fixture.two_keys) Fixture.offline [] _ _ eq_refl).
Defined.

Lemma slice_to_nil {A} (k : Z) : slice_to k ([] : list A) = [].
Proof. unfold slice_to. by destruct (k <? 0); rewrite take_nil. Qed.

Lemma filter_none {A} (P : A → Prop) `{!∀ x, Decision (P x)} (l : list A) :
  (∀ x, ¬ P x) → filter P l = [].
Proof.
  intros Hnone. induction l as [|x l IH]; [done|].
  rewrite filter_cons. by rewrite decide_False.
Qed.

(** X11 ([__init__] with [detect_products], [search_products],
    [find_best_deal]).  An agent built from a configuration without API
    keys has no API available, which is logged as a warning;
    [detect_products] and [search_products] return the empty list and log
    nothing, and [find_best_deal] goes through all five platforms. *)
Theorem agent_without_keys {python : Interpreter}
    config s log self log' image_path query detect_options search_options l :
  config_api_keys config = ∅ →
  __init__ config s log = (Return self, log') →
  available_apis self = []
  ∧ LogRecord WARNING
      "No API clients were initialized. Functionality will be limited." ∈ log'
  ∧ detect_products self image_path detect_options l = (Return [], l)
  ∧ search_products self query search_options l = (Return [], l)
  ∧ deal_platforms self = ["Amazon"; "Walmart"; "eBay"; "Target"; "BestBuy"].
Proof.
  intros Hkeys Hinit.
  assert (∀ name, has_api self name = false) as Hno.
  { intros name. rewrite (has_api_initialized _ _ _ _ _ _ Hinit).
    unfold initialized, has_key. rewrite Hkeys, lookup_empty.
    rewrite (bool_decide_eq_false_2 (is_Some _)) by (by intros [? ?]).
    by rewrite andb_false_r. }
  destruct (init_run config s log) as (records & Hrun & _ & _ & Hnone & _).
  rewrite Hrun in Hinit. injection Hinit as <- <-.
  assert (filter (initialized (config_api_keys config) s) known_apis = [])
    as Hempty.
  { apply filter_none. intros name.
    unfold initialized, has_key. rewrite Hkeys, lookup_empty.
    rewrite (bool_decide_eq_false_2 (is_Some _)) by (by intros [? ?]).
    by intros []. }
  split; [done|]. split.
  { rewrite !elem_of_app. right. left. by apply Hnone. }
  split; [|split].
  - unfold detect_products, openai_consulted. rewrite !Hno. run.
    by rewrite ?filter_nil, slice_to_nil.
  - unfold search_products, search_platform. rewrite !Hno. run.
    rewrite ?Hno. simpl. rewrite ?Hno. simpl. by rewrite slice_to_nil.
  - unfold deal_platforms. rewrite !filter_cons, filter_nil. rewrite !Hno.
    reflexivity.
Qed.

Lemma agent_without_keys_witness :
  ∃ self log',
    __init__ None Fixture.offline [] = (Return self, log')
    ∧ search_products self "shoe" None [] = (Return [], []).
Proof.
  eexists _, _. split; [reflexivity|].
  eapply (agent_without_keys None Fixture.offline [] _ _ "shoe.jpg" "shoe" None None []);
    reflexivity.
Defined.

(** ** [find_best_deal]: what is protected and what is not *)

Lemma getattr_searched {python : Interpreter} platform :
  platform ∈ ["Amazon"; "Walmart"; "eBay"; "Target"; "BestBuy"] →
  (platform ∈ ["Amazon"; "Walmart"; "eBay"]
   ∧ getattr ("_search_" +:+ lower platform) ≠ None)
  ∨ (platform ∈ ["Target"; "BestBuy"]
     ∧ getattr ("_search_" +:+ lower platform) = None).
Proof.
  intros Hp. rewrite !elem_of_cons, elem_of_nil in Hp.
  destruct Hp as [->|[->|[->|[->|[->|[]]]]]];
    [left|left|left|right|right]; (split; [in_list|done]).
Qed.

Lemma deal_platforms_known {python : Interpreter} self platform :
  platform ∈ deal_platforms self →
  platform ∈ ["Amazon"; "Walmart"; "eBay"; "Target"; "BestBuy"].
Proof.
  unfold deal_platforms. case_bool_decide; [done|].
  by intros [_ ?]%list_elem_of_filter.
Qed.

Lemma gather_platform_protected {python : Interpreter} self product_name k acc platform log :
  getattr ("_search_" +:+ lower platform) ≠ None →
  ∃ records,
    gather_platform self product_name k acc platform log
      = (Return (acc ++ contribution (deal_source self product_name k platform)),
         log ++ records).
Proof.
  intros Hattr. unfold gather_platform, deal_source.
  destruct (getattr ("_search_" +:+ lower platform)) as [method|]; [|done].
  run. destruct (method self product_name None None k) as [results|e]; simpl.
  - exists []. by rewrite app_nil_r.
  - rewrite app_nil_r. by eexists.
Qed.

Lemma gather_platform_unprotected {python : Interpreter} self product_name k acc platform log :
  getattr ("_search_" +:+ lower platform) = None →
  gather_platform self product_name k acc platform log
  = (match _generate_mock_results self product_name None None k platform with
     | Return results => Return (acc ++ results)
     | Raise e => Raise e
     end, log).
Proof.
  intros Hattr. unfold gather_platform. rewrite Hattr. run.
  by destruct (_generate_mock_results self product_name None None k platform).
Qed.

Lemma gather_loop_Return {python : Interpreter} self product_name k platforms :
  (∀ p, p ∈ platforms →
     getattr ("_search_" +:+ lower p) ≠ None
     ∨ ∃ results, deal_source self product_name k p = Return results) →
  ∀ acc log,
  ∃ records,
    for_loop (gather_platform self product_name k) acc platforms log
      = (Return (acc ++ concat ((λ p, contribution
                                        (deal_source self product_name k p))
                                <$> platforms)),
         log ++ records).
Proof.
  induction platforms as [|p platforms IH]; intros Hall acc log; simpl.
  - exists []. unfold ret. by rewrite !app_nil_r.
  - assert (∃ records,
      gather_platform self product_name k acc p log
      = (Return (acc ++ contribution (deal_source self product_name k p)),
         log ++ records)) as [r1 H1].
    { destruct (getattr ("_search_" +:+ lower p)) eqn:Hattr.
      - apply gather_platform_protected. by rewrite Hattr.
      - destruct (Hall p) as [?|[results Hres]]; [by left|done|].
        rewrite gather_platform_unprotected by done.
        unfold deal_source in *. rewrite Hattr in *. rewrite Hres. simpl.
        exists []. by rewrite app_nil_r. }
    erewrite bind_Return by exact H1.
    destruct (IH (λ q Hq, Hall q (list_elem_of_further _ _ _ Hq))
                 (acc ++ contribution (deal_source self product_name k p))
                 (log ++ r1)) as [r2 ->].
    rewrite <- !(assoc_L (++)). by eexists.
Qed.

Lemma gather_loop_Raise {python : Interpreter} self product_name k before platform after e :
  (∀ p, p ∈ before → getattr ("_search_" +:+ lower p) ≠ None) →
  getattr ("_search_" +:+ lower platform) = None →
  _generate_mock_results self product_name None None k platform = Raise e →
  ∀ acc log,
  ∃ log',
    for_loop (gather_platform self product_name k) acc
             (before ++ platform :: after) log
      = (Raise e, log').
Proof.
  intros Hbefore Hattr Hraise.
  induction before as [|p before IH]; intros acc log; simpl.
  - unfold bind. rewrite gather_platform_unprotected by done.
    rewrite Hraise. by eexists.
  - destruct (gather_platform_protected self product_name k acc p log)
      as [r1 H1]; [apply Hbefore; left|].
    erewrite bind_Return by exact H1.
    apply IH. intros q Hq. apply Hbefore. by right.
Qed.

Lemma pick_best_deal_Return product_name platforms all_results log :
  ∃ reply records,
    pick_best_deal product_name platforms all_results log
      = (Return reply, log ++ records).
Proof.
  destruct (decide (all_results = [])) as [->|Hne].
  - unfold pick_best_deal. run. by eexists _, _.
  - unfold pick_best_deal. rewrite bool_decide_eq_false_2 by done.
    destruct all_results as [|x l]; [done|].
    unfold truediv. rewrite inject_Z_len_nonzero by done. run.
    by eexists _, _.
Qed.

Lemma deal_platforms_before_Target {python : Interpreter} self :
  "Target" ∈ deal_platforms self →
  ∃ before after,
    deal_platforms self = before ++ "Target" :: after
    ∧ ∀ p, p ∈ before → getattr ("_search_" +:+ lower p) ≠ None.
Proof.
  unfold deal_platforms. rewrite !filter_cons, filter_nil.
  destruct (has_api self (lower "Amazon" +:+ "_api")),
           (has_api self (lower "Walmart" +:+ "_api")),
           (has_api self (lower "eBay" +:+ "_api")),
           (has_api self (lower "Target" +:+ "_api")),
           (has_api self (lower "BestBuy" +:+ "_api")); simpl;
    intros Hin;
    repeat (apply elem_of_cons in Hin as [Hin|Hin]; [done|]);
    try (by apply not_elem_of_nil in Hin);
    try (by apply elem_of_cons in Hin as [Hin|Hin]);
    match goal with
    | |- ∃ before after, ?l = _ ∧ _ =>
        first
          [ exists [], (tail l); split; [reflexivity|]
          | exists (take 1 l), (drop 2 l); split; [reflexivity|]
          | exists (take 2 l), (drop 3 l); split; [reflexivity|]
          | exists (take 3 l), (drop 4 l); split; [reflexivity|] ]
    end;
    simpl; intros p Hp;
    repeat (apply elem_of_cons in Hp as [->|Hp]; [done|]);
    by apply not_elem_of_nil in Hp.
Qed.

Lemma find_best_deal_returns {python : Interpreter} self product_name options log :
  "Target" ∉ deal_platforms self → "BestBuy" ∉ deal_platforms self →
  ∃ reply records,
    find_best_deal self product_name options log = (Return reply, log ++ records).
Proof.
  intros HT HB. unfold find_best_deal, gather_deals.
  destruct (gather_loop_Return self product_name (deal_max_results options)
              (deal_platforms self)) with (acc := @nil Result.t) (log := log)
    as [r1 H1].
  { intros p Hp. left.
    destruct (getattr_searched p (deal_platforms_known _ _ Hp))
      as [[_ ?]|[Hp' _]]; [done|].
    apply elem_of_cons in Hp' as [->|Hp']; [done|].
    apply elem_of_cons in Hp' as [->|Hp']; [done|].
    by apply not_elem_of_nil in Hp'. }
  erewrite bind_Return by exact H1.
  destruct (pick_best_deal_Return product_name (deal_platforms self)
              ([] ++ concat ((λ p, contribution
                  (deal_source self product_name (deal_max_results options) p))
                <$> deal_platforms self)) (log ++ r1))
    as (reply & r2 & ->).
  rewrite <- (assoc_L (++)). by eexists _, _.
Qed.

Lemma find_best_deal_raises {python : Interpreter} self product_name options log e :
  "Target" ∈ deal_platforms self →
  _generate_mock_results self product_name None None
                         (deal_max_results options) "Target" = Raise e →
  ∃ log', find_best_deal self product_name options log = (Raise e, log').
Proof.
  intros HT Hraise. unfold find_best_deal, gather_deals.
  destruct (deal_platforms_before_Target self HT)
    as (before & after & Hsplit & Hbefore).
  destruct (gather_loop_Raise self product_name (deal_max_results options)
              before "Target" after e Hbefore eq_refl Hraise [] log)
    as [log' Hloop].
  rewrite <- Hsplit in Hloop.
  unfold bind. rewrite Hloop. by eexists.
Qed.



(** ** [find_best_deal] on the data of the generator *)

Lemma gather_loop_quiet {python : Interpreter} self product_name k platforms :
  (∀ p, p ∈ platforms →
     ∃ results, deal_source self product_name k p = Return results) →
  ∀ acc log,
    for_loop (gather_platform self product_name k) acc platforms log
    = (Return (acc ++ concat ((λ p, contribution
                                      (deal_source self product_name k p))
                              <$> platforms)),
       log).
Proof.
  induction platforms as [|p platforms IH]; intros Hall acc log; simpl.
  - unfold ret. by rewrite app_nil_r.
  - destruct (Hall p) as [results Hres]; [by left|].
    assert (gather_platform self product_name k acc p log
            = (Return (acc ++ results), log)) as H1.
    { unfold gather_platform, deal_source in *.
      destruct (getattr ("_search_" +:+ lower p)); run; by rewrite Hres. }
    erewrite bind_Return by exact H1.
    rewrite IH by (intros q Hq; apply Hall; by right).
    rewrite Hres. simpl. by rewrite (assoc_L (++)).
Qed.

Lemma deal_source_generated {python : Interpreter} self product_name k p :
  p ∈ deal_platforms self →
  deal_source self product_name k p
  = _generate_mock_results self product_name None None k p.
Proof.
  intros Hp%deal_platforms_known.
  rewrite !elem_of_cons, elem_of_nil in Hp.
  by destruct Hp as [->|[->|[->|[->|[->|[]]]]]].
Qed.

Lemma deal_platforms_nonempty {python : Interpreter} self : deal_platforms self ≠ [].
Proof. unfold deal_platforms. by case_bool_decide. Qed.

Lemma fold_left_Qplus_acc (l : list Q) (a : Q) :
  (fold_left Qplus l a == a + fold_left Qplus l 0)%Q.
Proof.
  revert a. induction l as [|x l IH]; intros a; simpl.
  - ring.
  - rewrite (IH (a + x)%Q), (IH (0 + x)%Q). ring.
Qed.

Lemma sum_app (l1 l2 : list Q) : (sum (l1 ++ l2) == sum l1 + sum l2)%Q.
Proof.
  unfold sum. rewrite fold_left_app. apply fold_left_Qplus_acc.
Qed.

Lemma range_succ (n : nat) :
  range (Z.of_nat (S n)) = range (Z.of_nat n) ++ [Z.of_nat n].
Proof.
  unfold range. rewrite !Nat2Z.id, seq_S, fmap_app. done.
Qed.

Lemma sum_mock_prices (a : Q) (n : nat) :
  (sum ((λ i, a + inject_Z i * 10) <$> range (Z.of_nat n))
   == inject_Z (Z.of_nat n) * a
      + 5 * inject_Z (Z.of_nat n) * (inject_Z (Z.of_nat n) - 1))%Q.
Proof.
  induction n as [|n IH].
  - change (inject_Z (Z.of_nat 0)) with 0%Q. unfold sum. simpl. ring.
  - rewrite range_succ, fmap_app, sum_app, IH.
    rewrite Nat2Z.inj_succ. unfold Z.succ. rewrite inject_Z_plus.
    change (inject_Z 1) with 1%Q. unfold sum. simpl. ring.
Qed.

Lemma mock_prices {python : Interpreter} self product_name k p results :
  has_api self "openai" = false →
  _generate_mock_results self product_name None None k p = Return results →
  get_price <$> results
  = (λ i, (1999 # 100) + inject_Z i * 10)%Q <$> range k.
Proof.
  intros Hno Hrun. rewrite generate_without_openai in Hrun by done.
  apply for_each_Forall2 in Hrun.
  induction Hrun as [|i r l results Hr _ IH]; [done|].
  rewrite !fmap_cons, IH. f_equal.
  destruct (mock_result_fields _ _ _ _ _ _ Hr) as (_ & _ & _ & _ & _ & _ & _ & _ & _ & _ & Hprice).
  unfold get_price. by rewrite Hprice.
Qed.

Lemma min_from_first {A K} `{PyLt K} (key : A → K) (best : A) (l : list A) :
  (∀ x, x ∈ l → py_lt (key x) (key best) = false) →
  min_from key best l = best.
Proof.
  induction l as [|x l IH]; intros Hall; simpl; [done|].
  rewrite (Hall x) by left. apply IH. intros y Hy. apply Hall. by right.
Qed.

Lemma len_concat_same {A B} (f : A → list B) (n : Z) (l : list A) :
  (∀ p, p ∈ l → len (f p) = n) → len (concat (f <$> l)) = n * len l.
Proof.
  induction l as [|p l IH]; intros Hall.
  - unfold len. simpl. lia.
  - rewrite fmap_cons. change (concat (f p :: (f <$> l))) with (f p ++ concat (f <$> l)).
    unfold len in *. rewrite length_app, Nat2Z.inj_add.
    rewrite (Hall p) by left. rewrite IH by (intros q Hq; apply Hall; by right).
    simpl length. lia.
Qed.

Lemma fmap_concat_same {A B C} (f : A → list B) (g : B → C) (ys : list C)
    (l : list A) :
  (∀ p, p ∈ l → g <$> f p = ys) →
  g <$> concat (f <$> l) = concat ((λ _, ys) <$> l).
Proof.
  induction l as [|p l IH]; intros Hall; [done|].
  rewrite !fmap_cons.
  change (concat (f p :: (f <$> l))) with (f p ++ concat (f <$> l)).
  change (concat (ys :: ((λ _, ys) <$> l))) with (ys ++ concat ((λ _, ys) <$> l)).
  rewrite fmap_app, (Hall p) by left.
  by rewrite IH by (intros q Hq; apply Hall; by right).
Qed.

(** What [find_best_deal] gathers when nothing is generated by OpenAI. *)
Lemma gather_deals_generated {python : Interpreter} self product_name k log :
  has_api self "openai" = false →
  k ≤ 1114047 →
  ∃ all_results,
    gather_deals self product_name k (deal_platforms self) log
      = (Return all_results, log)
    ∧ len all_results = Z.max 0 k * len (deal_platforms self)
    ∧ get_price <$> all_results
      = concat ((λ _, (λ i, (1999 # 100) + inject_Z i * 10)%Q <$> range k)
                <$> deal_platforms self)
    ∧ (∀ first, head (deal_platforms self) = Some first →
         1 ≤ k →
         ∃ best rest,
           mock_result product_name None None first 0 = Return best
           ∧ all_results = best :: rest).
Proof.
  intros Hno Hk.
  assert (∀ p, p ∈ deal_platforms self →
            ∃ results, deal_source self product_name k p = Return results
              ∧ len results = Z.max 0 k
              ∧ get_price <$> results
                = (λ i, (1999 # 100) + inject_Z i * 10)%Q <$> range k
              ∧ (1 ≤ k → ∃ best rest,
                   mock_result product_name None None p 0 = Return best
                   ∧ results = best :: rest)) as Hsrc.
  { intros p Hp. rewrite deal_source_generated by done.
    destruct (mock_results_run self product_name None None k p Hno Hk)
      as (results & Hrun & Hlen & Hlookup).
    exists results. split; [done|]. split; [done|].
    split; [by eapply mock_prices|].
    intros Hpos. destruct results as [|best rest].
    { unfold len in Hlen. simpl in Hlen. lia. }
    exists best, rest. split; [|done].
    by apply (Hlookup 0%nat best). }
  unfold gather_deals. rewrite gather_loop_quiet.
  2:{ intros p Hp. destruct (Hsrc p Hp) as (results & ? & _). eauto. }
  eexists. split; [reflexivity|]. simpl.
  generalize dependent (deal_platforms self). intros platforms Hsrc.
  split; [|split].
  - apply len_concat_same. intros p Hp.
    by destruct (Hsrc p Hp) as (results & -> & Hlen & _).
  - apply fmap_concat_same. intros p Hp.
    by destruct (Hsrc p Hp) as (results & -> & _ & Hprices & _).
  - intros first Hhead Hpos. destruct platforms as [|p platforms]; [done|].
    injection Hhead as ->. simpl.
    destruct (Hsrc first) as (results & -> & _ & _ & Hfirst); [by left|].
    destruct (Hfirst Hpos) as (best & rest & Hbest & ->). simpl.
    by eexists _, _.
Qed.

Lemma sum_concat_same (prices : list Q) {A} (platforms : list A) :
  (sum (concat ((λ _, prices) <$> platforms))
   == inject_Z (len platforms) * sum prices)%Q.
Proof.
  induction platforms as [|p platforms IH]; simpl.
  - unfold len, sum. simpl. ring.
  - rewrite sum_app, IH. unfold len. simpl length.
    rewrite Nat2Z.inj_succ. unfold Z.succ. rewrite inject_Z_plus.
    change (inject_Z 1) with 1%Q. ring.
Qed.

(** X13 ([find_best_deal]).  Without an OpenAI key and with
    [max_results_per_platform <= 0] no platform yields a result:
    [find_best_deal] returns the dict [{"error": "No results found"}] and
    logs one warning. *)
Theorem find_best_deal_without_results {python : Interpreter} self product_name options log :
  has_api self "openai" = false →
  deal_max_results options ≤ 0 →
  find_best_deal self product_name options log
  = (Return (NoResults "No results found"),
     log ++ [LogRecord WARNING ("No results found for " +:+ product_name)]).
Proof.
  intros Hno Hk. unfold find_best_deal.
  destruct (gather_deals_generated self product_name (deal_max_results options)
              log Hno) as (all_results & Hrun & Hlen & _); [lia|].
  erewrite bind_Return by exact Hrun.
  destruct all_results as [|x l]; [done|].
  unfold len in Hlen. simpl in Hlen. lia.
Qed.

Lemma find_best_deal_without_results_witness :
  find_best_deal Sample.two_shops "shoe"
                 (Some (DealOptions.Make (Some 0))) []
  = (Return (NoResults "No results found"),
     [LogRecord WARNING "No results found for shoe"]).
Proof.
  apply (find_best_deal_without_results Sample.two_shops "shoe"
           (Some (DealOptions.Make (Some 0))) []).
  - reflexivity.
  - vm_compute; congruence.
Defined.



(** ** [find_similar_products] *)

Lemma split_once_without (sep : ascii) (s : string) :
  contains (String sep EmptyString) s = false → split_once sep s = [s].
Proof.
  induction s as [|c s IH]; [done|]. simpl.
  destruct (ascii_dec sep c) as [->|Hne]; [by destruct s|].
  simpl. intros Hs. rewrite decide_False by congruence. by rewrite IH.
Qed.

Lemma split_once_at (sep : ascii) (before after : string) :
  contains (String sep EmptyString) before = false →
  split_once sep (before +:+ String sep after) = [before; after].
Proof.
  induction before as [|c before IH]; simpl.
  - intros _. by rewrite decide_True.
  - destruct (ascii_dec sep c) as [->|Hne]; [by destruct before|].
    simpl. intros Hs. rewrite decide_False by congruence. by rewrite IH.
Qed.

Lemma contains_split (sep : ascii) (s : string) :
  contains (String sep EmptyString) s = true →
  ∃ before after,
    s = before +:+ String sep after
    ∧ contains (String sep EmptyString) before = false.
Proof.
  induction s as [|c s IH]; [done|]. simpl.
  destruct (ascii_dec sep c) as [->|Hne].
  - intros _. by exists EmptyString, s.
  - simpl. intros Hs.
    destruct (IH Hs) as (before & after & -> & Hbefore).
    exists (String c before), after. split; [done|]. simpl.
    by destruct (ascii_dec sep c).
Qed.

Lemma contains_at (sep : ascii) (before after : string) :
  contains (String sep EmptyString) (before +:+ String sep after) = true.
Proof.
  induction before as [|c before IH]; simpl.
  - destruct (ascii_dec sep sep); [|done]. by destruct after.
  - rewrite IH. apply orb_true_r.
Qed.

Lemma similar_product_name_run (product_id : string) :
  ∃ name,
    similar_product_name product_id = Return name
    ∧ (∀ before after,
         product_id = before +:+ ":" +:+ after →
         contains ":" before = false →
         name = after)
    ∧ (contains ":" product_id = false → name = "Product " +:+ product_id).
Proof.
  unfold similar_product_name.
  destruct (contains ":" product_id) eqn:Hc.
  - destruct (contains_split ":" product_id Hc)
      as (before & after & -> & Hbefore).
    rewrite (split_once_at ":" before after Hbefore). unfold getitem. simpl.
    exists after. split; [done|]. split; [|done].
    intros before' after' Heq Hbefore'.
    assert (split_once ":" (before +:+ String ":" after)
            = split_once ":" (before' +:+ String ":" after')) as Hsplit
      by (simpl in Heq; by rewrite Heq).
    rewrite (split_once_at ":" before after Hbefore) in Hsplit.
    rewrite (split_once_at ":" before' after' Hbefore') in Hsplit.
    congruence.
  - eexists. split; [done|]. split; [|done].
    intros before after Heq Hbefore. subst product_id.
    pose proof (contains_at ":" before after
                : contains ":" (before +:+ ":" +:+ after) = true) as Hyes.
    congruence.
Qed.

(** X15 ([find_similar_products]).  The product name is the text after the
    first colon of the product id, and "Product " followed by the id when
    the id has no colon; taking it never raises.  The method returns what
    the generator returns for that name and logs one record; an exception
    of the generator leaves the method as it is, with nothing logged. *)
Theorem find_similar_products_run {python : Interpreter} self product_id platform options log :
  ∃ name,
    similar_product_name product_id = Return name
    ∧ (∀ before after,
         product_id = before +:+ ":" +:+ after →
         contains ":" before = false →
         name = after)
    ∧ (contains ":" product_id = false → name = "Product " +:+ product_id)
    ∧ find_similar_products self product_id platform options log
      = match _generate_mock_results self name None None
                (similar_max_results self options) platform with
        | Return similar_products =>
            (Return similar_products,
             log ++ [LogRecord INFO
                       ("Found " +:+ str_int (len similar_products) +:+
                        " similar products to " +:+ product_id +:+
                        " on " +:+ platform)])
        | Raise e => (Raise e, log)
        end.
Proof.
  destruct (similar_product_name_run product_id) as (name & Hname & Hcut & Hkeep).
  exists name. split; [done|]. split; [done|]. split; [done|].
  unfold find_similar_products. rewrite Hname. run.
  by destruct (_generate_mock_results self name None None
                 (similar_max_results self options) platform).
Qed.

Lemma find_similar_products_run_witness :
  similar_product_name "amazon:red:shoe" = Return "red:shoe"
  ∧ similar_product_name "12345" = Return "Product 12345".
Proof.
  split.
  - destruct (find_similar_products_run
                Sample.two_shops "amazon:red:shoe" "Amazon" None [])
      as (name & Hname & Hcut & _).
    rewrite Hname. f_equal. by apply (Hcut "amazon" "red:shoe").
  - destruct (find_similar_products_run
                Sample.two_shops "12345" "Amazon" None [])
      as (name & Hname & _ & Hkeep & _).
    rewrite Hname. f_equal. by apply Hkeep.
Defined.

(** ** [track_price] *)

Lemma is_digit_pretty_N_char (x : N) : is_digit (pretty_N_char x) = true.
Proof. unfold pretty_N_char. by repeat case_match. Qed.

Lemma string_app_cons (c : ascii) (a b : string) :
  String c a +:+ b = String c (a +:+ b).
Proof. done. Qed.

Lemma string_app_assoc (a b c : string) : (a +:+ b) +:+ c = a +:+ b +:+ c.
Proof.
  induction a as [|x a IH]; [done|]. rewrite !string_app_cons. by rewrite IH.
Qed.

Lemma string_app_nil_r (a : string) : a +:+ EmptyString = a.
Proof.
  induction a as [|x a IH]; [done|]. rewrite string_app_cons. by rewrite IH.
Qed.

Lemma all_digits_app (a b : string) :
  all_digits a = true → all_digits b = true → all_digits (a +:+ b) = true.
Proof.
  intros Ha Hb. induction a as [|x a IH]; [done|].
  rewrite string_app_cons. simpl in *.
  apply andb_prop in Ha as [-> Ha]. by apply IH.
Qed.

Lemma pretty_N_go_shape (x : N) (s : string) :
  ∃ d, pretty_N_go x s = d +:+ s
       ∧ all_digits d = true
       ∧ ((0 < x)%N → d ≠ EmptyString).
Proof.
  revert s. induction (N.lt_wf_0 x) as [x _ IH]; intros s.
  assert (x = 0 ∨ 0 < x)%N as [->|Hpos] by lia.
  - exists EmptyString. rewrite pretty_N_go_0. split; [done|]. split; [done|lia].
  - rewrite pretty_N_go_step by done.
    destruct (IH (x `div` 10)%N (N.div_lt x 10 Hpos eq_refl)
                 (String (pretty_N_char (x `mod` 10)) s))
      as (d & Hgo & Hd & _).
    exists (d +:+ String (pretty_N_char (x `mod` 10)) EmptyString).
    split; [|split].
    + rewrite Hgo. by rewrite string_app_assoc.
    + apply all_digits_app; [done|]. simpl.
      by rewrite is_digit_pretty_N_char.
    + intros _. by destruct d.
Qed.

Lemma pretty_N_shape (x : N) :
  all_digits (pretty x) = true ∧ pretty x ≠ EmptyString.
Proof.
  unfold pretty, pretty_N. case_decide; [done|].
  destruct (pretty_N_go_shape x EmptyString) as (d & -> & Hd & Hne).
  rewrite string_app_nil_r.
  split; [done|]. apply Hne. lia.
Qed.

Lemma digits_dash_inj (a b p q : string) :
  all_digits a = true → all_digits b = true →
  a +:+ "-" +:+ p = b +:+ "-" +:+ q → a = b ∧ p = q.
Proof.
  revert b. induction a as [|c a IH]; intros [|c' b] Ha Hb Heq.
  - change (String "-" p = String "-" q) in Heq. by injection Heq as ->.
  - change (String "-" p = String c' (b +:+ "-" +:+ q)) in Heq.
    injection Heq as <- _. done.
  - change (String c (a +:+ "-" +:+ p) = String "-" q) in Heq.
    injection Heq as -> _. done.
  - change (String c (a +:+ "-" +:+ p) = String c' (b +:+ "-" +:+ q)) in Heq.
    injection Heq as -> Heq. simpl in Ha, Hb.
    apply andb_prop in Ha as [_ Ha], Hb as [_ Hb].
    destruct (IH b Ha Hb Heq) as [-> ->]. done.
Qed.

Lemma str_int_dash_inj (i j : Z) (p q : string) :
  str_int i +:+ "-" +:+ p = str_int j +:+ "-" +:+ q → i = j ∧ p = q.
Proof.
  unfold str_int, pretty, pretty_Z.
  assert (∀ x : positive,
            all_digits (pretty x) = true ∧ ∃ c d, pretty x = String c d
              ∧ is_digit c = true) as Hpos.
  { intros x. unfold pretty, pretty_positive.
    destruct (pretty_N_shape (N.pos x)) as [Hd Hne]. split; [done|].
    destruct (pretty (N.pos x)) as [|c d]; [done|].
    exists c, d. split; [done|]. simpl in Hd. by apply andb_prop in Hd as [-> _]. }
  destruct i as [|x|x], j as [|y|y]; intros Heq.
  - do 2 apply (inj (String.append _)) in Heq. by subst.
  - destruct (Hpos y) as [Hy _].
    destruct (digits_dash_inj "0" (pretty y) p q eq_refl Hy Heq) as [H0 ->].
    assert (0 = Z.pos y) by (apply (inj pretty); exact H0). done.
  - change (String "0" ("-" +:+ p) = String "-" (pretty y +:+ "-" +:+ q)) in Heq.
    done.
  - destruct (Hpos x) as [Hx _].
    destruct (digits_dash_inj (pretty x) "0" p q Hx eq_refl Heq) as [H0 ->].
    assert (Z.pos x = 0) by (apply (inj pretty); exact H0). done.
  - destruct (Hpos x) as [Hx _], (Hpos y) as [Hy _].
    destruct (digits_dash_inj (pretty x) (pretty y) p q Hx Hy Heq) as [H0 ->].
    by apply (inj pretty) in H0 as ->.
  - destruct (Hpos x) as (_ & c & d & Hx & Hc).
    rewrite Hx in Heq.
    change (String c (d +:+ "-" +:+ p) = String "-" (pretty y +:+ "-" +:+ q))
      in Heq.
    injection Heq as -> _. done.
  - change (String "-" (pretty x +:+ "-" +:+ p) = String "0" ("-" +:+ q)) in Heq.
    done.
  - destruct (Hpos y) as (_ & c & d & Hy & Hc).
    rewrite Hy in Heq.
    change (String "-" (pretty x +:+ "-" +:+ p) = String c (d +:+ "-" +:+ q))
      in Heq.
    injection Heq as <- _. done.
  - destruct (Hpos x) as [Hx _], (Hpos y) as [Hy _].
    change (String "-" (pretty x +:+ "-" +:+ p)
            = String "-" (pretty y +:+ "-" +:+ q)) in Heq.
    injection Heq as Heq.
    destruct (digits_dash_inj (pretty x) (pretty y) p q Hx Hy Heq) as [H0 ->].
    by apply (inj pretty) in H0 as ->.
Qed.

(** X16 ([track_price]).  [track_price] always returns an active tracking
    with the time stamp of the clock, and with no target price and no
    address when no options are given.  Two tracking ids are equal exactly
    when the two calls fall into the same second and name the same product
    id: the platform and the options play no part in the id. *)
Theorem track_price_ids
    c c' self self' product_id product_id' platform platform'
    options options' log log' :
  ∃ info info',
    track_price c self product_id platform options log
      = (Return info,
         log ++ [LogRecord INFO ("Set up price tracking for product " +:+
                                 product_id +:+ " on " +:+ platform)])
    ∧ track_price c' self' product_id' platform' options' log'
      = (Return info',
         log' ++ [LogRecord INFO ("Set up price tracking for product " +:+
                                  product_id' +:+ " on " +:+ platform')])
    ∧ Tracking.status info = "active"
    ∧ Tracking.created_at info = now_isoformat c
    ∧ (options = None →
       Tracking.target_price info = None
       ∧ Tracking.notify_email info = None
       ∧ Tracking.notify_phone info = None)
    ∧ (Tracking.tracking_id info = Tracking.tracking_id info'
       ↔ epoch_seconds c = epoch_seconds c' ∧ product_id = product_id').
Proof.
  eexists _, _. split; [reflexivity|]. split; [reflexivity|]. simpl.
  split; [done|]. split; [done|]. split; [by intros ->|].
  split.
  - intros Heq. apply (inj (String.append "track-")) in Heq.
    by apply str_int_dash_inj in Heq.
  - by intros [-> ->].
Qed.

(** ** [get_buying_options] *)

Lemma round_half_even_bounds (x : Q) :
  (inject_Z (round_half_even x) - (1 # 2) <= x
   ∧ x <= inject_Z (round_half_even x) + (1 # 2))%Q.
Proof.
  unfold round_half_even.
  pose proof (Qfloor_le x) as Hlo. pose proof (Qlt_floor x) as Hhi.
  rewrite inject_Z_plus in Hhi. change (inject_Z 1) with 1%Q in Hhi.
  destruct (py_lt (x - inject_Z (Qfloor x))%Q (1 # 2)) eqn:Hlt.
  - apply Q_py_lt_spec in Hlt. split; lra.
  - apply Q_py_lt_false in Hlt.
    destruct (py_lt (1 # 2) (x - inject_Z (Qfloor x))%Q) eqn:Hgt.
    + rewrite inject_Z_plus. change (inject_Z 1) with 1%Q. split; lra.
    + apply Q_py_lt_false in Hgt.
      destruct (Z.even (Qfloor x)); [split; lra|].
      rewrite inject_Z_plus. change (inject_Z 1) with 1%Q. split; lra.
Qed.

Lemma round2_bounds (x : Q) :
  (round2 x - (1 # 200) <= x ∧ x <= round2 x + (1 # 200))%Q.
Proof.
  unfold round2.
  destruct (round_half_even_bounds (x * 100)) as [Hlo Hhi].
  set (n := inject_Z (round_half_even (x * 100))) in *.
  change (n / 100)%Q with (n * (1 # 100))%Q. split; lra.
Qed.

Lemma round_half_even_cases (x : Q) :
  round_half_even x = Qfloor x ∨ round_half_even x = Qfloor x + 1.
Proof. unfold round_half_even. repeat case_match; auto. Qed.

Lemma round_half_even_mono (x y : Q) :
  (x <= y)%Q → round_half_even x ≤ round_half_even y.
Proof.
  intros Hxy. pose proof (Qfloor_resp_le x y Hxy) as Hfloor.
  destruct (decide (Qfloor x = Qfloor y)) as [Heq|Hne].
  - unfold round_half_even. rewrite Heq.
    assert (x - inject_Z (Qfloor y) <= y - inject_Z (Qfloor y))%Q as Hr by lra.
    destruct (py_lt (x - inject_Z (Qfloor y))%Q (1 # 2)) eqn:Hx1.
    + repeat case_match; lia.
    + apply Q_py_lt_false in Hx1.
      destruct (py_lt (y - inject_Z (Qfloor y))%Q (1 # 2)) eqn:Hy1.
      { apply Q_py_lt_spec in Hy1. lra. }
      destruct (py_lt (1 # 2) (x - inject_Z (Qfloor y))%Q) eqn:Hx2.
      * apply Q_py_lt_spec in Hx2.
        destruct (py_lt (1 # 2) (y - inject_Z (Qfloor y))%Q) eqn:Hy2; [lia|].
        apply Q_py_lt_false in Hy2. lra.
      * repeat case_match; lia.
  - destruct (round_half_even_cases x) as [->| ->],
             (round_half_even_cases y) as [->| ->]; lia.
Qed.

Lemma round2_mono (x y : Q) : (x <= y)%Q → (round2 x <= round2 y)%Q.
Proof.
  intros Hxy. unfold round2.
  assert (round_half_even (x * 100) ≤ round_half_even (y * 100)) as Hle
    by (apply round_half_even_mono; lra).
  rewrite Zle_Qle in Hle.
  set (n := inject_Z (round_half_even (x * 100))) in *.
  set (m := inject_Z (round_half_even (y * 100))) in *.
  change (n / 100)%Q with (n * (1 # 100))%Q.
  change (m / 100)%Q with (m * (1 # 100))%Q. lra.
Qed.

Lemma get_buying_options_run new_price self product_name options log :
  ∃ b,
    get_buying_options new_price self product_name options log
      = (Return b,
         log ++ [LogRecord INFO ("Retrieved buying options for " +:+ product_name)])
    ∧ BuyingOptions.product_name b = product_name
    ∧ BuyingOptions.best_value b = "refurbished"
    ∧ Offer.price (BuyingOptions.new b) = round2 new_price
    ∧ Offer.price (BuyingOptions.used b) = round2 (new_price * (7 # 10))
    ∧ Offer.price (BuyingOptions.refurbished b) = round2 (new_price * (85 # 100))
    ∧ Seller.price <$> Offer.sellers (BuyingOptions.new b)
      = [round2 new_price; round2 (new_price * (105 # 100));
         round2 (new_price * (102 # 100))]
    ∧ Seller.price <$> Offer.sellers (BuyingOptions.used b)
      = [round2 (new_price * (7 # 10)); round2 (new_price * (65 # 100));
         round2 (new_price * (75 # 100))]
    ∧ Seller.price <$> Offer.sellers (BuyingOptions.refurbished b)
      = [round2 (new_price * (85 # 100)); round2 (new_price * (82 # 100));
         round2 (new_price * (88 # 100))].
Proof. eexists. split; [reflexivity|]. done. Qed.

(** X17 ([get_buying_options]).  For every price drawn between 80 and 120
    the option named as the best value is the refurbished one; the used
    option is cheaper than the refurbished one, which is cheaper than the
    new one by 14 to 16 percent of the drawn price.  The price of an option
    is the price of its first seller: the lowest of its sellers for the new
    option, not the lowest for the used and the refurbished one.  Every
    price lies between 52 and 126. *)
Theorem buying_options_prices new_price self product_name options log :
  (80 <= new_price <= 120)%Q →
  ∃ b,
    get_buying_options new_price self product_name options log
      = (Return b,
         log ++ [LogRecord INFO ("Retrieved buying options for " +:+ product_name)])
    (* the option named as the best value is the refurbished one *)
    ∧ BuyingOptions.option_of b (BuyingOptions.best_value b)
      = Return (BuyingOptions.refurbished b)
    (* used is cheaper than refurbished, refurbished cheaper than new *)
    ∧ (Offer.price (BuyingOptions.used b)
         < Offer.price (BuyingOptions.refurbished b))%Q
    ∧ (Offer.price (BuyingOptions.refurbished b)
         < Offer.price (BuyingOptions.new b))%Q
    (* "15% savings over new", to one point *)
    ∧ ((14 # 100) * new_price
         <= Offer.price (BuyingOptions.new b)
            - Offer.price (BuyingOptions.refurbished b)
         <= (16 # 100) * new_price)%Q
    (* the price of an option is the price of its first seller *)
    ∧ (∀ offer, offer ∈ BuyingOptions.offers b →
         Seller.price <$> head (Offer.sellers offer) = Some (Offer.price offer))
    (* which is the lowest of its sellers for the new option only *)
    ∧ (∀ seller, seller ∈ Offer.sellers (BuyingOptions.new b) →
         (Offer.price (BuyingOptions.new b) <= Seller.price seller)%Q)
    ∧ (∃ seller, seller ∈ Offer.sellers (BuyingOptions.used b)
         ∧ (Seller.price seller < Offer.price (BuyingOptions.used b))%Q)
    ∧ (∃ seller, seller ∈ Offer.sellers (BuyingOptions.refurbished b)
         ∧ (Seller.price seller < Offer.price (BuyingOptions.refurbished b))%Q)
    (* every price lies between 52 and 126 *)
    ∧ (∀ offer seller,
         offer ∈ BuyingOptions.offers b → seller ∈ Offer.sellers offer →
         (52 <= Seller.price seller <= 126)%Q).
Proof.
  intros [Hlo Hhi].
  pose proof (round2_bounds new_price) as H100.
  pose proof (round2_bounds (new_price * (105 # 100))) as H105.
  pose proof (round2_bounds (new_price * (102 # 100))) as H102.
  pose proof (round2_bounds (new_price * (7 # 10))) as H70.
  pose proof (round2_bounds (new_price * (65 # 100))) as H65.
  pose proof (round2_bounds (new_price * (75 # 100))) as H75.
  pose proof (round2_bounds (new_price * (85 # 100))) as H85.
  pose proof (round2_bounds (new_price * (82 # 100))) as H82.
  pose proof (round2_bounds (new_price * (88 # 100))) as H88.
  eexists. split; [reflexivity|]. simpl.
  split; [done|].
  split; [lra|]. split; [lra|]. split; [split; lra|].
  split.
  { intros offer Hoffer. unfold BuyingOptions.offers in Hoffer. simpl in Hoffer.
    rewrite !elem_of_cons, elem_of_nil in Hoffer.
    by destruct Hoffer as [->|[->|[->|[]]]]. }
  split.
  { intros seller Hseller. rewrite !elem_of_cons, elem_of_nil in Hseller.
    destruct Hseller as [->|[->|[->|[]]]]; simpl; lra. }
  split.
  { eexists. split; [right; left|]. simpl. lra. }
  split.
  { eexists. split; [right; left|]. simpl. lra. }
  assert (∀ x, (52 <= x <= 126)%Q → (52 <= round2 x <= 126)%Q) as Hbetween.
  { intros x [Hx1 Hx2]. split.
    - apply (Qle_trans _ (round2 52)); [vm_compute; congruence|].
      by apply round2_mono.
    - apply (Qle_trans _ (round2 126)); [by apply round2_mono|].
      vm_compute; congruence. }
  intros offer seller Hoffer Hseller.
  unfold BuyingOptions.offers in Hoffer. simpl in Hoffer.
  rewrite !elem_of_cons, elem_of_nil in Hoffer.
  destruct Hoffer as [->|[->|[->|[]]]]; simpl in Hseller;
    rewrite !elem_of_cons, elem_of_nil in Hseller;
    destruct Hseller as [->|[->|[->|[]]]]; simpl;
    apply Hbetween; split; lra.
Qed.

Lemma buying_options_prices_witness :
  ∃ b,
    fst (get_buying_options 100 Sample.two_shops "shoe" None []) = Return b
    ∧ (Offer.price (BuyingOptions.used b)
         < Offer.price (BuyingOptions.refurbished b))%Q.
Proof.
  destruct (buying_options_prices 100 Sample.two_shops "shoe" None [])
    as (b & Hrun & _ & Hused & _); [vm_compute; split; congruence|].
  exists b. split; [by rewrite Hrun|exact Hused].
Defined.

(** ** [get_price_history]: the order of the days and the range of the prices *)

Lemma history_entry_fields w base_price i item :
  history_entry w base_price i = Return item →
  Entry.date item = strftime w (now w - i)
  ∧ Entry.currency item = "USD"
  ∧ Entry.in_stock item = py_lt (1 # 10)%Q (random w i)
  ∧ Entry.price item
    = round2 (let price := (base_price * (1 + uniform w i))%Q in
              let price := if i mod 7 =? 0 then (price * (9 # 10))%Q else price in
              if i mod 30 =? 0 then (price * (8 # 10))%Q else price).
Proof.
  unfold history_entry.
  destruct (days_before (now w) i) as [date|e] eqn:Hdate; [|done].
  assert (date = now w - i) as ->.
  { unfold days_before in Hdate. by repeat case_match; simplify_eq. }
  by intros [= <-].
Qed.

Lemma get_price_history_entries w self product_id platform options log :
  1 ≤ history_days options ≤ now w →
  now w ≤ 3652059 →
  ∃ entries result,
    for_each (history_entry w (history_base_price product_id))
             (range (history_days options)) = Return entries
    ∧ get_price_history w self product_id platform options log
      = (Return result,
         log ++ [LogRecord INFO ("Retrieved price history for product " +:+
                                 product_id +:+ " on " +:+ platform)])
    ∧ History.price_history result = sorted Entry.date false entries
    ∧ History.current_price result
      = default (history_base_price product_id)
                (Entry.price <$> last (sorted Entry.date false entries))
    ∧ History.product_id result = product_id
    ∧ History.platform result = platform.
Proof.
  intros Hdays Hnow. unfold get_price_history.
  destruct (for_each_Return (history_entry w (history_base_price product_id))
              (range (history_days options))) as (entries & Hloop & Hlen).
  { intros i Hi%elem_of_range. apply history_entry_Return; lia. }
  exists entries. unfold bind at 1. unfold call at 1. rewrite Hloop.
  set (price_history := sorted Entry.date false entries).
  assert (Hne : price_history ≠ []).
  { intros Hnil. apply (f_equal length) in Hnil.
    unfold price_history in Hnil. rewrite length_sorted, Hlen in Hnil.
    pose proof (length_range (history_days options)) as Hr.
    unfold len in Hr. simpl in Hnil. lia. }
  destruct (Entry.price <$> price_history) as [|x prices] eqn:Hp.
  { by destruct price_history. }
  unfold bind, call, ret, logger, truediv. simpl min. simpl max.
  rewrite inject_Z_len_nonzero by done. simpl.
  eexists. split; [done|]. split; [reflexivity|]. simpl.
  split; [done|]. split; [|done].
  by destruct (last price_history).
Qed.

Lemma insert_stable_last {A K} `{PyLt K} (key : A → K) (x : A) (ys : list A) :
  (∀ y, y ∈ ys → py_lt (key y) (key x) = true) →
  insert_stable key false x ys = ys ++ [x].
Proof.
  induction ys as [|y ys IH]; intros Hall; simpl; [done|].
  unfold comes_first. rewrite (Hall y) by left.
  rewrite IH; [done|]. intros z Hz. apply Hall. by right.
Qed.

Lemma sorted_of_descending {A K} `{PyLt K} (key : A → K) (l : list A) :
  (∀ (i j : nat) x y,
     l !! i = Some x → l !! j = Some y → (i < j)%nat →
     py_lt (key y) (key x) = true) →
  sorted key false l = reverse l.
Proof.
  induction l as [|x l IH]; intros Hall; [done|].
  unfold sorted. simpl. fold (sorted key false l).
  rewrite IH.
  - rewrite insert_stable_last; [by rewrite reverse_cons|].
    intros y Hy. rewrite elem_of_reverse in Hy.
    apply list_elem_of_lookup in Hy as [j Hj].
    apply (Hall 0%nat (S j) x y); [reflexivity|exact Hj|lia].
  - intros i j a b Hi Hj Hlt. apply (Hall (S i) (S j)); [exact Hi|exact Hj|lia].
Qed.

Lemma history_base_price_bounds (product_id : string) :
  (50 <= history_base_price product_id <= 149)%Q.
Proof.
  unfold history_base_price. destruct (isdigit product_id).
  - pose proof (Z.mod_pos_bound (digits_value 0 product_id) 100) as Hmod.
    assert (0 ≤ digits_value 0 product_id mod 100 ≤ 99) as [Hlo Hhi] by lia.
    rewrite Zle_Qle in Hlo, Hhi.
    change (inject_Z 0) with 0%Q in Hlo. change (inject_Z 99) with 99%Q in Hhi.
    split; lra.
  - split; vm_compute; congruence.
Qed.

Lemma history_dates w base_price (l : list Z) (entries : list Entry.t) :
  Forall2 (λ i e, history_entry w base_price i = Return e) l entries →
  Entry.date <$> entries = (λ i, strftime w (now w - i)) <$> l.
Proof.
  induction 1 as [|i e l k He _ IH]; [done|].
  rewrite !fmap_cons, IH.
  by destruct (history_entry_fields _ _ _ _ He) as [-> _].
Qed.





(** ** [load_config] *)

Lemma find_first {A} (f : A → bool) (before : list A) (x : A) (after : list A) :
  (∀ y, y ∈ before → f y = false) → f x = true →
  List.find f (before ++ x :: after) = Some x.
Proof.
  intros Hbefore Hx. induction before as [|y before IH]; simpl.
  - by rewrite Hx.
  - rewrite (Hbefore y) by left. apply IH. intros z Hz. apply Hbefore. by right.
Qed.

Lemma find_none {A} (f : A → bool) (l : list A) :
  (∀ y, y ∈ l → f y = false) → List.find f l = None.
Proof.
  intros Hall. induction l as [|y l IH]; simpl; [done|].
  rewrite (Hall y) by left. apply IH. intros z Hz. apply Hall. by right.
Qed.

Lemma load_config_resolved fs config_path log :
  load_config fs config_path log
  = match resolve_config_path fs config_path with
    | Some path =>
        if negb (bool_decide (path = EmptyString)) && exists_path fs path
        then read_config fs path log
        else no_config log
    | None => no_config log
    end.
Proof.
  unfold load_config, read_config, no_config.
  destruct (resolve_config_path fs config_path) as [path|]; [|done].
  unfold no_path. destruct (bool_decide (path = EmptyString)); simpl; [done|].
  destruct (exists_path fs path); simpl; [|done].
  run. by destruct (load_json fs path).
Qed.



(** ** The routes of the API server *)

Lemma absent_false (value : option string) :
  Api.absent value = false ↔ ∃ text, value = Some text ∧ text ≠ EmptyString.
Proof.
  destruct value as [text|]; simpl.
  - rewrite bool_decide_eq_false. split; [eauto|]. by intros (? & [= <-] & ?).
  - split; [done|]. by intros (? & ? & _).
Qed.

Ltac answer_200 :=
  eexists _, 200, _; split; [reflexivity|];
  split; [by left|]; split; [done|]; split; [by eexists|done].

Ltac answer_400 :=
  eexists _, 400, _; split; [reflexivity|];
  split; [by right; left|]; split; [done|]; split; [done|done].

Ltac answer_500 :=
  eexists _, 500, _; split; [reflexivity|];
  split; [by right; right|]; split; [done|]; split; [done|];
  intros _; eexists; split; [reflexivity|]; apply last_snoc.




(** ** Platforms that are configured and never searched *)

Lemma search_platform_without_method {python : Interpreter} self query category price_range
    max_results all_results api_name log :
  getattr ("_search_" +:+ replace "_api" EmptyString api_name) = None →
  search_platform self query category price_range max_results
                  all_results api_name log
  = (Return all_results, log).
Proof.
  intros Hattr. unfold search_platform. rewrite Hattr.
  by destruct (has_api self api_name).
Qed.

Lemma search_products_nothing_searched {python : Interpreter} self query options log :
  has_api self "amazon_product_api" = false →
  has_api self "walmart_api" = false →
  has_api self "ebay_api" = false →
  has_api self "openai" = false →
  search_products self query options log = (Return [], log).
Proof.
  intros Ha Hw He Ho. unfold search_products. rewrite Ha, Ho.
  unfold for_loop.
  erewrite bind_Return by reflexivity.
  erewrite bind_Return.
  2:{ erewrite bind_Return by (unfold search_platform; rewrite Hw; reflexivity).
      erewrite bind_Return by (unfold search_platform; rewrite He; reflexivity).
      erewrite bind_Return by (by apply search_platform_without_method).
      erewrite bind_Return by (by apply search_platform_without_method).
      reflexivity. }
  run. by rewrite slice_to_nil.
Qed.

(** X23 ([__init__] with [search_products]).  The keys [shopify_api] and
    [etsy_api] are accepted: each is listed in [available_apis] and logged
    as initialized.  With no other key configured [search_products] returns
    the empty list and logs nothing, since there is no search method for
    either platform. *)
Theorem shopify_and_etsy_are_never_searched {python : Interpreter}
    config s log self log' query options l :
  (∀ name, has_key (config_api_keys config) name = true →
           name = "shopify_api" ∨ name = "etsy_api") →
  __init__ config s log = (Return self, log') →
  search_products self query options l = (Return [], l)
  ∧ (has_key (config_api_keys config) "shopify_api" = true →
     has_api self "shopify_api" = true
     ∧ LogRecord INFO "Shopify Api client initialized" ∈ log')
  ∧ (has_key (config_api_keys config) "etsy_api" = true →
     has_api self "etsy_api" = true
     ∧ LogRecord INFO "Etsy Api client initialized" ∈ log').
Proof.
  intros Honly Hinit.
  assert (∀ name, name ≠ "shopify_api" → name ≠ "etsy_api" →
            has_api self name = false) as Hno.
  { intros name Hs He. rewrite (has_api_initialized _ _ _ _ _ _ Hinit).
    unfold initialized.
    destruct (has_key (config_api_keys config) name) eqn:Hkey.
    - by destruct (Honly name Hkey).
    - by rewrite andb_false_r. }
  split; [by apply search_products_nothing_searched; apply Hno|].
  destruct (init_run config s log) as (records & Hrun & _ & _ & _ & Hplatforms).
  rewrite Hrun in Hinit. injection Hinit as <- <-.
  split; intros Hkey.
  - split.
    + unfold has_api. apply bool_decide_eq_true. simpl.
      apply list_elem_of_filter. split; [|unfold known_apis; in_list].
      unfold initialized. by rewrite Hkey.
    + rewrite !elem_of_app. right. left. apply (Hplatforms "shopify_api"); [|done].
      in_list.
  - split.
    + unfold has_api. apply bool_decide_eq_true. simpl.
      apply list_elem_of_filter. split; [|unfold known_apis; in_list].
      unfold initialized. by rewrite Hkey.
    + rewrite !elem_of_app. right. left. apply (Hplatforms "etsy_api"); [|done].
      in_list.
Qed.

Lemma shopify_and_etsy_are_never_searched_witness :
  ∃ self log',
    __init__ (Some Fixture.shopify_key) Fixture.offline [] = (Return self, log')
    ∧ available_apis self = ["shopify_api"]
    ∧ search_products self "shoe" None [] = (Return [], []).
Proof.
  eexists _, _. split; [reflexivity|]. split; [reflexivity|].
  eapply (shopify_and_etsy_are_never_searched
            (Some Fixture.shopify_key) Fixture.offline [] _ _ "shoe" None []);
    [|reflexivity].
  intros name Hkey. unfold has_key in Hkey.
  apply bool_decide_eq_true in Hkey as [v Hv].
  change (config_api_keys (Some Fixture.shopify_key))
    with ({[ "shopify_api" := JStr "key-s" ]} : gmap string json) in Hv.
  apply lookup_singleton_Some in Hv as [<- _]. by left.
Defined.

(** ** The figures [find_best_deal] and [get_price_history] report *)



(** A result without a price is the most expensive one for [min] and costs
    nothing in the average: the savings of the best deal are negative. *)
Lemma savings_can_be_negative :
  ∃ best c,
    fst (find_best_deal Fixture.unpriced "cable" None [])
      = Return (BestDeal (Result.set_comparison best c))
    ∧ get_price best = 5%Q
    ∧ (Comparison.average_price c == 5 # 2)%Q
    ∧ (Comparison.savings c < 0)%Q.
Proof.
  eexists _, _. split; [reflexivity|]. split; [reflexivity|].
  split; vm_compute; congruence.
Qed.

(** X25 ([get_price_history]).  Whenever [get_price_history] returns,
    [days] is at least 1, the history has [days] entries and the current
    price is the price of its last entry: the branch that falls back to the
    base price is never taken. *)
Theorem current_price_is_the_last_price
    w self product_id platform options log result log' :
  get_price_history w self product_id platform options log
    = (Return result, log') →
  1 ≤ history_days options
  ∧ len (History.price_history result) = history_days options
  ∧ ∃ item,
      last (History.price_history result) = Some item
      ∧ History.current_price result = Entry.price item.
Proof.
  unfold get_price_history. unfold bind at 1. unfold call at 1.
  destruct (for_each (history_entry w (history_base_price product_id))
              (range (history_days options))) as [entries|e] eqn:Hloop; [|done].
  set (price_history := sorted Entry.date false entries).
  destruct (Entry.price <$> price_history) as [|x prices] eqn:Hp; [done|].
  assert (Hne : price_history ≠ []) by (intros Hnil; by rewrite Hnil in Hp).
  unfold bind, call, ret, logger, truediv. simpl min. simpl max.
  rewrite inject_Z_len_nonzero by done. simpl. intros [= <- _]. simpl.
  apply for_each_Forall2, Forall2_length in Hloop.
  assert (len price_history = len (range (history_days options))) as Hlen.
  { unfold len, price_history. by rewrite length_sorted, <- Hloop. }
  assert (1 ≤ history_days options) as Hdays.
  { destruct (decide (1 ≤ history_days options)) as [|Hsmall]; [done|].
    rewrite range_nonpositive in Hlen by lia.
    destruct price_history; [done|]. unfold len in Hlen. simpl in Hlen. lia. }
  split; [done|]. split; [rewrite Hlen; apply length_range; lia|].
  destruct (last price_history) as [item|] eqn:Hlast; [by exists item|].
  by apply last_None in Hlast.
Qed.

Lemma current_price_is_the_last_price_witness :
  ∃ result item,
    fst (get_price_history Sample.today Sample.two_shops "12345" "Amazon"
           (Some (HistoryOptions.Make (Some 3))) []) = Return result
    ∧ last (History.price_history result) = Some item
    ∧ History.current_price result = Entry.price item.
Proof.
  destruct (current_price_is_the_last_price
              Sample.today Sample.two_shops "12345" "Amazon"
              (Some (HistoryOptions.Make (Some 3))) [] _ _ eq_refl)
    as (_ & _ & item & Hlast & Hcurrent).
  eexists _, item. split; [reflexivity|]. split; [exact Hlast|exact Hcurrent].
Defined.

(** ** Items of OpenAI that lack a name or a confidence *)

Lemma merge_product_known {python : Interpreter} (l : list Product.t) (D : list Product.t)
    (S : gset string) :
  (∀ q, q ∈ l → name_key q ∈ S) →
  fold_left merge_product l (D, S) = (D, S).
Proof.
  induction l as [|q l IH]; intros Hall; [done|]. simpl.
  rewrite bool_decide_eq_true_2 by (apply Hall; left).
  apply IH. intros x Hx. apply Hall. by right.
Qed.

Lemma merge_products_one_name {python : Interpreter} (p : Product.t) (l : list Product.t) :
  (∀ q, q ∈ l → name_key q = name_key p) →
  merge_products [] (p :: l) = [p].
Proof.
  intros Hall. unfold merge_products. simpl.
  rewrite bool_decide_eq_false_2 by set_solver.
  rewrite merge_product_known; [done|].
  intros q Hq. rewrite (Hall q Hq). set_solver.
Qed.

(** X26 ([_detect_with_openai] with [detect_products]).  An item of OpenAI
    without a name becomes the product "Unknown Product", and one without a
    confidence gets 0.7.  When OpenAI is the only source and none of its
    items has a name or a confidence, the merge keeps the first of them
    only, all having the same key: with [max_results >= 1] the output is
    that one product when the threshold is at most 0.7, and empty
    otherwise. *)
Theorem nameless_openai_items_collapse {python : Interpreter}
    self image_path options log item items :
  has_api self "google_cloud_vision" = false →
  has_api self "openai" = true →
  openai_vision self image_path (is_base64 self image_path)
    = Return (item :: items) →
  (∀ i, i ∈ item :: items → Item.name i = None ∧ Item.confidence i = None) →
  1 ≤ detect_max_results self options →
  Product.name (product_of_item item) = "Unknown Product"
  ∧ Product.confidence (product_of_item item) = Some (7 # 10)
  ∧ fst (detect_products self image_path options log)
    = Return (if ge (7 # 10) (detect_threshold self options)
              then [product_of_item item] else []).
Proof.
  intros Hg Ho Hitems Hbare Hk.
  destruct (Hbare item) as [Hname Hconfidence]; [left|].
  assert (Product.name (product_of_item item) = "Unknown Product") as Hn
    by (unfold product_of_item; simpl; by rewrite Hname).
  assert (Product.confidence (product_of_item item) = Some (7 # 10)) as Hc
    by (unfold product_of_item; simpl; by rewrite Hconfidence).
  split; [done|]. split; [done|].
  rewrite detect_products_value.
  assert (detected self image_path options = [product_of_item item]) as ->.
  { unfold detected, google_products, openai_products, openai_consulted.
    unfold _detect_with_google_vision, _detect_with_openai.
    rewrite Hg, Ho, Hitems. simpl.
    apply merge_products_one_name.
    intros q (i & -> & Hi)%list_elem_of_fmap. unfold name_key.
    destruct (Hbare i) as [Hi1 _]; [by right|].
    unfold product_of_item. simpl. by rewrite Hi1, Hname. }
  assert (get_confidence (product_of_item item) = 7 # 10) as Hscore
    by (unfold get_confidence; by rewrite Hc).
  rewrite filter_cons, filter_nil, Hscore.
  destruct (ge (7 # 10) (detect_threshold self options)); simpl.
  - f_equal. apply ranked_of_Sorted; [repeat constructor|].
    unfold len. simpl. lia.
  - f_equal. apply ranked_nil.
Qed.

Lemma nameless_openai_items_collapse_witness :
  fst (detect_products Fixture.labelless "shelf.jpg" None [])
  = Return [product_of_item (Item.Make None None None None None None)].
Proof.
  destruct (nameless_openai_items_collapse
              Fixture.labelless "shelf.jpg" None []
              (Item.Make None None None None None None)
              [Item.Make None None (Some (JStr "Acme")) None None None])
    as (_ & _ & Hrun); [reflexivity|reflexivity|reflexivity| | |].
  - intros i Hi. rewrite !elem_of_cons, elem_of_nil in Hi.
    by destruct Hi as [->|[->|[]]].
  - vm_compute. congruence.
  - exact Hrun.
Defined.
